(** * mod_authn_otp: the OTP verification engine

    A shallow embedding of [mod_authn_otp.c] (record codec, code
    generators, users-file store, the basic and the digest authentication
    provider, and the per-directory configuration) together with the
    properties of its specification and further properties of the code.

    Conventions.
    - C strings are [cstring] (lists of characters, the terminating NUL
      left implicit); [snprintf_s] keeps the truncation of the fixed-size
      buffers the source prints into.
    - Integers are [Z]. Widths follow the LP64 data model of the platforms
      the module is built on: [int] is 32 bits, [long], [time_t], [size_t]
      and [u_long] are 64 bits. Narrowing conversions are written out with
      [to_int], [to_long] and [to_ulong].
    - Octets are [Z] in [0, 256).
    - The OpenSSL primitives the source calls (SHA-1, HMAC, MD5) are
      defined from their standards (FIPS 180-1, RFC 2104, RFC 1321).
    - The C library's calendar conversions ([strftime]/[localtime] and
      [strptime]/[mktime]) depend on the time zone of the host; they are
      parameters of the development. *)

From Stdlib Require Import ZArith List Ascii String Bool Lia Arith.
Import ListNotations.
Local Open Scope Z_scope.

(* ================================================================= *)
(** ** Machine integers *)

Definition INT_MIN : Z := - 2 ^ 31.
Definition INT_MAX : Z := 2 ^ 31 - 1.
Definition LONG_MIN : Z := - 2 ^ 63.
Definition LONG_MAX : Z := 2 ^ 63 - 1.

(** Conversion to a signed [w]-bit integer (two's complement wrap). *)
Definition wrap_signed (w : Z) (z : Z) : Z :=
  (z + 2 ^ (w - 1)) mod 2 ^ w - 2 ^ (w - 1).

Definition to_int (z : Z) : Z := wrap_signed 32 z.
Definition to_long (z : Z) : Z := wrap_signed 64 z.
Definition to_ulong (z : Z) : Z := z mod 2 ^ 64.
Definition to_u32 (z : Z) : Z := z mod 2 ^ 32.

Definition in_int (z : Z) : Prop := INT_MIN <= z <= INT_MAX.
Definition in_long (z : Z) : Prop := LONG_MIN <= z <= LONG_MAX.

(* ================================================================= *)
(** ** C strings *)

Definition cstring : Type := list ascii.

Definition str (s : string) : cstring := list_ascii_of_string s.

Definition ascii_eqb (a b : ascii) : bool := Ascii.eqb a b.

Fixpoint cstr_eqb (a b : cstring) : bool :=
  match a, b with
  | [], [] => true
  | x :: a', y :: b' => ascii_eqb x y && cstr_eqb a' b'
  | _, _ => false
  end.

Definition code (c : ascii) : Z := Z.of_N (N_of_ascii c).
Definition chr (z : Z) : ascii := ascii_of_N (Z.to_N z).

Definition apr_isdigit (c : ascii) : bool :=
  (48 <=? code c) && (code c <=? 57).

Definition apr_isxdigit (c : ascii) : bool :=
  apr_isdigit c
  || ((97 <=? code c) && (code c <=? 102))
  || ((65 <=? code c) && (code c <=? 70)).

Definition apr_tolower (c : ascii) : ascii :=
  if (65 <=? code c) && (code c <=? 90) then chr (code c + 32) else c.

(** [strcmp(a, b) == 0] *)
Definition strcmp0 (a b : cstring) : bool := cstr_eqb a b.

(** [strcasecmp(a, b) == 0] *)
Definition strcasecmp0 (a b : cstring) : bool :=
  cstr_eqb (map apr_tolower a) (map apr_tolower b).

(** [strncmp(s, p, strlen(p)) == 0]: [p] is a prefix of [s]. *)
Fixpoint strncmp0_len (s p : cstring) {struct p} : bool :=
  match p with
  | [] => true
  | y :: p' =>
      match s with
      | [] => false
      | x :: s' => ascii_eqb x y && strncmp0_len s' p'
      end
  end.

Definition strlen (s : cstring) : Z := Z.of_nat (List.length s).

(** [*s == c] for a character [c] other than NUL. *)
Definition hd_is (c : ascii) (s : cstring) : bool :=
  match s with
  | [] => false
  | x :: _ => ascii_eqb x c
  end.

(** [apr_snprintf(buf, size, "%s", s)]: at most [size - 1] characters. *)
Definition snprintf_s (size : nat) (s : cstring) : cstring :=
  firstn (size - 1) s.

Definition WHITESPACE : cstring :=
  [" "%char; "009"%char; "013"%char; "010"%char; "011"%char].

(** [strchr(sep, c) != NULL] for a character [c] of the string. *)
Definition strchr (sep : cstring) (c : ascii) : bool :=
  existsb (ascii_eqb c) sep.

Fixpoint skip_sep (sep : cstring) (s : cstring) : cstring :=
  match s with
  | [] => []
  | c :: s' => if strchr sep c then skip_sep sep s' else s
  end.

(** The characters up to the next separator, and what follows it. *)
Fixpoint span_token (sep : cstring) (s : cstring) : cstring * cstring :=
  match s with
  | [] => ([], [])
  | c :: s' =>
      if strchr sep c then ([], s')
      else let (t, r) := span_token sep s' in (c :: t, r)
  end.

(** [apr_strtok]: the next token and the saved position [last], or
    [None] when only separators are left. *)
Definition apr_strtok (sep : cstring) (s : cstring) : option (cstring * cstring) :=
  match skip_sep sep s with
  | [] => None
  | c :: s' => let (t, r) := span_token sep s' in Some (c :: t, r)
  end.

(* ================================================================= *)
(** ** Number formatting and parsing *)

Definition digit_char (d : Z) : ascii := chr (48 + d).

Definition hexdig (d : Z) : ascii :=
  nth (Z.to_nat d) (str "0123456789abcdef") "0"%char.

(** The digits of a non-negative number in base [b], most significant
    first; [fuel] bounds the number of digits after the first. *)
Fixpoint digits_fuel (b : Z) (dig : Z -> ascii) (fuel : nat) (n : Z) : cstring :=
  match fuel with
  | O => [dig (n mod b)]
  | S f =>
      if n <? b then [dig n]
      else digits_fuel b dig f (n / b) ++ [dig (n mod b)]
  end.

Definition dec_digits (n : Z) : cstring :=
  digits_fuel 10 digit_char (Z.to_nat (Z.log2 n)) n.

Definition hex_digits (n : Z) : cstring :=
  digits_fuel 16 hexdig (Z.to_nat (Z.log2 n)) n.

Definition pad_left (c : ascii) (width : Z) (s : cstring) : cstring :=
  repeat c (Z.to_nat width - List.length s) ++ s.

Definition pad_right (c : ascii) (width : Z) (s : cstring) : cstring :=
  s ++ repeat c (Z.to_nat width - List.length s).

(** ["%d"] and ["%ld"] *)
Definition fmt_d (n : Z) : cstring :=
  if n <? 0 then "-"%char :: dec_digits (- n) else dec_digits n.

(** ["%0*d"] *)
Definition fmt_0d (width : Z) (n : Z) : cstring :=
  if n <? 0 then "-"%char :: pad_left "0"%char (width - 1) (dec_digits (- n))
  else pad_left "0"%char width (dec_digits n).

(** ["%0*x"] of an [int] (printed as [unsigned]) *)
Definition fmt_0x (width : Z) (n : Z) : cstring :=
  pad_left "0"%char width (hex_digits (to_u32 n)).

(** ["%-7s"] and the like *)
Definition fmt_ls (width : Z) (s : cstring) : cstring :=
  pad_right " "%char width s.

(** ["%-7ld"] *)
Definition fmt_ld_left (width : Z) (n : Z) : cstring :=
  pad_right " "%char width (fmt_d n).

(** ["%02x"] of an octet *)
Definition fmt_02x (b : Z) : cstring :=
  [hexdig (b / 16); hexdig (b mod 16)].

(** The digit loop of [strtol]/[atol] in base ten: the value read
    and the first character not consumed. *)
Fixpoint digits_loop (s : cstring) (acc : Z) : Z * cstring :=
  match s with
  | c :: s' =>
      if apr_isdigit c then digits_loop s' (acc * 10 + (code c - 48))
      else (acc, s)
  | [] => (acc, [])
  end.

Definition clamp_long (z : Z) : Z :=
  if z <? LONG_MIN then LONG_MIN
  else if LONG_MAX <? z then LONG_MAX else z.

(** [strtol(t, &eptr, 10)] on a string that starts with a digit. *)
Definition strtol10 (t : cstring) : Z * cstring :=
  let (v, e) := digits_loop t 0 in (clamp_long v, e).

(** [atol]: leading white space, an optional sign, then digits. *)
Definition isspace (c : ascii) : bool :=
  strchr (" "%char :: "009"%char :: "010"%char :: "011"%char
          :: "012"%char :: "013"%char :: nil) c.

Fixpoint skip_space (s : cstring) : cstring :=
  match s with
  | c :: s' => if isspace c then skip_space s' else s
  | [] => []
  end.

Definition atol (s : cstring) : Z :=
  let s := skip_space s in
  if hd_is "-" s then clamp_long (- fst (digits_loop (tl s) 0))
  else if hd_is "+" s then clamp_long (fst (digits_loop (tl s) 0))
  else clamp_long (fst (digits_loop s 0)).

(* ================================================================= *)
(** ** Octet strings and 32-bit words *)

Definition octets : Type := list Z.

Definition octets_of_cstring (s : cstring) : octets := map code s.

Definition add32 (a b : Z) : Z := (a + b) mod 2 ^ 32.

Definition rotl32 (x : Z) (n : Z) : Z :=
  Z.lor (Z.shiftl x n mod 2 ^ 32) (Z.shiftr x (32 - n)).

Definition not32 (x : Z) : Z := Z.lxor x (2 ^ 32 - 1).

(** Big-endian encoding of the low [8 * n] bits of [v] in [n] octets. *)
Fixpoint be_octets (n : nat) (v : Z) : octets :=
  match n with
  | O => []
  | S n' => be_octets n' (Z.shiftr v 8) ++ [Z.land v 255]
  end.

Fixpoint le_octets (n : nat) (v : Z) : octets :=
  match n with
  | O => []
  | S n' => Z.land v 255 :: le_octets n' (Z.shiftr v 8)
  end.

Definition be_word (b : octets) : Z :=
  fold_left (fun acc x => Z.lor (Z.shiftl acc 8) x) b 0.

Definition le_word (b : octets) : Z := be_word (rev b).

(** Cut an octet string in pieces of [k] octets ([n] pieces at most). *)
Fixpoint chunks (n : nat) (k : nat) (b : octets) : list octets :=
  match n with
  | O => []
  | S n' =>
      match b with
      | [] => []
      | _ => firstn k b :: chunks n' k (skipn k b)
      end
  end.

Definition words_of (word : octets -> Z) (block : octets) : list Z :=
  map word (chunks 16 4 block).

(** Merkle-Damgard padding: 0x80, zeros, and the bit length in 8 octets. *)
Definition md_pad (len_octets : nat -> Z -> octets) (msg : octets) : octets :=
  let l := Z.of_nat (List.length msg) in
  let k := (55 - l) mod 64 in
  msg ++ [128] ++ repeat 0 (Z.to_nat k) ++ len_octets 8%nat (8 * l).

Definition blocks_of (msg : octets) : list octets :=
  chunks (S (List.length msg / 64)) 64 msg.

(* ================================================================= *)
(** ** SHA-1 (FIPS 180-1) and HMAC (RFC 2104), as OpenSSL computes them *)

Definition sha1_f (t : nat) (b c d : Z) : Z :=
  if (t <? 20)%nat then Z.lor (Z.land b c) (Z.land (not32 b) d)
  else if (t <? 40)%nat then Z.lxor (Z.lxor b c) d
  else if (t <? 60)%nat then
    Z.lor (Z.lor (Z.land b c) (Z.land b d)) (Z.land c d)
  else Z.lxor (Z.lxor b c) d.

Definition sha1_k (t : nat) : Z :=
  if (t <? 20)%nat then 0x5A827999
  else if (t <? 40)%nat then 0x6ED9EBA1
  else if (t <? 60)%nat then 0x8F1BBCDC
  else 0xCA62C1D6.

(** Message schedule, most recent word first. *)
Fixpoint sha1_schedule (n : nat) (w : list Z) : list Z :=
  match n with
  | O => w
  | S n' =>
      let x := Z.lxor (Z.lxor (nth 2 w 0) (nth 7 w 0))
                      (Z.lxor (nth 13 w 0) (nth 15 w 0)) in
      sha1_schedule n' (rotl32 x 1 :: w)
  end.

Definition sha1_state : Type := (Z * Z * Z * Z * Z)%type.

Definition sha1_round (st : sha1_state) (tw : nat * Z) : sha1_state :=
  let '(a, b, c, d, e) := st in
  let (t, w) := tw in
  let tmp := add32 (add32 (add32 (add32 (rotl32 a 5) (sha1_f t b c d)) e) w)
                   (sha1_k t) in
  (tmp, a, rotl32 b 30, c, d).

Definition sha1_block (h : sha1_state) (block : octets) : sha1_state :=
  let w := rev (sha1_schedule 64 (rev (words_of be_word block))) in
  let '(a, b, c, d, e) := fold_left sha1_round (combine (seq 0 80) w) h in
  let '(h0, h1, h2, h3, h4) := h in
  (add32 h0 a, add32 h1 b, add32 h2 c, add32 h3 d, add32 h4 e).

Definition sha1_init : sha1_state :=
  (0x67452301, 0xEFCDAB89, 0x98BADCFE, 0x10325476, 0xC3D2E1F0).

Definition SHA1 (msg : octets) : octets :=
  let '(h0, h1, h2, h3, h4) :=
    fold_left sha1_block (blocks_of (md_pad be_octets msg)) sha1_init in
  be_octets 4 h0 ++ be_octets 4 h1 ++ be_octets 4 h2
    ++ be_octets 4 h3 ++ be_octets 4 h4.

Definition xor_pad (p : Z) (k : octets) : octets :=
  map (fun x => Z.lxor x p) k.

(** [HMAC(EVP_sha1(), key, keylen, data, len, hash, &hash_len)] *)
Definition HMAC_SHA1 (key data : octets) : octets :=
  let k0 := if (64 <? List.length key)%nat then SHA1 key else key in
  let k := k0 ++ repeat 0 (64 - List.length k0) in
  SHA1 (xor_pad 0x5c k ++ SHA1 (xor_pad 0x36 k ++ data)).

(* ================================================================= *)
(** ** MD5 (RFC 1321), as OpenSSL computes it *)

Definition md5_s : list Z :=
  [7; 12; 17; 22; 7; 12; 17; 22; 7; 12; 17; 22; 7; 12; 17; 22;
   5; 9; 14; 20; 5; 9; 14; 20; 5; 9; 14; 20; 5; 9; 14; 20;
   4; 11; 16; 23; 4; 11; 16; 23; 4; 11; 16; 23; 4; 11; 16; 23;
   6; 10; 15; 21; 6; 10; 15; 21; 6; 10; 15; 21; 6; 10; 15; 21].

Definition md5_k : list Z :=
  [0xd76aa478; 0xe8c7b756; 0x242070db; 0xc1bdceee;
   0xf57c0faf; 0x4787c62a; 0xa8304613; 0xfd469501;
   0x698098d8; 0x8b44f7af; 0xffff5bb1; 0x895cd7be;
   0x6b901122; 0xfd987193; 0xa679438e; 0x49b40821;
   0xf61e2562; 0xc040b340; 0x265e5a51; 0xe9b6c7aa;
   0xd62f105d; 0x02441453; 0xd8a1e681; 0xe7d3fbc8;
   0x21e1cde6; 0xc33707d6; 0xf4d50d87; 0x455a14ed;
   0xa9e3e905; 0xfcefa3f8; 0x676f02d9; 0x8d2a4c8a;
   0xfffa3942; 0x8771f681; 0x6d9d6122; 0xfde5380c;
   0xa4beea44; 0x4bdecfa9; 0xf6bb4b60; 0xbebfbc70;
   0x289b7ec6; 0xeaa127fa; 0xd4ef3085; 0x04881d05;
   0xd9d4d039; 0xe6db99e5; 0x1fa27cf8; 0xc4ac5665;
   0xf4292244; 0x432aff97; 0xab9423a7; 0xfc93a039;
   0x655b59c3; 0x8f0ccc92; 0xffeff47d; 0x85845dd1;
   0x6fa87e4f; 0xfe2ce6e0; 0xa3014314; 0x4e0811a1;
   0xf7537e82; 0xbd3af235; 0x2ad7d2bb; 0xeb86d391].

Definition md5_state : Type := (Z * Z * Z * Z)%type.

Definition md5_round (m : list Z) (st : md5_state) (i : nat) : md5_state :=
  let '(a, b, c, d) := st in
  let '(f, g) :=
    if (i <? 16)%nat then
      (Z.lor (Z.land b c) (Z.land (not32 b) d), i)
    else if (i <? 32)%nat then
      (Z.lor (Z.land d b) (Z.land (not32 d) c), ((5 * i + 1) mod 16)%nat)
    else if (i <? 48)%nat then
      (Z.lxor (Z.lxor b c) d, ((3 * i + 5) mod 16)%nat)
    else
      (Z.lxor c (Z.lor b (not32 d)), ((7 * i) mod 16)%nat) in
  let x := add32 (add32 (add32 a f) (nth i md5_k 0)) (nth g m 0) in
  (d, add32 b (rotl32 x (nth i md5_s 0)), b, c).

Definition md5_block (h : md5_state) (block : octets) : md5_state :=
  let m := words_of le_word block in
  let '(a, b, c, d) := fold_left (md5_round m) (seq 0 64) h in
  let '(a0, b0, c0, d0) := h in
  (add32 a0 a, add32 b0 b, add32 c0 c, add32 d0 d).

Definition md5_init : md5_state :=
  (0x67452301, 0xefcdab89, 0x98badcfe, 0x10325476).

Definition MD5 (msg : octets) : octets :=
  let '(a, b, c, d) :=
    fold_left md5_block (blocks_of (md_pad le_octets msg)) md5_init in
  le_octets 4 a ++ le_octets 4 b ++ le_octets 4 c ++ le_octets 4 d.

Definition hex_of_octets (b : octets) : cstring := flat_map fmt_02x b.

(* ================================================================= *)
(** ** Definitions of the module *)

Definition OTP_ALGORITHM_HOTP : Z := 1.
Definition OTP_ALGORITHM_MOTP : Z := 2.
Definition DEFAULT_NUM_DIGITS : Z := 6.
Definition DEFAULT_MAX_OFFSET : Z := 4.
Definition DEFAULT_MAX_LINGER : Z := 10 * 60.
Definition MOTP_TIME_INTERVAL : Z := 10.
Definition OTP_BUF_SIZE : nat := 16.

(** [struct otp_config]; [users_file] is [None] for a NULL pointer. *)
Record otp_config : Type := mk_config {
  users_file : option cstring;
  max_offset : Z;
  max_linger : Z
}.

(** [struct otp_user]; [key] holds the [keylen] octets in use. *)
Record otp_user : Type := mk_user {
  algorithm : Z;
  time_interval : Z;
  num_digits : Z;
  username : cstring;
  key : octets;
  pin : cstring;
  offset : Z;
  last_otp : cstring;
  last_auth : Z
}.

(** The field [keylen]. *)
Definition keylen (u : otp_user) : Z := Z.of_nat (List.length (key u)).

(** A record cleared by [memset]. *)
Definition zero_user : otp_user := mk_user 0 0 0 [] [] [] 0 [] 0.

Definition set_tokinfo (u : otp_user) (a ti nd : Z) : otp_user :=
  mk_user a ti nd (username u) (key u) (pin u) (offset u) (last_otp u) (last_auth u).
Definition set_time_interval (u : otp_user) (ti : Z) : otp_user :=
  mk_user (algorithm u) ti (num_digits u) (username u) (key u) (pin u)
          (offset u) (last_otp u) (last_auth u).
Definition set_num_digits (u : otp_user) (nd : Z) : otp_user :=
  mk_user (algorithm u) (time_interval u) nd (username u) (key u) (pin u)
          (offset u) (last_otp u) (last_auth u).
Definition set_username (u : otp_user) (s : cstring) : otp_user :=
  mk_user (algorithm u) (time_interval u) (num_digits u) s (key u) (pin u)
          (offset u) (last_otp u) (last_auth u).
Definition set_key (u : otp_user) (k : octets) : otp_user :=
  mk_user (algorithm u) (time_interval u) (num_digits u) (username u) k (pin u)
          (offset u) (last_otp u) (last_auth u).
Definition set_pin (u : otp_user) (s : cstring) : otp_user :=
  mk_user (algorithm u) (time_interval u) (num_digits u) (username u) (key u) s
          (offset u) (last_otp u) (last_auth u).
Definition set_offset (u : otp_user) (o : Z) : otp_user :=
  mk_user (algorithm u) (time_interval u) (num_digits u) (username u) (key u)
          (pin u) o (last_otp u) (last_auth u).
Definition set_last_otp (u : otp_user) (s : cstring) : otp_user :=
  mk_user (algorithm u) (time_interval u) (num_digits u) (username u) (key u)
          (pin u) (offset u) s (last_auth u).
Definition set_last_auth (u : otp_user) (t : Z) : otp_user :=
  mk_user (algorithm u) (time_interval u) (num_digits u) (username u) (key u)
          (pin u) (offset u) (last_otp u) t.

Definition powers10 : list Z :=
  [10; 100; 1000; 10000; 100000; 1000000; 10000000; 100000000;
   1000000000; 1000000000].

(** The number of entries of [powers10]. *)
Definition powers10_len : Z := Z.of_nat (List.length powers10).

(* ----------------------------------------------------------------- *)
(** *** Code generators *)

Definition octet_at (hash : octets) (i : Z) : Z := nth (Z.to_nat i) hash 0.

(** The dynamic truncation of [hotp]: [offset] and [value]. *)
Definition hotp_offset (hash : octets) : Z :=
  Z.land (octet_at hash (Z.of_nat (List.length hash) - 1)) 0x0f.

Definition hotp_value (hash : octets) : Z :=
  let offset := hotp_offset hash in
  Z.lor (Z.lor (Z.lor (Z.shiftl (Z.land (octet_at hash offset) 0x7f) 24)
                      (Z.shiftl (Z.land (octet_at hash (offset + 1)) 0xff) 16))
               (Z.shiftl (Z.land (octet_at hash (offset + 2)) 0xff) 8))
        (Z.land (octet_at hash (offset + 3)) 0xff).

(** [hotp]: the decimal and the hexadecimal OTP ([buf10], [buf16]) for a
    [u_long] counter. *)
Definition hotp (key : octets) (counter : Z) (ndigits : Z) (buflen : nat)
  : cstring * cstring :=
  let max10 := powers10_len in
  let max16 := 8 in
  (* Encode counter *)
  let tosign := be_octets 8 counter in
  (* Compute HMAC *)
  let hash := HMAC_SHA1 key tosign in
  (* Extract selected bytes to get 32 bit integer value *)
  let value := hotp_value hash in
  (* Sanity check max # digits *)
  let ndigits := if ndigits <? 1 then 1 else ndigits in
  (* Generate decimal digits *)
  let buf10 :=
    snprintf_s buflen
      (fmt_0d (if ndigits <? max10 then ndigits else max10)
              (if ndigits <? max10
               then Z.rem value (nth (Z.to_nat (ndigits - 1)) powers10 0)
               else value)) in
  (* Generate hexadecimal digits *)
  let buf16 :=
    snprintf_s buflen
      (fmt_0x (if ndigits <? max16 then ndigits else max16)
              (if ndigits <? max16
               then Z.land value (Z.shiftl 1 (4 * ndigits) - 1)
               else value)) in
  (buf10, buf16).

(** The loop of [printhex], from index [i], for a buffer of at least one
    character ([buflen - 1] does not wrap around); the callers pass
    buffers of 256 and 16 characters. *)
Fixpoint printhex_loop (fuel : nat) (i : Z) (buflen : Z) (data : octets)
    (max_digits : Z) : cstring :=
  match fuel with
  | O => []
  | S f =>
      if (i / 2 <? Z.of_nat (List.length data)) && (i <? max_digits)
         && (i <? buflen - 1)
      then
        let val := octet_at data (i / 2) in
        let val := if Z.land i 1 =? 0 then Z.shiftr val 4 else val in
        hexdig (Z.land val 0x0f)
          :: printhex_loop f (i + 1) buflen data max_digits
      else []
  end.

Definition printhex (buflen : nat) (data : octets) (max_digits : Z) : cstring :=
  printhex_loop (2 * List.length data) 0 (Z.of_nat buflen) data max_digits.

(** ["%lu"] *)
Definition fmt_lu (n : Z) : cstring := dec_digits (to_ulong n).

(** [motp]: the hexadecimal mOTP for a [u_long] counter. *)
Definition motp (key : octets) (pin : cstring) (counter : Z) (ndigits : Z)
    (buflen : nat) : cstring :=
  let keybuf := printhex 256 key (Z.of_nat (List.length key) * 2) in
  let hashbuf := snprintf_s 256 (fmt_lu counter ++ keybuf ++ pin) in
  let hash := MD5 (octets_of_cstring hashbuf) in
  printhex buflen hash ndigits.

(* ----------------------------------------------------------------- *)
(** *** Codec: token types *)

Definition is_end (s : cstring) : bool :=
  match s with [] => true | _ => false end.

(** [isdigit] of the first character; the terminating NUL is not a digit. *)
Definition isdigit_hd (t : cstring) : bool :=
  match t with [] => false | c :: _ => apr_isdigit c end.

(** [parse_token_type], its last part: the number of digits, from the
    position [last] of the tokenizer. *)
Definition parse_num_digits (tokinfo : otp_user) (last : cstring)
  : option otp_user :=
  (* Parse #digits *)
  match apr_strtok (str "/") last with
  | None => Some tokinfo
  | Some (t, last) =>
      if negb (isdigit_hd t) then None
      else
        let (v, eptr) := strtol10 t in
        let tokinfo := set_num_digits tokinfo (to_int v) in
        if (num_digits tokinfo <=? 0) || negb (is_end eptr)
           || (powers10_len <? num_digits tokinfo)
        then None else Some tokinfo
  end.

(** [parse_token_type], its middle part: event or time-based. *)
Definition parse_interval (tokinfo : otp_user) (last : cstring)
  : option otp_user :=
  (* Parse token type: event or time-based *)
  match apr_strtok (str "/") last with
  | None => Some tokinfo
  | Some (t, last) =>
      if strcmp0 t (str "E") then
        parse_num_digits (set_time_interval tokinfo 0) last
      else if hd_is "T" t then
        let t := tl t in
        if negb (isdigit_hd t) then None
        else
          let (v, eptr) := strtol10 t in
          let tokinfo := set_time_interval tokinfo (to_int v) in
          if (time_interval tokinfo <=? 0) || negb (is_end eptr)
          then None else parse_num_digits tokinfo last
      else None
  end.

(** [parse_token_type]: [Some tokinfo] for a return value of 0, [None]
    for -1. *)
Definition parse_token_type (type : cstring) : option otp_user :=
  (* Backwards compatibility hack *)
  let type :=
    if strcmp0 type (str "E") then str "HOTP/E"
    else if strcmp0 type (str "T") then str "HOTP/T30"
    else type in
  (* Initialize *)
  let tokinfo := zero_user in
  let tokbuf := snprintf_s 128 type in
  (* Parse algorithm *)
  match apr_strtok (str "/") tokbuf with
  | None => None
  | Some (t, last) =>
      (* Apply per-algorithm defaults *)
      if strcasecmp0 t (str "HOTP") then
        parse_interval
          (set_tokinfo tokinfo OTP_ALGORITHM_HOTP 0 DEFAULT_NUM_DIGITS) last
      else if strcasecmp0 t (str "MOTP") then
        parse_interval
          (set_tokinfo tokinfo OTP_ALGORITHM_MOTP MOTP_TIME_INTERVAL
                       DEFAULT_NUM_DIGITS) last
      else None
  end.

(** The token type [print_user] formats into [tbuf]. *)
Definition print_token_type (user : otp_user) : cstring :=
  (* Format token type sub-fields *)
  let alg :=
    if algorithm user =? OTP_ALGORITHM_HOTP then str "HOTP"
    else if algorithm user =? OTP_ALGORITHM_MOTP then str "MOTP"
    else str "???" in
  let cbuf :=
    snprintf_s 64
      (if time_interval user =? 0 then str "/E"
       else str "/T" ++ fmt_d (time_interval user)) in
  let nbuf := snprintf_s 64 (str "/" ++ fmt_d (num_digits user)) in
  (* Abbreviate when default values apply *)
  let nbuf' := if num_digits user =? DEFAULT_NUM_DIGITS then [] else nbuf in
  let cbuf' :=
    if num_digits user =? DEFAULT_NUM_DIGITS then
      if (algorithm user =? OTP_ALGORITHM_HOTP) && (time_interval user =? 0)
      then []
      else if (algorithm user =? OTP_ALGORITHM_MOTP)
              && (time_interval user =? 10)
      then []
      else cbuf
    else cbuf in
  snprintf_s 128 (alg ++ cbuf' ++ nbuf').

(* ----------------------------------------------------------------- *)
(** *** Users file and its I/O *)

Inductive authn_status : Type :=
  | AUTH_DENIED
  | AUTH_GRANTED
  | AUTH_USER_FOUND
  | AUTH_USER_NOT_FOUND
  | AUTH_GENERAL_ERROR.

(** The reasons [find_update_user] prints into [invalid_reason]. *)
Inductive invalid_reason : Type :=
  | InvalidTokenType (s : cstring)
  | MissingUsername
  | MissingPIN
  | MissingKey
  | InvalidKey (s : cstring)
  | MissingTimestamp
  | InvalidTimestamp (s : cstring).

(** The three paths the module touches: the users file, the new file
    ([NEWFILE_SUFFIX]) and the lock file ([LOCKFILE_SUFFIX]); [None] for
    a file that does not exist. *)
Record filesys : Type := mk_fs {
  fs_users : option cstring;
  fs_new : option cstring;
  fs_lock : option cstring
}.

(** The status of the calls that can fail: [true] for a status of 0.
    [apr_file_gets], [apr_file_puts] and [apr_file_printf] have no entry:
    the source does not look at their status. *)
Record io_outcome : Type := mk_io {
  io_lock_open : bool;
  io_lock : bool;
  io_users_open : bool;
  io_new_open : bool;
  io_rename : bool
}.

Definition io_ok : io_outcome := mk_io true true true true true.

Definition newline : ascii := "010"%char.

(** [apr_file_gets(linebuf, n + 1, file)]: at most [n] characters, up to
    and including the first newline; the line read and what is left. *)
Fixpoint apr_file_gets (n : nat) (s : cstring) : cstring * cstring :=
  match n, s with
  | O, _ => ([], s)
  | _, [] => ([], [])
  | S n', c :: s' =>
      if ascii_eqb c newline then ([c], s')
      else let (l, r) := apr_file_gets n' s' in (c :: l, r)
  end.

(** The lines the scan loop reads through [linebuf[1024]]. *)
Fixpoint read_lines (fuel : nat) (s : cstring) : list cstring :=
  match fuel with
  | O => []
  | S f =>
      match s with
      | [] => []
      | _ => let (l, r) := apr_file_gets 1023 s in l :: read_lines f r
      end
  end.

Definition file_lines (content : cstring) : list cstring :=
  read_lines (List.length content) content.

(** The NUL byte. [apr_file_gets] stores the bytes of the file as they
    are, a NUL byte among them, and puts a NUL after the last one. *)
Definition NUL : ascii := "000"%char.

(** A character array taken as a string: the characters before its first
    NUL. That is what [apr_snprintf] with "%s", [*linebuf], [apr_strtok]
    and [apr_file_puts] see of [linebuf] and [linecopy]. *)
Fixpoint c_str (buf : cstring) : cstring :=
  match buf with
  | [] => []
  | c :: buf' => if ascii_eqb c NUL then [] else c :: c_str buf'
  end.

(** The string in [linebuf] in each iteration of the scan loop, from the
    first line read to the last. *)
Definition linebuf_lines (content : cstring) : list cstring :=
  map c_str (file_lines content).

Definition hex_nibble (c : ascii) : option Z :=
  if apr_isdigit c then Some (code c - 48)
  else if apr_isxdigit c then Some (code (apr_tolower c) - 97 + 10)
  else None.

(** The key loop of [find_update_user]: the octets read so far, and
    [inl s] with the rest of the field when it stops at a character that
    is not a hex digit. *)
Fixpoint parse_key (room : nat) (s : cstring) (acc : octets)
  : octets * (cstring + unit) :=
  match room with
  | O => (acc, inr tt)
  | S room' =>
      match s with
      | [] => (acc, inr tt)
      | c0 :: s1 =>
          match hex_nibble c0 with
          | None => (acc, inl s)
          | Some n0 =>
              match s1 with
              | [] => (acc, inl s1)
              | c1 :: s2 =>
                  match hex_nibble c1 with
                  | None => (acc, inl s1)
                  | Some n1 =>
                      parse_key room' s2
                        (acc ++ [Z.lor (Z.shiftl n0 4) n1])
                  end
              end
          end
      end
  end.

(** What the body of the scan loop does with one line. *)
Inductive line_result : Type :=
  | LineCopy                              (* goto copy *)
  | LineInvalid (why : invalid_reason)    (* goto invalid *)
  | LineUpdate                            (* print_user; continue *)
  | LineFound.                            (* goto found *)

(** [get_config]: defaults for the values left unset. *)
Definition get_config (dir_conf : otp_config) : otp_config :=
  mk_config (users_file dir_conf)
    (if max_offset dir_conf =? -1 then DEFAULT_MAX_OFFSET
     else max_offset dir_conf)
    (if max_linger dir_conf =? -1 then DEFAULT_MAX_LINGER
     else max_linger dir_conf).

(* ----------------------------------------------------------------- *)
(** *** A host in the UTC time zone

    An instance of the calendar conversions of the C library, for a host
    whose local time is UTC (proleptic Gregorian calendar, no leap
    seconds) and for the years 1000 to 9999, read back from the text as
    it is printed (fields of full width, no white space); the examples
    below run on it. *)

Definition days_from_civil (y m d : Z) : Z :=
  let y := if m <=? 2 then y - 1 else y in
  let era := y / 400 in
  let yoe := y - era * 400 in
  let doy := (153 * (if 2 <? m then m - 3 else m + 9) + 2) / 5 + d - 1 in
  let doe := yoe * 365 + yoe / 4 - yoe / 100 + doy in
  era * 146097 + doe - 719468.

Definition civil_from_days (z : Z) : Z * Z * Z :=
  let z := z + 719468 in
  let era := z / 146097 in
  let doe := z - era * 146097 in
  let yoe := (doe - doe / 1460 + doe / 36524 - doe / 146096) / 365 in
  let doy := doe - (365 * yoe + yoe / 4 - yoe / 100) in
  let mp := (5 * doy + 2) / 153 in
  let d := doy - (153 * mp + 2) / 5 + 1 in
  let m := if mp <? 10 then mp + 3 else mp - 9 in
  let y := yoe + era * 400 in
  ((if m <=? 2 then y + 1 else y), m, d).

(** [TIME_FORMAT], ["%Y-%m-%dT%H:%M:%SL"], for the time [t] in UTC. *)
Definition utc_strftime (t : Z) : cstring :=
  let '(y, m, d) := civil_from_days (t / 86400) in
  let s := t mod 86400 in
  fmt_0d 4 y ++ str "-" ++ fmt_0d 2 m ++ str "-" ++ fmt_0d 2 d ++ str "T"
    ++ fmt_0d 2 (s / 3600) ++ str ":" ++ fmt_0d 2 (s / 60 mod 60) ++ str ":"
    ++ fmt_0d 2 (s mod 60) ++ str "L".

(** A field of [k] digits followed by the character [c]. *)
Definition time_field (k : nat) (c : ascii) (s : cstring)
  : option (Z * cstring) :=
  let ds := firstn k s in
  match skipn k s with
  | c' :: r =>
      if forallb apr_isdigit ds && (List.length ds =? k)%nat && ascii_eqb c c'
      then Some (fst (digits_loop ds 0), r) else None
  | [] => None
  end.

Definition utc_strptime_mktime (s : cstring) : option Z :=
  match time_field 4 "-" s with
  | None => None
  | Some (y, s) =>
  match time_field 2 "-" s with
  | None => None
  | Some (m, s) =>
  match time_field 2 "T" s with
  | None => None
  | Some (d, s) =>
  match time_field 2 ":" s with
  | None => None
  | Some (hh, s) =>
  match time_field 2 ":" s with
  | None => None
  | Some (mm, s) =>
  match time_field 2 "L" s with
  | None => None
  | Some (ss, s) =>
      if is_end s && (1 <=? m) && (m <=? 12) && (1 <=? d) && (d <=? 31)
         && (hh <=? 23) && (mm <=? 59) && (ss <=? 61)
      then Some (days_from_civil y m d * 86400 + hh * 3600 + mm * 60 + ss)
      else None
  end end end end end end.

Section Engine.

(** [strftime(tbuf, sizeof(tbuf), TIME_FORMAT, localtime(&t))] *)
Variable strftime_local : Z -> cstring.

(** [strptime(s, TIME_FORMAT, &tm)] consuming all of [s], then [mktime]
    with [tm_isdst = -1]; [None] when [strptime] fails or stops early. *)
Variable strptime_mktime : cstring -> option Z.

(** [print_user]: the text it writes to the file. *)
Definition print_user (user : otp_user) : cstring :=
  let tbuf := print_token_type user in
  (* Print line in users file *)
  fmt_ls 7 tbuf ++ str " " ++ fmt_ls 13 (username user) ++ str " "
    ++ fmt_ls 7 (if is_end (pin user) then str "-" else pin user) ++ str " "
    ++ flat_map fmt_02x (key user)
    ++ str " " ++ fmt_ld_left 7 (offset user)
    ++ (if negb (is_end (last_otp user)) then
          str " " ++ fmt_ls 7 (last_otp user) ++ str " "
            ++ strftime_local (last_auth user)
        else [])
    ++ [newline].

(** The body of the scan loop on the line in [linebuf]: where it goes,
    and the variables [user] and [found] as it leaves them. *)
Definition scan_line (update : bool) (user : otp_user) (found : bool)
    (linebuf : cstring) : line_result * otp_user * bool :=
  (* Ignore lines starting with '#' and empty lines *)
  if hd_is "#" linebuf then (LineCopy, user, found)
  else
  match apr_strtok WHITESPACE linebuf with
  | None => (LineCopy, user, found)
  | Some (s, last) =>
  (* Parse token type *)
  match parse_token_type s with
  | None => (LineInvalid (InvalidTokenType s), user, found)
  | Some tokinfo =>
  (* Get username *)
  match apr_strtok WHITESPACE last with
  | None => (LineInvalid MissingUsername, user, found)
  | Some (s, last) =>
  (* Is this the user we're interested in? *)
  if negb (strcmp0 s (username user)) then (LineCopy, user, found)
  else
  let found := true in
  (* If we're updating, print out updated user info to new file *)
  if update then (LineUpdate, user, found)
  else
  (* Initialize user record *)
  let user := set_username zero_user (snprintf_s 128 s) in
  let user := set_tokinfo user (algorithm tokinfo) (time_interval tokinfo)
                          (num_digits tokinfo) in
  (* Read PIN *)
  match apr_strtok WHITESPACE last with
  | None => (LineInvalid MissingPIN, user, found)
  | Some (s, last) =>
  let s := if strcmp0 s (str "-") then [] else s in
  let user := set_pin user (snprintf_s 128 s) in
  (* Read key *)
  match apr_strtok WHITESPACE last with
  | None => (LineInvalid MissingKey, user, found)
  | Some (s, last) =>
  match parse_key 256 s [] with
  | (k, inl bad) => (LineInvalid (InvalidKey bad), set_key user k, found)
  | (k, inr _) =>
  let user := set_key user k in
  (* Read offset (optional) *)
  match apr_strtok WHITESPACE last with
  | None => (LineFound, user, found)
  | Some (s, last) =>
  let user := set_offset user (atol s) in
  (* Read last used OTP (optional) *)
  match apr_strtok WHITESPACE last with
  | None => (LineFound, user, found)
  | Some (s, last) =>
  let user := set_last_otp user (snprintf_s 128 s) in
  (* Read last successful authentication timestamp *)
  match apr_strtok WHITESPACE last with
  | None => (LineInvalid MissingTimestamp, user, found)
  | Some (s, last) =>
  match strptime_mktime s with
  | None => (LineInvalid (InvalidTimestamp s), user, found)
  | Some t => (LineFound, set_last_auth user t, found)
  end end end end end end end end end end.

(** How the scan loop ends: by [goto found], or at the end of the file. *)
Inductive scan_result : Type :=
  | ScanFound (user : otp_user) (log : list (Z * invalid_reason))
  | ScanEnd (user : otp_user) (newfile : cstring) (found : bool)
            (log : list (Z * invalid_reason)).

(** The scan loop over the strings [linebuf] holds in the iterations
    still to come ([linebuf_lines]); [newfile] is what has been written
    to the new file (when updating), [log] the warnings about invalid
    entries with their line numbers. *)
Fixpoint scan_entries (update : bool) (lines : list cstring) (linenum : Z)
    (user : otp_user) (newfile : cstring) (found : bool)
    (log : list (Z * invalid_reason)) : scan_result :=
  match lines with
  | [] => ScanEnd user newfile found log
  | linebuf :: rest =>
      (* Save a copy of the line *)
      let linecopy := snprintf_s 1024 linebuf in
      match scan_line update user found linebuf with
      | (LineCopy, user', found') =>
          (* Copy line to new file *)
          scan_entries update rest (linenum + 1) user'
            (if update then newfile ++ linecopy else newfile) found' log
      | (LineInvalid why, user', found') =>
          (* Report invalid entry (but copy it anyway) *)
          scan_entries update rest (linenum + 1) user'
            (if update then newfile ++ linecopy else newfile) found'
            (log ++ [(linenum, why)])
      | (LineUpdate, user', found') =>
          scan_entries update rest (linenum + 1) user'
            (newfile ++ print_user user') found' log
      | (LineFound, user', _) => ScanFound user' log
      end
  end.

(** [find_update_user]: the status, the record [user] as the call leaves
    it, the files afterwards and the warnings logged. *)
Definition find_update_user (fs : filesys) (io : io_outcome)
    (user : otp_user) (update : bool)
  : authn_status * otp_user * filesys * list (Z * invalid_reason) :=
  (* If updating, open and lock lockfile *)
  if update && negb (io_lock_open io) then
    (AUTH_GENERAL_ERROR, user, fs, [])
  else
  let fs := if update then mk_fs (fs_users fs) (fs_new fs) (Some []) else fs in
  if update && negb (io_lock io) then (AUTH_GENERAL_ERROR, user, fs, [])
  else
  (* Open existing users file *)
  match (if io_users_open io then fs_users fs else None) with
  | None => (AUTH_GENERAL_ERROR, user, fs, [])
  | Some content =>
  (* Open new users file if updating *)
  if update && negb (io_new_open io) then (AUTH_GENERAL_ERROR, user, fs, [])
  else
  let fs := if update then mk_fs (fs_users fs) (Some []) (fs_lock fs) else fs in
  (* Scan entries: each line read is used as a string, up to its first NUL *)
  match scan_entries update (linebuf_lines content) 1 user [] false [] with
  | ScanFound user' log => (AUTH_USER_FOUND, user', fs, log)
  | ScanEnd user' newfile found log =>
      (* If we're not updating and we get here, then the user was not found *)
      if negb update then (AUTH_USER_NOT_FOUND, user', fs, log)
      else
      (* Replace old file with new one *)
      if negb (io_rename io) then
        (* fail: the new file is open and gets removed *)
        (AUTH_GENERAL_ERROR, user', mk_fs (fs_users fs) None (fs_lock fs), log)
      else
        ((if found then AUTH_USER_FOUND else AUTH_USER_NOT_FOUND), user',
         mk_fs (Some newfile) None (fs_lock fs), log)
  end
  end.

(* ----------------------------------------------------------------- *)
(** *** Verifier: HTTP basic authentication *)

(** The OTPs generated for the [int] value [counter], which the
    generators take as [u_long]: [otpbuf10] and [otpbuf16]. For mOTP
    [otpbuf10] stays the empty string it is set to before the first try. *)
Definition gen_otp (user : otp_user) (counter : Z) : cstring * cstring :=
  if algorithm user =? OTP_ALGORITHM_MOTP then
    ([], motp (key user) (pin user) (to_ulong counter) (num_digits user)
              OTP_BUF_SIZE)
  else
    hotp (key user) (to_ulong counter) (num_digits user) OTP_BUF_SIZE.

Definition otp_matches (user : otp_user) (counter : Z) (otp_given : cstring)
  : bool :=
  let (otpbuf10, otpbuf16) := gen_otp user counter in
  strcmp0 otp_given otpbuf10 || strcasecmp0 otp_given otpbuf16.

(** The expected counter value, an [int]. *)
Definition expected_counter (user : otp_user) (now : Z) : Z :=
  if time_interval user =? 0 then to_int (offset user)
  else to_int (to_long (Z.quot now (time_interval user) + offset user)).

Definition window_start (conf : otp_config) (user : otp_user) : Z :=
  if time_interval user =? 0 then 1 else to_int (- max_offset conf).

Definition window_stop (conf : otp_config) (user : otp_user) : Z :=
  max_offset conf.

(** The loop over the other counter values, from the offset adjustment
    [adjust] on (the variable [offset] of the source): the adjustment at
    which it leaves by [goto success], or [None] when it runs to its end.
    [fuel] bounds the number of iterations. *)
Fixpoint window_loop (fuel : nat) (user : otp_user) (counter : Z)
    (otp_given : cstring) (adjust : Z) (stop : Z) : option Z :=
  match fuel with
  | O => None
  | S f =>
      if stop <? adjust then None
      else if adjust =? 0 then    (* already tried it *)
        window_loop f user counter otp_given (adjust + 1) stop
      else if otp_matches user (to_int (counter + adjust)) otp_given then
        Some adjust
      else window_loop f user counter otp_given (adjust + 1) stop
  end.

(** The offset adjustment at which the given OTP is accepted, if any. *)
Definition window_search (conf : otp_config) (user : otp_user) (now : Z)
    (otp_given : cstring) : option Z :=
  let counter := expected_counter user now in
  (* Test OTP using expected counter first *)
  if otp_matches user counter otp_given then Some 0
  else
    (* Try other OTP counter values within the maximum allowed offset *)
    window_loop
      (Z.to_nat (window_stop conf user - window_start conf user + 1))
      user counter otp_given (window_start conf user) (window_stop conf user).

(** The record written back at [success], for the adjustment [adjust]. *)
Definition success_user (user : otp_user) (now : Z) (otp_given : cstring)
    (adjust : Z) : otp_user :=
  let counter := expected_counter user now in
  (* Update user's last auth information and next expected offset *)
  let user :=
    set_offset user
      (if time_interval user =? 0
       then to_int (to_int (counter + adjust) + 1)
       else to_long (offset user + adjust)) in
  let user := set_last_otp user (snprintf_s 128 otp_given) in
  set_last_auth user now.

(** The PIN prefix check: the OTP that is left, or [None] when the PIN
    does not match. *)
Definition check_pin (user : otp_user) (otp_given : cstring) : option cstring :=
  if negb (algorithm user =? OTP_ALGORITHM_MOTP) then
    if negb (strncmp0_len otp_given (pin user)) then None
    else Some (skipn (List.length (pin user)) otp_given)
  else Some otp_given.

(** [authn_otp_check_password] from the check of the OTP length on, for
    the record [user] read from the users file and the OTP left after
    the PIN check; [io2] gives the outcome of the I/O of the update. *)
Definition check_otp (conf : otp_config) (fs : filesys) (io2 : io_outcome)
    (now : Z) (user : otp_user) (otp_given : cstring)
  : authn_status * filesys :=
  (* Check OTP length *)
  if negb (strlen otp_given =? num_digits user) then (AUTH_DENIED, fs)
  else
  (* Check for reuse of previous OTP *)
  if strcmp0 otp_given (last_otp user) then
    (* Is it within the configured linger time? *)
    if (last_auth user <=? now)
       && (now <? to_long (last_auth user + max_linger conf))
    then (AUTH_GRANTED, fs)
    else (AUTH_DENIED, fs)
  else
  match window_search conf user now otp_given with
  | None => (AUTH_DENIED, fs)
  | Some adjust =>
      (* Update user's record *)
      let '(_, _, fs', _) :=
        find_update_user fs io2 (success_user user now otp_given adjust)
                         true in
      (AUTH_GRANTED, fs')
  end.

(** [authn_otp_check_password] at time [now]; [io1] and [io2] give the
    outcome of the I/O of the lookup and of the update. *)
Definition authn_otp_check_password (dir_conf : otp_config) (fs : filesys)
    (io1 io2 : io_outcome) (now : Z) (username otp_given : cstring)
  : authn_status * filesys :=
  let conf := get_config dir_conf in
  (* Is the users file defined? *)
  match users_file conf with
  | None => (AUTH_GENERAL_ERROR, fs)
  | Some _ =>
  (* Lookup user in the users file *)
  let user := set_username zero_user (snprintf_s 128 username) in
  match find_update_user fs io1 user false with
  | (AUTH_USER_FOUND, user, fs, _) =>
      (* Check PIN prefix (if appropriate) *)
      match check_pin user otp_given with
      | None => (AUTH_DENIED, fs)
      | Some otp_given => check_otp conf fs io2 now user otp_given
      end
  | (status, _, fs, _) => (status, fs)
  end
  end.

End Engine.

(* ================================================================= *)
(** ** Vocabulary of the specification *)

(** Octets, as the key and the hashes hold them. *)
Definition is_octets (b : octets) : Prop := Forall (fun x => 0 <= x < 256) b.

(** The test key and the reference codes of RFC 4226, appendix D. *)
Definition rfc4226_key : octets :=
  octets_of_cstring (str "12345678901234567890").

Definition rfc4226_codes : list cstring :=
  map str ["755224"; "287082"; "359152"; "969429"; "338314";
           "254676"; "287922"; "162583"; "399871"; "520489"]%string.

(** The fields of a line of the users file: its tokens between runs of
    [WHITESPACE], as successive calls of [apr_strtok] return them. *)
Fixpoint fields_fuel (fuel : nat) (s : cstring) : list cstring :=
  match fuel with
  | O => []
  | S f =>
      match apr_strtok WHITESPACE s with
      | None => []
      | Some (t, r) => t :: fields_fuel f r
      end
  end.

Definition fields (line : cstring) : list cstring :=
  fields_fuel (List.length line) line.

(** The key field [s] decodes to the octets [k]. *)
Definition key_decodes (s : cstring) (k : octets) : Prop :=
  parse_key 256 s [] = (k, inr tt).

(** The record a line decodes to, field by field. *)
Definition decoded (tok : otp_user) (name pn : cstring) (k : octets)
    (off : Z) (otp : cstring) (ts : Z) : otp_user :=
  mk_user (algorithm tok) (time_interval tok) (num_digits tok)
          (snprintf_s 128 name) k
          (snprintf_s 128 (if strcmp0 pn (str "-") then [] else pn))
          off (snprintf_s 128 otp) ts.

(** The line names the user: it is no comment, its first field is a
    token type and its second field is the user's name. *)
Definition names_user (user : otp_user) (line : cstring) : bool :=
  match fields line with
  | ty :: name :: _ =>
      negb (hd_is "#" line)
      && (match parse_token_type ty with Some _ => true | None => false end)
      && strcmp0 name (username user)
  | _ => false
  end.


(** Every call the update makes succeeds up to and including the opening
    of the new file. *)
Definition new_file_opened (fs : filesys) (io : io_outcome) : bool :=
  io_lock_open io && io_lock io && io_users_open io
  && (match fs_users fs with Some _ => true | None => false end)
  && io_new_open io.

(** One of the steps of the update fails. *)
Definition update_io_fails (fs : filesys) (io : io_outcome) : bool :=
  negb (new_file_opened fs io && io_rename io).

(** What [find_update_user] guarantees of a record it returns. *)
Definition record_wf (u : otp_user) : Prop :=
  (algorithm u = OTP_ALGORITHM_HOTP \/ algorithm u = OTP_ALGORITHM_MOTP)
  /\ 0 <= time_interval u <= INT_MAX
  /\ 1 <= num_digits u <= 10.

(** The record [user] with the offset, last OTP and last authentication
    time replaced. *)
Definition updated_record (user : otp_user) (new_offset : Z)
    (otp : cstring) (now : Z) : otp_user :=
  mk_user (algorithm user) (time_interval user) (num_digits user)
          (username user) (key user) (pin user) new_offset otp now.

(** The files as a call of [find_update_user] leaves them. *)
Definition files_after
    (r : authn_status * otp_user * filesys * list (Z * invalid_reason))
  : filesys :=
  snd (fst r).

(** Text without a NUL byte. *)
Definition no_nul (s : cstring) : Prop :=
  forallb (fun c => negb (ascii_eqb c NUL)) s = true.

(** A line as the scan loop reads it: text without a newline that ends
    in a newline, or reaches the end of the file, or fills the buffer. *)
Definition line_as_read (l : cstring) : Prop :=
  l <> [] /\ (List.length l <= 1023)%nat
  /\ exists body,
       Forall (fun c => ascii_eqb c newline = false) body
       /\ (l = body ++ [newline] \/ l = body).

(** The text lines of a file: each up to and including its newline, the
    last one possibly without. *)
Fixpoint take_line (s : cstring) : cstring * cstring :=
  match s with
  | [] => ([], [])
  | c :: s' =>
      if ascii_eqb c newline then ([c], s')
      else let (l, r) := take_line s' in (c :: l, r)
  end.

Fixpoint text_lines_fuel (fuel : nat) (s : cstring) : list cstring :=
  match fuel with
  | O => []
  | S f =>
      match s with
      | [] => []
      | _ => let (l, r) := take_line s in l :: text_lines_fuel f r
      end
  end.

Definition text_lines (content : cstring) : list cstring :=
  text_lines_fuel (List.length content) content.

(* ----------------------------------------------------------------- *)
(** *** Valid records *)

Definition is_ws (c : ascii) : bool := strchr WHITESPACE c.

(** A field of the users file: not empty, and free of white space. *)
Definition is_token (s : cstring) : Prop :=
  s <> [] /\ Forall (fun c => is_ws c = false) s.

(** The default time interval of an algorithm. *)
Definition default_interval (alg : Z) : Z :=
  if alg =? OTP_ALGORITHM_MOTP then MOTP_TIME_INTERVAL else 0.

(** The sub-fields of a token type, as [print_user] formats them. *)
Definition alg_name (r : otp_user) : cstring :=
  if algorithm r =? OTP_ALGORITHM_HOTP then str "HOTP"
  else if algorithm r =? OTP_ALGORITHM_MOTP then str "MOTP"
  else str "???".

Definition interval_subfield (r : otp_user) : cstring :=
  if time_interval r =? 0 then str "/E"
  else str "/T" ++ fmt_d (time_interval r).

Definition digits_subfield (r : otp_user) : cstring :=
  str "/" ++ fmt_d (num_digits r).

(** The records the users file can hold: an algorithm of the two, an
    interval and a number of digits in range, a name, a PIN (if any) and
    a last OTP (if any) that are fields shorter than their buffers, a
    key of 1 to 256 octets, an offset that is a [long]; without a last
    OTP the time of the last authentication is 0, and with one it is a
    time the C library prints as one field and reads back. *)
Definition valid_user (strftime_local : Z -> cstring)
    (strptime_mktime : cstring -> option Z) (r : otp_user) : Prop :=
  (algorithm r = OTP_ALGORITHM_HOTP \/ algorithm r = OTP_ALGORITHM_MOTP)
  /\ 0 <= time_interval r <= INT_MAX
  /\ 1 <= num_digits r <= 10
  /\ (is_token (username r) /\ (List.length (username r) < 128)%nat)
  /\ (pin r = []
      \/ (is_token (pin r) /\ pin r <> str "-"
          /\ (List.length (pin r) < 128)%nat))
  /\ (key r <> [] /\ is_octets (key r) /\ (List.length (key r) <= 256)%nat)
  /\ in_long (offset r)
  /\ ((last_otp r = [] /\ last_auth r = 0)
      \/ (is_token (last_otp r) /\ (List.length (last_otp r) < 128)%nat
          /\ is_token (strftime_local (last_auth r))
          /\ strptime_mktime (strftime_local (last_auth r))
             = Some (last_auth r))).

(** The PIN field as printed. *)
Definition pin_field (r : otp_user) : cstring :=
  if is_end (pin r) then str "-" else pin r.

(** One step of reading a decimal number, digit by digit. *)
Definition digit_step (a : Z) (c : ascii) : Z := a * 10 + (code c - 48).

(* ----------------------------------------------------------------- *)
(** *** Data of the worked examples *)

(** A users file with the given content, and no new file or lock file. *)
Definition store_of (content : cstring) : filesys :=
  mk_fs (Some content) None None.

(** A configuration with the default maximum offset and linger time. *)
Definition default_conf : otp_config := mk_config (Some (str "users")) (-1) (-1).

(** The user looked up by [authn_otp_check_password] for the name "bob". *)
Definition lookup_bob : otp_user :=
  set_username zero_user (snprintf_s 128 (str "bob")).

(** An HOTP record of "bob" with the test key of RFC 4226. *)
Definition bob_record (pin : cstring) (offset : Z) (last_otp : cstring)
    (last_auth : Z) : otp_user :=
  mk_user OTP_ALGORITHM_HOTP 0 6 (str "bob") rfc4226_key pin offset last_otp
          last_auth.

Definition nl : cstring := [newline].

(* ================================================================= *)
(** ** The rest of the module: configuration and digest authentication *)

(** [create_authn_otp_dir_config]: nothing is set. *)
Definition create_authn_otp_dir_config : otp_config :=
  mk_config None (-1) (-1).

(** [merge_authn_otp_dir_config]. The merged configuration is allocated
    with [apr_palloc], which does not clear it, and [users_file] is
    assigned only when one of the two configurations has it: [uninit] is
    what the field holds otherwise. *)
Definition merge_authn_otp_dir_config (uninit : option cstring)
    (conf1 conf2 : otp_config) : otp_config :=
  mk_config
    (match users_file conf2 with
     | Some f => Some f
     | None =>
         match users_file conf1 with
         | Some f => Some f
         | None => uninit
         end
     end)
    (if negb (max_offset conf2 =? -1) then max_offset conf2
     else max_offset conf1)
    (if negb (max_linger conf2 =? -1) then max_linger conf2
     else max_linger conf1).

(** [get_config] from the request: [None] for a request whose
    [per_dir_config] is NULL. *)
Definition get_request_config (per_dir_config : option otp_config)
  : otp_config :=
  get_config (match per_dir_config with
              | None => create_authn_otp_dir_config
              | Some dir_conf => dir_conf
              end).

(** [ap_md5]: the MD5 digest of a string, in lower-case hex. *)
Definition ap_md5 (s : cstring) : cstring :=
  hex_of_octets (MD5 (octets_of_cstring s)).

Section DigestEngine.

Variable strftime_local : Z -> cstring.
Variable strptime_mktime : cstring -> option Z.

(** The OTP [authn_otp_get_realm_hash] expects past the linger time,
    for the [int] value [counter]; the decimal one for HOTP. *)
Definition digest_otp (user : otp_user) (counter : Z) : cstring :=
  if algorithm user =? OTP_ALGORITHM_MOTP then
    motp (key user) (pin user) (to_ulong counter) (num_digits user)
         OTP_BUF_SIZE
  else
    fst (hotp (key user) (to_ulong counter) (num_digits user) OTP_BUF_SIZE).

(** The string whose MD5 digest is the realm hash. *)
Definition digest_hashbuf (user : otp_user) (realm otpbuf : cstring)
  : cstring :=
  snprintf_s 256
    (username user ++ str ":" ++ realm ++ str ":"
     ++ (if algorithm user =? OTP_ALGORITHM_MOTP then [] else pin user)
     ++ otpbuf).

(** The record written back past the linger time. *)
Definition digest_user (user : otp_user) (now : Z) (counter : Z)
    (otpbuf : cstring) : otp_user :=
  let user :=
    if time_interval user =? 0 then set_offset user (to_int (counter + 1))
    else user in
  let user := set_last_otp user (snprintf_s 128 otpbuf) in
  set_last_auth user now.

(** [authn_otp_get_realm_hash] at time [now]: the status, the hash
    stored in [rethash] (if any) and the files afterwards; [io1] and
    [io2] give the outcome of the I/O of the lookup and of the update. *)
Definition authn_otp_get_realm_hash (dir_conf : otp_config) (fs : filesys)
    (io1 io2 : io_outcome) (now : Z) (username realm : cstring)
  : authn_status * option cstring * filesys :=
  let conf := get_config dir_conf in
  (* Is the users file configured? *)
  match users_file conf with
  | None => (AUTH_GENERAL_ERROR, None, fs)
  | Some _ =>
  (* Lookup the user in the users file *)
  let user := set_username zero_user (snprintf_s 128 username) in
  match find_update_user strftime_local strptime_mktime fs io1 user false with
  | (AUTH_USER_FOUND, user, fs, _) =>
      (* Determine the expected OTP, assuming OTP reuse if we are within
         the linger time *)
      let linger :=
        (last_auth user <=? now)
        && (now <? to_long (last_auth user + max_linger conf)) in
      (* Get expected counter value *)
      let counter := if linger then 0 else expected_counter user now in
      (* Generate OTP using expected counter *)
      let otpbuf :=
        if linger then snprintf_s 32 (last_otp user)
        else digest_otp user counter in
      (* Generate digest hash *)
      let rethash := ap_md5 (digest_hashbuf user realm otpbuf) in
      (* If we are past the previous linger time, assume counter advance
         and update user's info *)
      if negb linger then
        let '(_, _, fs', _) :=
          find_update_user strftime_local strptime_mktime fs io2
            (digest_user user now counter otpbuf) true in
        (AUTH_USER_FOUND, Some rethash, fs')
      else (AUTH_USER_FOUND, Some rethash, fs)
  | (status, _, fs, _) => (status, None, fs)
  end
  end.

End DigestEngine.

(** The lines of a list are read back one by one from the file they
    make up. *)
Fixpoint reads_as (ls : list cstring) : Prop :=
  match ls with
  | [] => True
  | l :: rest =>
      l <> []
      /\ apr_file_gets 1023 (l ++ List.concat rest) = (l, List.concat rest)
      /\ reads_as rest
  end.

(** The line written for the user in place of a line that names it. *)
Definition rewrite_line (new_line : cstring) (user : otp_user) (l : cstring)
  : cstring :=
  if names_user user l then new_line else l.

(** What the record holds fits the buffers of [struct otp_user]. *)
Definition record_bounds (u : otp_user) : Prop :=
  (List.length (username u) < 128)%nat
  /\ (List.length (pin u) < 128)%nat
  /\ (List.length (last_otp u) < 128)%nat
  /\ (0 < List.length (key u) <= 256)%nat
  /\ is_octets (key u)
  /\ in_long (offset u).

(** The fields of a record that a line of the users file gives, as the
    file can hold them (a valid record but for its last OTP and time). *)
Definition record_fields (r : otp_user) : Prop :=
  (algorithm r = OTP_ALGORITHM_HOTP \/ algorithm r = OTP_ALGORITHM_MOTP)
  /\ 0 <= time_interval r <= INT_MAX
  /\ 1 <= num_digits r <= 10
  /\ (is_token (username r) /\ (List.length (username r) < 128)%nat)
  /\ (pin r = []
      \/ (is_token (pin r) /\ pin r <> str "-"
          /\ (List.length (pin r) < 128)%nat))
  /\ (key r <> [] /\ is_octets (key r) /\ (List.length (key r) <= 256)%nat)
  /\ in_long (offset r).

(* ================================================================= *)
(** * Properties *)

(* ----------------------------------------------------------------- *)
(** ** The primitives on their test vectors *)

Example SHA1_abc :
  hex_of_octets (SHA1 (octets_of_cstring (str "abc")))
  = str "a9993e364706816aba3e25717850c26c9cd0d89d".
Proof. vm_compute. reflexivity. Qed.

Example MD5_abc :
  hex_of_octets (MD5 (octets_of_cstring (str "abc")))
  = str "900150983cd24fb0d6963f7d28e17f72".
Proof. vm_compute. reflexivity. Qed.

(** Case analysis on the scrutinee of a [match] of the goal. *)
Ltac break_match :=
  match goal with
  | |- context [match ?x with _ => _ end] => destruct x eqn:?
  end.

(* ----------------------------------------------------------------- *)
(** ** Arithmetic and bit-level facts *)

Lemma to_int_id (z : Z) : in_int z -> to_int z = z.
Proof.
  unfold in_int, INT_MIN, INT_MAX, to_int, wrap_signed. intros H.
  rewrite Z.mod_small; lia.
Qed.

Lemma to_long_id (z : Z) : in_long z -> to_long z = z.
Proof.
  unfold in_long, LONG_MIN, LONG_MAX, to_long, wrap_signed. intros H.
  rewrite Z.mod_small; lia.
Qed.

Lemma to_int_range (z : Z) : in_int (to_int z).
Proof.
  unfold in_int, INT_MIN, INT_MAX, to_int, wrap_signed.
  pose proof (Z.mod_pos_bound (z + 2 ^ (32 - 1)) (2 ^ 32)). lia.
Qed.

Lemma to_ulong_id (z : Z) : 0 <= z < 2 ^ 64 -> to_ulong z = z.
Proof. intros H. unfold to_ulong. apply Z.mod_small. exact H. Qed.

Lemma testbit_small (b n i : Z) :
  0 <= b < 2 ^ n -> n <= i -> Z.testbit b i = false.
Proof.
  intros Hb Hi.
  destruct (Z.eq_dec b 0) as [->|Hnz]; [apply Z.bits_0|].
  apply Z.bits_above_log2; [lia|].
  assert (Z.log2 b < n); [|lia].
  apply Z.log2_lt_pow2; lia.
Qed.

Lemma lor_shiftl_add (a b n : Z) :
  0 <= n -> 0 <= b < 2 ^ n -> Z.lor (Z.shiftl a n) b = a * 2 ^ n + b.
Proof.
  intros Hn Hb.
  assert (Hland : Z.land (Z.shiftl a n) b = 0).
  { apply Z.bits_inj'. intros i Hi. rewrite Z.land_spec, Z.bits_0.
    destruct (Z.lt_ge_cases i n) as [Hlt|Hge].
    - rewrite Z.shiftl_spec_low by lia. reflexivity.
    - rewrite (testbit_small b n i) by lia. apply andb_false_r. }
  rewrite <- Z.lxor_lor by exact Hland.
  rewrite <- Z.add_nocarry_lxor by exact Hland.
  rewrite Z.shiftl_mul_pow2 by lia. reflexivity.
Qed.

Lemma land_255_range (v : Z) : 0 <= Z.land v 255 < 256.
Proof.
  change 255 with (Z.ones 8). rewrite Z.land_ones by lia.
  apply Z.mod_pos_bound. lia.
Qed.

Lemma be_octets_length (n : nat) (v : Z) : List.length (be_octets n v) = n.
Proof.
  revert v. induction n as [|n IH]; intros v; simpl; [reflexivity|].
  rewrite length_app, IH. simpl. lia.
Qed.

Lemma be_octets_range (n : nat) (v : Z) : is_octets (be_octets n v).
Proof.
  revert v. induction n as [|n IH]; intros v; simpl; [constructor|].
  apply Forall_app. split; [apply IH|].
  constructor; [apply land_255_range|constructor].
Qed.

Lemma SHA1_length (msg : octets) : List.length (SHA1 msg) = 20%nat.
Proof.
  unfold SHA1.
  destruct (fold_left sha1_block _ sha1_init) as [[[[h0 h1] h2] h3] h4].
  rewrite !length_app, !be_octets_length. reflexivity.
Qed.

Lemma SHA1_range (msg : octets) : is_octets (SHA1 msg).
Proof.
  unfold SHA1.
  destruct (fold_left sha1_block _ sha1_init) as [[[[h0 h1] h2] h3] h4].
  unfold is_octets.
  do 4 (apply Forall_app; split; [apply be_octets_range|]).
  apply be_octets_range.
Qed.

Lemma HMAC_SHA1_length (key data : octets) :
  List.length (HMAC_SHA1 key data) = 20%nat.
Proof. unfold HMAC_SHA1. apply SHA1_length. Qed.

Lemma HMAC_SHA1_range (key data : octets) : is_octets (HMAC_SHA1 key data).
Proof. unfold HMAC_SHA1. apply SHA1_range. Qed.

Lemma octet_at_range (hash : octets) (i : Z) :
  is_octets hash -> 0 <= octet_at hash i < 256.
Proof.
  intros H. unfold octet_at.
  destruct (nth_in_or_default (Z.to_nat i) hash 0) as [Hin|Heq].
  - unfold is_octets in H. rewrite Forall_forall in H. apply H. exact Hin.
  - rewrite Heq. lia.
Qed.

Lemma lor_disjoint_add (x y n : Z) :
  0 <= n -> x mod 2 ^ n = 0 -> 0 <= y < 2 ^ n -> Z.lor x y = x + y.
Proof.
  intros Hn Hx Hy.
  assert (E : x = Z.shiftl (x / 2 ^ n) n).
  { rewrite Z.shiftl_mul_pow2 by lia.
    pose proof (Z.div_mod x (2 ^ n) ltac:(lia)). lia. }
  rewrite E at 1. rewrite lor_shiftl_add by lia.
  pose proof (Z.div_mod x (2 ^ n) ltac:(lia)). lia.
Qed.

(** The value [hotp] extracts, written arithmetically. *)
Lemma hotp_value_sum (hash : octets) :
  is_octets hash ->
  hotp_value hash
  = (octet_at hash (hotp_offset hash) mod 128) * 2 ^ 24
    + octet_at hash (hotp_offset hash + 1) * 2 ^ 16
    + octet_at hash (hotp_offset hash + 2) * 2 ^ 8
    + octet_at hash (hotp_offset hash + 3).
Proof.
  intros H. unfold hotp_value.
  set (off := hotp_offset hash).
  pose proof (octet_at_range hash off H) as H0.
  pose proof (octet_at_range hash (off + 1) H) as H1.
  pose proof (octet_at_range hash (off + 2) H) as H2.
  pose proof (octet_at_range hash (off + 3) H) as H3.
  change 0x7f with (Z.ones 7). change 0xff with (Z.ones 8).
  rewrite !Z.land_ones by lia.
  rewrite (Z.mod_small (octet_at hash (off + 1)) (2 ^ 8)) by lia.
  rewrite (Z.mod_small (octet_at hash (off + 2)) (2 ^ 8)) by lia.
  rewrite (Z.mod_small (octet_at hash (off + 3)) (2 ^ 8)) by lia.
  pose proof (Z.mod_pos_bound (octet_at hash off) (2 ^ 7) ltac:(lia)) as Hm.
  change (2 ^ 7) with 128 in *.
  set (a := octet_at hash off mod 128) in *.
  set (b := octet_at hash (off + 1)) in *.
  set (c := octet_at hash (off + 2)) in *.
  set (d := octet_at hash (off + 3)) in *.
  rewrite !Z.shiftl_mul_pow2 by lia.
  rewrite (lor_disjoint_add (a * 2 ^ 24) (b * 2 ^ 16) 24); try lia.
  2:{ apply Z.mod_mul. lia. }
  rewrite (lor_disjoint_add (a * 2 ^ 24 + b * 2 ^ 16) (c * 2 ^ 8) 16); try lia.
  2:{ replace (a * 2 ^ 24 + b * 2 ^ 16) with ((a * 2 ^ 8 + b) * 2 ^ 16) by ring.
      apply Z.mod_mul. lia. }
  rewrite (lor_disjoint_add _ d 8); try lia.
  replace (a * 2 ^ 24 + b * 2 ^ 16 + c * 2 ^ 8)
    with ((a * 2 ^ 16 + b * 2 ^ 8 + c) * 2 ^ 8) by ring.
  apply Z.mod_mul. lia.
Qed.

Lemma hotp_value_range (hash : octets) :
  is_octets hash -> 0 <= hotp_value hash < 2 ^ 31.
Proof.
  intros H. rewrite hotp_value_sum by exact H.
  set (off := hotp_offset hash).
  pose proof (octet_at_range hash off H) as H0.
  pose proof (octet_at_range hash (off + 1) H) as H1.
  pose proof (octet_at_range hash (off + 2) H) as H2.
  pose proof (octet_at_range hash (off + 3) H) as H3.
  pose proof (Z.mod_pos_bound (octet_at hash off) 128 ltac:(lia)) as Hm.
  lia.
Qed.

Lemma hotp_offset_range (hash : octets) : 0 <= hotp_offset hash < 16.
Proof.
  unfold hotp_offset. change 0x0f with (Z.ones 4).
  rewrite Z.land_ones by lia.
  pose proof (Z.mod_pos_bound
    (octet_at hash (Z.of_nat (List.length hash) - 1)) (2 ^ 4) ltac:(lia)).
  change (2 ^ 4) with 16 in *. lia.
Qed.

(** The octets [be_octets] writes, most significant first. *)
Lemma be_octets_nth (n : nat) (v : Z) (i : nat) :
  (i < n)%nat ->
  nth i (be_octets n v) 0 = (v / 256 ^ Z.of_nat (n - 1 - i)) mod 256.
Proof.
  revert v i. induction n as [|n IH]; intros v i Hi; [lia|].
  simpl be_octets.
  destruct (Nat.eq_dec i n) as [->|Hne].
  - rewrite app_nth2 by (rewrite be_octets_length; lia).
    rewrite be_octets_length, Nat.sub_diag. simpl nth.
    replace (S n - 1 - n)%nat with 0%nat by lia.
    change 255 with (Z.ones 8). rewrite Z.land_ones by lia.
    simpl Z.of_nat. rewrite Z.pow_0_r, Z.div_1_r. reflexivity.
  - rewrite app_nth1 by (rewrite be_octets_length; lia).
    rewrite IH by lia.
    rewrite Z.shiftr_div_pow2 by lia.
    rewrite Z.div_div by lia.
    replace (S n - 1 - i)%nat with (S (n - 1 - i))%nat by lia.
    rewrite Nat2Z.inj_succ, Z.pow_succ_r by lia.
    reflexivity.
Qed.

(* ----------------------------------------------------------------- *)
(** ** Formatting facts *)

Lemma digits_fuel_length (b : Z) (dig : Z -> ascii) (fuel : nat) :
  2 <= b ->
  forall (k : nat) (n : Z),
    0 <= n < b ^ Z.of_nat (S k) ->
    (List.length (digits_fuel b dig fuel n) <= S k)%nat.
Proof.
  intros Hb. induction fuel as [|f IH]; intros k n Hn; simpl; [lia|].
  destruct (Z.ltb_spec n b) as [Hlt|Hge]; simpl; [lia|].
  rewrite length_app. simpl.
  destruct k as [|k'].
  - simpl Z.of_nat in Hn. rewrite Z.pow_1_r in Hn. lia.
  - assert (Hq : 0 <= n / b < b ^ Z.of_nat (S k')).
    { split; [apply Z.div_pos; lia|].
      apply Z.div_lt_upper_bound; [lia|].
      rewrite (Nat2Z.inj_succ (S k')), Z.pow_succ_r in Hn by lia. lia. }
    specialize (IH k' (n / b) Hq). lia.
Qed.

Lemma digits_fuel_nonempty (b : Z) (dig : Z -> ascii) (fuel : nat) (n : Z) :
  (1 <= List.length (digits_fuel b dig fuel n))%nat.
Proof.
  destruct fuel as [|f]; simpl; [lia|].
  destruct (n <? b); simpl; [lia|]. rewrite length_app. simpl. lia.
Qed.

Lemma pad_left_length (c : ascii) (w : Z) (s : cstring) :
  List.length (pad_left c w s) = Nat.max (Z.to_nat w) (List.length s).
Proof. unfold pad_left. rewrite length_app, repeat_length. lia. Qed.

Lemma snprintf_s_fits (size : nat) (s : cstring) :
  (List.length s < size)%nat -> snprintf_s size s = s.
Proof. intros H. unfold snprintf_s. apply firstn_all2. lia. Qed.

Lemma powers10_nth (n : Z) :
  1 <= n <= 9 -> nth (Z.to_nat (n - 1)) powers10 0 = 10 ^ n.
Proof.
  intros H.
  assert (E : n = 1 \/ n = 2 \/ n = 3 \/ n = 4 \/ n = 5 \/ n = 6 \/ n = 7
              \/ n = 8 \/ n = 9) by lia.
  repeat (destruct E as [->|E]; [reflexivity|]). subst n. reflexivity.
Qed.

Lemma pad_digits_length (b : Z) (dig : Z -> ascii) (fuel : nat) (w n : Z) :
  2 <= b -> 1 <= w -> 0 <= n < b ^ w ->
  List.length (pad_left "0"%char w (digits_fuel b dig fuel n)) = Z.to_nat w.
Proof.
  intros Hb Hw Hn. rewrite pad_left_length.
  pose proof (digits_fuel_length b dig fuel Hb (Z.to_nat w - 1) n) as HL.
  replace (Z.of_nat (S (Z.to_nat w - 1))) with w in HL by lia.
  specialize (HL Hn). lia.
Qed.

(* ----------------------------------------------------------------- *)
(** ** Code generators: [hotp] *)

Lemma hotp_unfold (key : octets) (counter ndigits : Z) (buflen : nat) :
  hotp key counter ndigits buflen
  = let value := hotp_value (HMAC_SHA1 key (be_octets 8 counter)) in
    let nd := if ndigits <? 1 then 1 else ndigits in
    (snprintf_s buflen
       (fmt_0d (if nd <? powers10_len then nd else powers10_len)
               (if nd <? powers10_len
                then Z.rem value (nth (Z.to_nat (nd - 1)) powers10 0)
                else value)),
     snprintf_s buflen
       (fmt_0x (if nd <? 8 then nd else 8)
               (if nd <? 8
                then Z.land value (Z.shiftl 1 (4 * nd) - 1)
                else value))).
Proof. reflexivity. Qed.

(** The decimal digits [hotp] prints for the value [v]. *)
Lemma hotp_buf10 (v nd : Z) :
  0 <= v < 2 ^ 31 -> 1 <= nd <= 10 ->
  let buf10 :=
    snprintf_s OTP_BUF_SIZE
      (fmt_0d (if nd <? powers10_len then nd else powers10_len)
              (if nd <? powers10_len
               then Z.rem v (nth (Z.to_nat (nd - 1)) powers10 0)
               else v)) in
  buf10 = pad_left "0"%char (Z.min nd 10) (dec_digits (v mod 10 ^ nd))
  /\ strlen buf10 = nd.
Proof.
  intros Hv Hnd. cbv zeta.
  change powers10_len with 10.
  assert (Hmod : 0 <= v mod 10 ^ nd < 10 ^ nd)
    by (apply Z.mod_pos_bound; apply Z.pow_pos_nonneg; lia).
  assert (E : fmt_0d (if nd <? 10 then nd else 10)
                (if nd <? 10
                 then Z.rem v (nth (Z.to_nat (nd - 1)) powers10 0)
                 else v)
              = pad_left "0"%char nd (dec_digits (v mod 10 ^ nd))).
  { destruct (Z.ltb_spec nd 10) as [Hlt|Hge].
    - rewrite powers10_nth by lia.
      rewrite Z.rem_mod_nonneg by lia.
      unfold fmt_0d. destruct (Z.ltb_spec (v mod 10 ^ nd) 0); [lia|].
      reflexivity.
    - assert (nd = 10) by lia. subst nd.
      rewrite Z.mod_small by lia.
      unfold fmt_0d. destruct (Z.ltb_spec v 0); [lia|]. reflexivity. }
  rewrite E. rewrite Z.min_l by lia.
  assert (L : List.length (pad_left "0"%char nd (dec_digits (v mod 10 ^ nd)))
              = Z.to_nat nd)
    by (apply pad_digits_length; lia).
  rewrite snprintf_s_fits by (rewrite L; unfold OTP_BUF_SIZE; lia).
  split; [reflexivity|]. unfold strlen. rewrite L. lia.
Qed.

(** The hexadecimal digits [hotp] prints for the value [v]. *)
Lemma hotp_buf16 (v nd : Z) :
  0 <= v < 2 ^ 31 -> 1 <= nd <= 10 ->
  let buf16 :=
    snprintf_s OTP_BUF_SIZE
      (fmt_0x (if nd <? 8 then nd else 8)
              (if nd <? 8 then Z.land v (Z.shiftl 1 (4 * nd) - 1) else v)) in
  buf16 = pad_left "0"%char (Z.min nd 8)
            (hex_digits (v mod 2 ^ (4 * Z.min nd 8)))
  /\ strlen buf16 = Z.min nd 8.
Proof.
  intros Hv Hnd. cbv zeta.
  set (w := Z.min nd 8).
  assert (Hw : 1 <= w <= 8) by (unfold w; lia).
  assert (Hmod : 0 <= v mod 2 ^ (4 * w) < 16 ^ w).
  { replace (16 ^ w) with (2 ^ (4 * w))
      by (rewrite Z.pow_mul_r by lia; reflexivity).
    apply Z.mod_pos_bound. apply Z.pow_pos_nonneg; lia. }
  assert (H16 : 16 ^ w <= 2 ^ 32).
  { change (2 ^ 32) with (16 ^ 8). apply Z.pow_le_mono_r; lia. }
  assert (E : fmt_0x (if nd <? 8 then nd else 8)
                (if nd <? 8 then Z.land v (Z.shiftl 1 (4 * nd) - 1) else v)
              = pad_left "0"%char w (hex_digits (v mod 2 ^ (4 * w)))).
  { unfold fmt_0x, to_u32.
    destruct (Z.ltb_spec nd 8) as [Hlt|Hge].
    - replace w with nd in * by (unfold w; lia).
      replace (Z.shiftl 1 (4 * nd) - 1) with (Z.ones (4 * nd))
        by (unfold Z.ones; lia).
      rewrite Z.land_ones by lia.
      rewrite (Z.mod_small (v mod 2 ^ (4 * nd))) by lia.
      reflexivity.
    - replace w with 8 in * by (unfold w; lia).
      change (4 * 8) with 32.
      rewrite !(Z.mod_small v (2 ^ 32)) by lia.
      reflexivity. }
  rewrite E.
  assert (L : List.length (pad_left "0"%char w (hex_digits (v mod 2 ^ (4 * w))))
              = Z.to_nat w)
    by (apply pad_digits_length; lia).
  rewrite snprintf_s_fits by (rewrite L; unfold OTP_BUF_SIZE; lia).
  split; [reflexivity|]. unfold strlen. rewrite L. lia.
Qed.

(** C4. For every key, counter and number of digits from 1 to 10, [hotp]
    signs the eight octets of the counter, most significant first, with
    HMAC-SHA1; takes the low nibble of the last octet of the hash as
    offset; reads four octets of the hash from there as an integer of 31
    bits, the top bit of the first octet masked off; its decimal output
    is that integer modulo 10^num_digits, padded with zeros to num_digits
    digits (ten at most), and its hexadecimal output is the low
    4*num_digits bits of the integer, padded with zeros to num_digits hex
    digits (eight at most). With the 20-octet test key of RFC 4226 and
    the counters 0 to 9 the six-digit decimal outputs are the codes the
    RFC publishes. *)
Theorem hotp_rfc4226 (key : octets) (counter ndigits : Z) :
  1 <= ndigits <= 10 ->
  let tosign := be_octets 8 counter in
  let hash := HMAC_SHA1 key tosign in
  let off := Z.land (octet_at hash 19) 15 in
  let value :=
    (octet_at hash off mod 128) * 2 ^ 24 + octet_at hash (off + 1) * 2 ^ 16
    + octet_at hash (off + 2) * 2 ^ 8 + octet_at hash (off + 3) in
  let decimal := fst (hotp key counter ndigits OTP_BUF_SIZE) in
  let hex := snd (hotp key counter ndigits OTP_BUF_SIZE) in
  (List.length tosign = 8%nat
   /\ forall i, (i < 8)%nat ->
        nth i tosign 0 = (counter / 256 ^ Z.of_nat (7 - i)) mod 256)
  /\ List.length hash = 20%nat
  /\ 0 <= off < 16
  /\ 0 <= value < 2 ^ 31
  /\ decimal
     = pad_left "0"%char (Z.min ndigits 10) (dec_digits (value mod 10 ^ ndigits))
  /\ strlen decimal = ndigits
  /\ hex
     = pad_left "0"%char (Z.min ndigits 8)
         (hex_digits (value mod 2 ^ (4 * Z.min ndigits 8)))
  /\ strlen hex = Z.min ndigits 8
  /\ map (fun c => fst (hotp rfc4226_key c 6 OTP_BUF_SIZE))
         [0; 1; 2; 3; 4; 5; 6; 7; 8; 9]
     = rfc4226_codes.
Proof.
  intros Hnd tosign hash off value decimal hex.
  assert (Hoct : is_octets hash) by apply HMAC_SHA1_range.
  assert (Hlen : List.length hash = 20%nat) by apply HMAC_SHA1_length.
  assert (Hoff : off = hotp_offset hash).
  { unfold off, hotp_offset. rewrite Hlen. reflexivity. }
  assert (Hval : value = hotp_value hash).
  { unfold value. rewrite hotp_value_sum by exact Hoct. rewrite <- Hoff.
    reflexivity. }
  pose proof (hotp_value_range hash Hoct) as Hrange.
  assert (Hhotp : hotp key counter ndigits OTP_BUF_SIZE
                  = (fst (hotp key counter ndigits OTP_BUF_SIZE),
                     snd (hotp key counter ndigits OTP_BUF_SIZE)))
    by apply surjective_pairing.
  rewrite hotp_unfold in Hhotp at 1. cbv zeta in Hhotp.
  change (HMAC_SHA1 key (be_octets 8 counter)) with hash in Hhotp.
  destruct (Z.ltb_spec ndigits 1) as [?|_]; [lia|].
  fold decimal in Hhotp. fold hex in Hhotp.
  pose proof (f_equal fst Hhotp) as H10.
  pose proof (f_equal snd Hhotp) as H16.
  cbn [fst snd] in H10, H16.
  pose proof (hotp_buf10 (hotp_value hash) ndigits Hrange Hnd) as Hdec.
  pose proof (hotp_buf16 (hotp_value hash) ndigits Hrange Hnd) as Hhex.
  cbv zeta in Hdec, Hhex. rewrite H10 in Hdec. rewrite H16 in Hhex.
  rewrite <- Hval in Hdec, Hhex, Hrange.
  split.
  { split; [apply be_octets_length|].
    intros i Hi. unfold tosign. rewrite be_octets_nth by exact Hi.
    reflexivity. }
  split; [exact Hlen|].
  split; [rewrite Hoff; apply hotp_offset_range|].
  split; [exact Hrange|].
  split; [apply Hdec|]. split; [apply Hdec|].
  split; [apply Hhex|]. split; [apply Hhex|].
  vm_compute. reflexivity.
Qed.

Lemma hotp_rfc4226_witness :
  1 <= 6 <= 10
  /\ strlen (fst (hotp rfc4226_key 3 6 OTP_BUF_SIZE)) = 6
  /\ strlen (snd (hotp rfc4226_key 3 6 OTP_BUF_SIZE)) = Z.min 6 8.
Proof.
  assert (Hnd : 1 <= 6 <= 10) by lia.
  destruct (hotp_rfc4226 rfc4226_key 3 6 Hnd)
    as (_ & _ & _ & _ & _ & Hd & _ & Hh & _).
  split; [exact Hnd|]. split; [exact Hd|exact Hh].
Defined.

(* ----------------------------------------------------------------- *)
(** ** Tokens *)

Lemma skip_sep_length (sep s : cstring) :
  (List.length (skip_sep sep s) <= List.length s)%nat.
Proof.
  induction s as [|c s IH]; simpl; [lia|].
  destruct (strchr sep c); simpl; lia.
Qed.

Lemma span_token_length (sep s : cstring) :
  (List.length (snd (span_token sep s)) <= List.length s)%nat.
Proof.
  induction s as [|c s IH]; simpl; [lia|].
  destruct (strchr sep c); simpl; [lia|].
  destruct (span_token sep s) as [t r]. simpl in *. lia.
Qed.

Lemma apr_strtok_shorter (sep s t r : cstring) :
  apr_strtok sep s = Some (t, r) -> (List.length r < List.length s)%nat.
Proof.
  unfold apr_strtok. intros H.
  pose proof (skip_sep_length sep s) as H1.
  destruct (skip_sep sep s) as [|c s'] eqn:E; [discriminate|].
  pose proof (span_token_length sep s') as H2.
  destruct (span_token sep s') as [t' r']. simpl in *.
  injection H as _ <-. lia.
Qed.

Lemma fields_fuel_enough (f1 f2 : nat) (s : cstring) :
  (List.length s <= f1)%nat -> (List.length s <= f2)%nat ->
  fields_fuel f1 s = fields_fuel f2 s.
Proof.
  revert f2 s. induction f1 as [|f1 IH]; intros f2 s H1 H2.
  - destruct s; [|simpl in H1; lia].
    destruct f2; reflexivity.
  - destruct f2 as [|f2].
    + destruct s; [reflexivity|simpl in H2; lia].
    + simpl. destruct (apr_strtok WHITESPACE s) as [[t r]|] eqn:E; [|reflexivity].
      apply apr_strtok_shorter in E. f_equal. apply IH; lia.
Qed.

Lemma fields_unfold (s : cstring) :
  fields s = match apr_strtok WHITESPACE s with
             | None => []
             | Some (t, r) => t :: fields r
             end.
Proof.
  unfold fields. destruct s as [|c s]; [reflexivity|].
  simpl fields_fuel.
  destruct (apr_strtok WHITESPACE (c :: s)) as [[t r]|] eqn:E; [|reflexivity].
  apply apr_strtok_shorter in E. simpl in E.
  f_equal. apply fields_fuel_enough; lia.
Qed.

Lemma fields_cons (s t : cstring) (l : list cstring) :
  fields s = t :: l ->
  exists r, apr_strtok WHITESPACE s = Some (t, r) /\ fields r = l.
Proof.
  rewrite fields_unfold.
  destruct (apr_strtok WHITESPACE s) as [[t' r]|]; [|discriminate].
  intros H. injection H as -> <-. exists r. split; reflexivity.
Qed.

Lemma fields_nil (s : cstring) :
  fields s = [] -> apr_strtok WHITESPACE s = None.
Proof.
  rewrite fields_unfold.
  destruct (apr_strtok WHITESPACE s) as [[t' r]|]; [discriminate|reflexivity].
Qed.

Lemma cstr_eqb_refl (s : cstring) : cstr_eqb s s = true.
Proof.
  induction s as [|c s IH]; simpl; [reflexivity|].
  unfold ascii_eqb. rewrite Ascii.eqb_refl. exact IH.
Qed.

Lemma cstr_eqb_eq (a b : cstring) : cstr_eqb a b = true <-> a = b.
Proof.
  split; [|intros ->; apply cstr_eqb_refl].
  revert b. induction a as [|x a IH]; intros [|y b]; simpl; try discriminate.
  - reflexivity.
  - intros H. apply andb_prop in H. destruct H as [H1 H2].
    unfold ascii_eqb in H1. apply Ascii.eqb_eq in H1. subst y.
    f_equal. apply IH. exact H2.
Qed.

(** A token starts with the first character of the string when that is
    no separator. *)
Lemma apr_strtok_hd (sep : cstring) (c : ascii) (s t r : cstring) :
  strchr sep c = false ->
  apr_strtok sep (c :: s) = Some (t, r) -> hd_is c t = true.
Proof.
  unfold apr_strtok. simpl. intros ->.
  destruct (span_token sep s) as [t' r']. intros H. injection H as <- _.
  simpl. unfold ascii_eqb. apply Ascii.eqb_refl.
Qed.

Lemma hd_is_eq (c : ascii) (s : cstring) :
  hd_is c s = true -> exists s', s = c :: s'.
Proof.
  destruct s as [|x s']; simpl; [discriminate|].
  unfold ascii_eqb. intros H. apply Ascii.eqb_eq in H. subst x.
  exists s'. reflexivity.
Qed.

(** No token type starts with the comment character. *)
Lemma parse_token_type_hash (t : cstring) :
  parse_token_type ("#"%char :: t) = None.
Proof.
  unfold parse_token_type.
  replace (strcmp0 ("#"%char :: t) (str "E")) with false by reflexivity.
  replace (strcmp0 ("#"%char :: t) (str "T")) with false by reflexivity.
  destruct (apr_strtok (str "/") (snprintf_s 128 ("#"%char :: t)))
    as [[tk last]|] eqn:E; [|reflexivity].
  apply (apr_strtok_hd (str "/") "#"%char) in E; [|reflexivity].
  apply hd_is_eq in E. destruct E as [tk' ->].
  reflexivity.
Qed.

Section StoreFacts.

Variable strftime_local : Z -> cstring.
Variable strptime_mktime : cstring -> option Z.

Local Abbreviation print_user := (print_user strftime_local).
Local Abbreviation scan_line := (scan_line strptime_mktime).
Local Abbreviation scan_entries := (scan_entries strftime_local strptime_mktime).
Local Abbreviation find_update_user :=
  (find_update_user strftime_local strptime_mktime).

(** A line whose first field is a token type does not start a comment. *)
Lemma token_type_not_comment (line ty : cstring) (l : list cstring)
    (tok : otp_user) :
  fields line = ty :: l -> parse_token_type ty = Some tok ->
  hd_is "#" line = false.
Proof.
  intros Hf Hty. destruct (hd_is "#" line) eqn:E; [|reflexivity].
  apply hd_is_eq in E. destruct E as [s' ->].
  apply fields_cons in Hf. destruct Hf as [r [Htok _]].
  apply (apr_strtok_hd WHITESPACE "#"%char) in Htok; [|reflexivity].
  apply hd_is_eq in Htok. destruct Htok as [ty' ->].
  rewrite parse_token_type_hash in Hty. discriminate.
Qed.

(** The loop body in read-only mode, from the fields of the line. *)
Lemma scan_line_by_fields (user : otp_user) (found : bool)
    (line ty name pn ky : cstring) (rest : list cstring)
    (tok : otp_user) (k : octets) :
  fields line = ty :: name :: pn :: ky :: rest ->
  parse_token_type ty = Some tok ->
  name = username user ->
  key_decodes ky k ->
  (rest = [] ->
   scan_line false user found line
   = (LineFound, decoded tok name pn k 0 [] 0, true))
  /\ (forall off, rest = [off] ->
      scan_line false user found line
      = (LineFound, decoded tok name pn k (atol off) [] 0, true))
  /\ (forall off otp, rest = [off; otp] ->
      scan_line false user found line
      = (LineInvalid MissingTimestamp,
         decoded tok name pn k (atol off) otp 0, true))
  /\ (forall off otp ts more t, rest = off :: otp :: ts :: more ->
      strptime_mktime ts = Some t ->
      scan_line false user found line
      = (LineFound, decoded tok name pn k (atol off) otp t, true)).
Proof.
  intros Hf Hty Hname Hkey.
  pose proof (token_type_not_comment _ _ _ _ Hf Hty) as Hhash.
  apply fields_cons in Hf. destruct Hf as (r1 & T1 & Hf).
  apply fields_cons in Hf. destruct Hf as (r2 & T2 & Hf).
  apply fields_cons in Hf. destruct Hf as (r3 & T3 & Hf).
  apply fields_cons in Hf. destruct Hf as (r4 & T4 & Hf).
  assert (Hcmp : strcmp0 name (username user) = true)
    by (subst name; apply cstr_eqb_refl).
  unfold key_decodes in Hkey.
  unfold scan_line. rewrite Hhash, T1, Hty, T2, Hcmp. simpl negb. cbv iota.
  rewrite T3, T4, Hkey.
  repeat split.
  - intros ->. apply fields_nil in Hf. rewrite Hf. reflexivity.
  - intros off ->. apply fields_cons in Hf. destruct Hf as (r5 & T5 & Hf).
    apply fields_nil in Hf. rewrite T5, Hf. reflexivity.
  - intros off otp ->. apply fields_cons in Hf. destruct Hf as (r5 & T5 & Hf).
    apply fields_cons in Hf. destruct Hf as (r6 & T6 & Hf).
    apply fields_nil in Hf. rewrite T5, T6, Hf. reflexivity.
  - intros off otp ts more t -> Hts.
    apply fields_cons in Hf. destruct Hf as (r5 & T5 & Hf).
    apply fields_cons in Hf. destruct Hf as (r6 & T6 & Hf).
    apply fields_cons in Hf. destruct Hf as (r7 & T7 & Hf).
    rewrite T5, T6, T7, Hts. reflexivity.
Qed.

(** C6, as the code has it. For every line of the users file whose
    mandatory fields (token type, user name, PIN, key) are present and
    well-formed, decoding for that user succeeds when all the optional
    fields are absent and when only the last OTP and its timestamp are
    absent; the fields that are absent take their defaults (offset 0,
    empty last OTP, timestamp 0). With all the fields present and a
    timestamp the C library reads, decoding succeeds too. A line that has
    a last OTP and no timestamp is invalid. *)
Theorem decode_optional_fields (user : otp_user) (found : bool)
    (line ty name pn ky : cstring) (rest : list cstring)
    (tok : otp_user) (k : octets) :
  fields line = ty :: name :: pn :: ky :: rest ->
  parse_token_type ty = Some tok ->
  name = username user ->
  key_decodes ky k ->
  (rest = [] ->
   scan_line false user found line
   = (LineFound, decoded tok name pn k 0 [] 0, true))
  /\ (forall off, rest = [off] ->
      scan_line false user found line
      = (LineFound, decoded tok name pn k (atol off) [] 0, true))
  /\ (forall off otp, rest = [off; otp] ->
      scan_line false user found line
      = (LineInvalid MissingTimestamp,
         decoded tok name pn k (atol off) otp 0, true))
  /\ (forall off otp ts more t, rest = off :: otp :: ts :: more ->
      strptime_mktime ts = Some t ->
      scan_line false user found line
      = (LineFound, decoded tok name pn k (atol off) otp t, true)).
Proof.
  intros Hf Hty Hname Hkey.
  exact (scan_line_by_fields user found line ty name pn ky rest tok k
           Hf Hty Hname Hkey).
Qed.

(* ----------------------------------------------------------------- *)
(** ** Lookup: the scan in read-only mode *)

Lemma snprintf_s_idem (n : nat) (s : cstring) :
  snprintf_s n (snprintf_s n s) = snprintf_s n s.
Proof.
  unfold snprintf_s. rewrite firstn_firstn. f_equal. lia.
Qed.

(** In read-only mode the loop body reads [user] for its name only, and
    leaves the name as it is. *)
Lemma scan_line_lookup_username (u : otp_user) (f : bool) (l : cstring) :
  (List.length (username u) < 128)%nat ->
  username (snd (fst (scan_line false u f l))) = username u.
Proof.
  intros Hlen. unfold scan_line.
  repeat (break_match; try reflexivity);
    cbn [fst snd username set_username set_tokinfo set_pin set_key set_offset
         set_last_otp set_last_auth zero_user];
    match goal with
    | H : negb (strcmp0 ?s (username u)) = false |- _ =>
        apply negb_false_iff in H; apply cstr_eqb_eq in H; subst s;
        apply snprintf_s_fits; exact Hlen
    end.
Qed.

Lemma scan_line_lookup_indep (u1 u2 : otp_user) (f1 f2 : bool) (l : cstring) :
  username u1 = username u2 ->
  fst (fst (scan_line false u1 f1 l)) = fst (fst (scan_line false u2 f2 l))
  /\ (fst (fst (scan_line false u1 f1 l)) = LineFound ->
      snd (fst (scan_line false u1 f1 l)) = snd (fst (scan_line false u2 f2 l))).
Proof.
  intros Hu. unfold scan_line. rewrite Hu.
  repeat (break_match; try (split; [reflexivity|]; cbn [fst snd];
                            first [discriminate | reflexivity])).
Qed.


Lemma scan_entries_lookup_result (lines : list cstring) :
  forall (n : Z) (u : otp_user) (nf : cstring) (fd : bool)
         (log : list (Z * invalid_reason)),
    (List.length (username u) < 128)%nat ->
    match scan_entries false lines n u nf fd log with
    | ScanFound res log' =>
        (exists l, In l lines
                   /\ fst (scan_line false u false l) = (LineFound, res))
        /\ exists ext, log' = log ++ ext
    | ScanEnd _ _ _ log' =>
        Forall (fun l => fst (fst (scan_line false u false l)) <> LineFound)
               lines
        /\ exists ext, log' = log ++ ext
    end.
Proof.
  induction lines as [|l rest IH]; intros n u nf fd log Hlen.
  - simpl. split; [constructor|]. exists []. symmetry. apply app_nil_r.
  - simpl scan_entries.
    pose proof (scan_line_lookup_username u fd l Hlen) as Hname.
    pose proof (scan_line_lookup_indep u u fd false l eq_refl) as [Hres Hrec].
    destruct (scan_line false u fd l) as [[r u'] fd'] eqn:E.
    cbn [fst snd] in Hname, Hres, Hrec.
    assert (Hlen' : (List.length (username u') < 128)%nat)
      by (rewrite Hname; exact Hlen).
    assert (Hstep : forall l0,
      fst (fst (scan_line false u' false l0))
      = fst (fst (scan_line false u false l0))
      /\ (fst (fst (scan_line false u' false l0)) = LineFound ->
          snd (fst (scan_line false u' false l0))
          = snd (fst (scan_line false u false l0))))
      by (intros l0; apply scan_line_lookup_indep; exact Hname).
    assert (Hrest : forall n' nf' log',
      match scan_entries false rest n' u' nf' fd' log' with
      | ScanFound res log'' =>
          (exists l0, In l0 (l :: rest)
                      /\ fst (scan_line false u false l0) = (LineFound, res))
          /\ exists ext, log'' = log' ++ ext
      | ScanEnd _ _ _ log'' =>
          (r <> LineFound ->
           Forall (fun l0 => fst (fst (scan_line false u false l0)) <> LineFound)
                  (l :: rest))
          /\ exists ext, log'' = log' ++ ext
      end).
    { intros n' nf' log'. specialize (IH n' u' nf' fd' log' Hlen').
      destruct (scan_entries false rest n' u' nf' fd' log') as [res lg|uu nn ff lg].
      - destruct IH as [(l0 & Hin & Hl0) Hext]. split; [|exact Hext].
        exists l0. split; [right; exact Hin|].
        destruct (Hstep l0) as [H1 H2].
        destruct (scan_line false u' false l0) as [[a b] c].
        destruct (scan_line false u false l0) as [[a' b'] c'].
        cbn [fst snd] in *. injection Hl0 as -> ->.
        rewrite <- H1, <- (H2 eq_refl). reflexivity.
      - destruct IH as [Hall Hext]. split; [|exact Hext].
        intros Hr. constructor.
        + rewrite <- Hres. exact Hr.
        + rewrite Forall_forall in *. intros l0 Hin.
          destruct (Hstep l0) as [H1 _]. rewrite <- H1. apply Hall. exact Hin. }
    destruct r.
    + specialize (Hrest (n + 1) nf log).
      destruct (scan_entries false rest (n + 1) u' nf fd' log); [exact Hrest|].
      destruct Hrest as [H1 H2]. split; [apply H1; discriminate|exact H2].
    + specialize (Hrest (n + 1) nf (log ++ [(n, why)])).
      destruct (scan_entries false rest (n + 1) u' nf fd' (log ++ [(n, why)])).
      * destruct Hrest as [H1 [ext H2]]. split; [exact H1|].
        exists ((n, why) :: ext). rewrite H2, <- app_assoc. reflexivity.
      * destruct Hrest as [H1 [ext H2]]. split; [apply H1; discriminate|].
        exists ((n, why) :: ext). rewrite H2, <- app_assoc. reflexivity.
    + specialize (Hrest (n + 1) (nf ++ print_user u') log).
      destruct (scan_entries false rest (n + 1) u' (nf ++ print_user u') fd' log);
        [exact Hrest|].
      destruct Hrest as [H1 H2]. split; [apply H1; discriminate|exact H2].
    + split.
      * exists l. split; [left; reflexivity|].
        destruct (scan_line false u false l) as [[a b] c].
        cbn [fst snd] in *. rewrite <- Hres, <- (Hrec eq_refl). reflexivity.
      * exists []. symmetry. apply app_nil_r.
Qed.




(* ----------------------------------------------------------------- *)
(** ** Update: the rewrite of the users file *)

Lemma apr_file_gets_spec (n : nat) (s : cstring) :
  fst (apr_file_gets n s) ++ snd (apr_file_gets n s) = s
  /\ (List.length (fst (apr_file_gets n s)) <= n)%nat
  /\ (s <> [] -> (0 < n)%nat -> fst (apr_file_gets n s) <> []).
Proof.
  revert s. induction n as [|n IH]; intros s.
  - simpl. repeat split; [lia|intros; lia].
  - destruct s as [|c s]; simpl.
    + repeat split; [lia|intros H; contradiction].
    + destruct (ascii_eqb c newline).
      * simpl. repeat split; [lia|intros; discriminate].
      * specialize (IH s). destruct (apr_file_gets n s) as [l r].
        simpl in *. destruct IH as (H1 & H2 & _).
        repeat split; [rewrite H1; reflexivity|lia|intros; discriminate].
Qed.

Lemma read_lines_spec (fuel : nat) :
  forall s, (List.length s <= fuel)%nat ->
    List.concat (read_lines fuel s) = s
    /\ Forall (fun l => (List.length l < 1024)%nat) (read_lines fuel s).
Proof.
  induction fuel as [|f IH]; intros s Hs.
  - destruct s; [|simpl in Hs; lia]. simpl. split; [reflexivity|constructor].
  - destruct s as [|c s]; [simpl; split; [reflexivity|constructor]|].
    cbn [read_lines].
    destruct (apr_file_gets_spec 1023 (c :: s)) as (H1 & H2 & H3).
    destruct (apr_file_gets 1023 (c :: s)) as [l r]. cbn [fst snd] in *.
    assert (Hl : l <> []) by (apply H3; [discriminate|lia]).
    assert (Hr : (List.length r <= f)%nat).
    { apply (f_equal (@List.length ascii)) in H1.
      rewrite length_app in H1. simpl in H1, Hs.
      destruct l; [contradiction|]. simpl in H1. lia. }
    destruct (IH r Hr) as [IH1 IH2]. simpl List.concat. rewrite IH1.
    split; [exact H1|]. constructor; [lia|exact IH2].
Qed.

Lemma file_lines_spec (content : cstring) :
  List.concat (file_lines content) = content
  /\ Forall (fun l => (List.length l < 1024)%nat) (file_lines content).
Proof. apply read_lines_spec. lia. Qed.

Lemma c_str_length (buf : cstring) :
  (List.length (c_str buf) <= List.length buf)%nat.
Proof.
  induction buf as [|c buf IH]; [apply Nat.le_refl|]. cbn [c_str].
  destruct (ascii_eqb c NUL); cbn [List.length]; lia.
Qed.

(** The strings the scan works on fit the line buffer. *)
Lemma linebuf_lines_spec (content : cstring) :
  Forall (fun l => (List.length l < 1024)%nat) (linebuf_lines content).
Proof.
  destruct (file_lines_spec content) as [_ Hlen]. unfold linebuf_lines.
  rewrite Forall_forall in *. intros l Hin. apply in_map_iff in Hin.
  destruct Hin as (piece & <- & Hin). specialize (Hlen piece Hin).
  pose proof (c_str_length piece). lia.
Qed.

Lemma c_str_no_nul (s : cstring) : no_nul s -> c_str s = s.
Proof.
  unfold no_nul. induction s as [|c s IH]; [reflexivity|].
  cbn [forallb c_str]. intros H. apply andb_true_iff in H.
  destruct H as [Hc Hs]. apply negb_true_iff in Hc. rewrite Hc.
  f_equal. apply IH. exact Hs.
Qed.

Lemma no_nul_app (a b : cstring) : no_nul (a ++ b) <-> no_nul a /\ no_nul b.
Proof.
  unfold no_nul. rewrite forallb_app. apply andb_true_iff.
Qed.

Lemma no_nul_concat (ls : list cstring) :
  no_nul (List.concat ls) <-> Forall no_nul ls.
Proof.
  induction ls as [|l ls IH]; cbn [List.concat].
  - split; [constructor|reflexivity].
  - rewrite no_nul_app, IH. split.
    + intros [H1 H2]. constructor; assumption.
    + intros H. inversion H; subst. split; assumption.
Qed.

(** In a file without a NUL byte the scan works on the lines as read. *)
Lemma linebuf_lines_no_nul (content : cstring) :
  no_nul content -> linebuf_lines content = file_lines content.
Proof.
  intros Hc. destruct (file_lines_spec content) as [Hcat _].
  rewrite <- Hcat in Hc. apply no_nul_concat in Hc. unfold linebuf_lines.
  revert Hc. generalize (file_lines content) as ls.
  induction ls as [|l ls IH]; intros Hc; [reflexivity|].
  inversion Hc; subst. cbn [map].
  rewrite c_str_no_nul by assumption. f_equal. apply IH. assumption.
Qed.

Lemma apr_file_gets_line (n : nat) (s : cstring) :
  exists body,
    Forall (fun c => ascii_eqb c newline = false) body
    /\ (fst (apr_file_gets n s) = body ++ [newline]
        \/ fst (apr_file_gets n s) = body).
Proof.
  revert s. induction n as [|n IH]; intros s.
  - exists []. split; [constructor|right; reflexivity].
  - destruct s as [|c s]; simpl.
    + exists []. split; [constructor|right; reflexivity].
    + destruct (ascii_eqb c newline) eqn:E.
      * exists []. split; [constructor|left]. simpl.
        unfold ascii_eqb in E. apply Ascii.eqb_eq in E. subst c. reflexivity.
      * destruct (IH s) as (body & Hb & Hl).
        destruct (apr_file_gets n s) as [l r]. cbn [fst] in *.
        exists (c :: body). split; [constructor; assumption|].
        destruct Hl as [->| ->]; [left|right]; reflexivity.
Qed.

(** The lines of a file are lines as read, and together they are the
    file. *)
Lemma file_lines_as_read (content : cstring) :
  Forall line_as_read (file_lines content).
Proof.
  unfold file_lines.
  assert (H : forall fuel s, Forall line_as_read (read_lines fuel s)).
  { induction fuel as [|f IH]; intros s; [constructor|].
    destruct s as [|c s]; [constructor|]. cbn [read_lines].
    destruct (apr_file_gets_spec 1023 (c :: s)) as (_ & H2 & H3).
    destruct (apr_file_gets_line 1023 (c :: s)) as (body & Hb & Hl).
    destruct (apr_file_gets 1023 (c :: s)) as [l r]. cbn [fst snd] in *.
    constructor; [|apply IH].
    split; [apply H3; [discriminate|lia]|]. split; [exact H2|].
    exists body. split; assumption. }
  apply H.
Qed.

Lemma apr_file_gets_take_line (n : nat) :
  forall s, (List.length (fst (take_line s)) <= n)%nat ->
    apr_file_gets n s = take_line s.
Proof.
  induction n as [|n IH]; intros s Hs.
  - destruct s as [|c s]; [reflexivity|]. simpl in *.
    destruct (ascii_eqb c newline); [simpl in Hs; lia|].
    destruct (take_line s); simpl in Hs; lia.
  - destruct s as [|c s]; [reflexivity|]. simpl in *.
    destruct (ascii_eqb c newline); [reflexivity|].
    rewrite IH; [reflexivity|].
    destruct (take_line s); simpl in *; lia.
Qed.

(** In a file whose text lines fit the line buffer, the lines read are
    the text lines. *)
Lemma file_lines_text_lines (content : cstring) :
  Forall (fun l => (List.length l <= 1023)%nat) (text_lines content) ->
  file_lines content = text_lines content.
Proof.
  unfold file_lines, text_lines.
  generalize (List.length content) as fuel. intros fuel. revert content.
  induction fuel as [|f IH]; intros s Hall; [reflexivity|].
  destruct s as [|c s]; [reflexivity|].
  cbn [read_lines text_lines_fuel] in *.
  destruct (take_line (c :: s)) as [l r] eqn:E.
  inversion Hall as [|? ? Hl Hrest]; subst.
  rewrite apr_file_gets_take_line by (rewrite E; exact Hl).
  rewrite E. f_equal. apply IH. exact Hrest.
Qed.

(** When updating, the loop body leaves [user] alone and replaces the
    lines that name the user. *)
Lemma scan_line_update (u : otp_user) (f : bool) (l : cstring) :
  (names_user u l = true /\ scan_line true u f l = (LineUpdate, u, true))
  \/ (names_user u l = false
      /\ (scan_line true u f l = (LineCopy, u, f)
          \/ exists why, scan_line true u f l = (LineInvalid why, u, f))).
Proof.
  unfold names_user, scan_line. rewrite !fields_unfold.
  destruct (hd_is "#" l); [right; split; [|left; reflexivity]|].
  { repeat (break_match; try reflexivity). }
  destruct (apr_strtok WHITESPACE l) as [[ty r1]|];
    [|right; split; [reflexivity|left; reflexivity]].
  rewrite fields_unfold.
  destruct (parse_token_type ty) as [tok|].
  - destruct (apr_strtok WHITESPACE r1) as [[name r2]|].
    + cbn [negb andb]. destruct (strcmp0 name (username u)); cbn [negb].
      * left. split; reflexivity.
      * right. split; [reflexivity|left; reflexivity].
    + right. split; [reflexivity|right; eexists; reflexivity].
  - right. split.
    + destruct (apr_strtok WHITESPACE r1) as [[name r2]|]; reflexivity.
    + right. eexists. reflexivity.
Qed.

Lemma scan_entries_update (lines : list cstring) :
  forall (n : Z) (u : otp_user) (nf : cstring) (fd : bool)
         (log : list (Z * invalid_reason)),
    Forall (fun l => (List.length l < 1024)%nat) lines ->
    exists log',
      scan_entries true lines n u nf fd log
      = ScanEnd u
          (nf ++ List.concat (map (fun l => if names_user u l then print_user u
                                       else l) lines))
          (fd || existsb (names_user u) lines) log'.
Proof.
  induction lines as [|l rest IH]; intros n u nf fd log Hall.
  - exists log. simpl. rewrite app_nil_r, orb_false_r. reflexivity.
  - inversion Hall as [|? ? Hl Hrest]; subst.
    cbn [scan_entries map List.concat existsb].
    rewrite (snprintf_s_fits 1024 l) by exact Hl.
    destruct (scan_line_update u fd l) as [[Hn E]|[Hn [E|[why E]]]];
      rewrite E, Hn.
    + destruct (IH (n + 1) u (nf ++ print_user u) true log Hrest) as [lg ->].
      exists lg. rewrite <- app_assoc, orb_true_r. reflexivity.
    + destruct (IH (n + 1) u (nf ++ l) fd log Hrest) as [lg ->].
      exists lg. rewrite <- app_assoc. reflexivity.
    + destruct (IH (n + 1) u (nf ++ l) fd (log ++ [(n, why)]) Hrest)
        as [lg ->].
      exists lg. rewrite <- app_assoc. reflexivity.
Qed.

Lemma map_no_target (u : otp_user) (lines : list cstring) :
  existsb (names_user u) lines = false ->
  map (fun l => if names_user u l then print_user u else l) lines = lines.
Proof.
  induction lines as [|l rest IH]; simpl; [reflexivity|].
  intros H. apply orb_false_iff in H. destruct H as [H1 H2].
  rewrite H1, IH by exact H2. reflexivity.
Qed.

(** The update in which every call succeeds: the status, and the files
    it leaves. Each string the scan has worked on is written as it is,
    or replaced when it names the user. *)
Lemma update_succeeds (fs : filesys) (io : io_outcome) (user : otp_user)
    (content : cstring) :
  update_io_fails fs io = false ->
  fs_users fs = Some content ->
  exists log,
    find_update_user fs io user true
    = ((if existsb (names_user user) (linebuf_lines content)
        then AUTH_USER_FOUND else AUTH_USER_NOT_FOUND),
       user,
       mk_fs (Some (List.concat
                      (map (fun l => if names_user user l then print_user user
                                     else l) (linebuf_lines content))))
             None (Some []),
       log).
Proof.
  unfold update_io_fails, new_file_opened. intros Hio Hfs. rewrite Hfs in Hio.
  apply negb_false_iff in Hio.
  repeat (apply andb_true_iff in Hio; destruct Hio as [Hio ?]).
  unfold find_update_user.
  repeat match goal with H : _ = true |- _ => rewrite H; clear H end.
  cbn [andb negb fs_users fs_new fs_lock]. rewrite Hfs.
  destruct (scan_entries_update (linebuf_lines content) 1 user [] false []
              (linebuf_lines_spec content)) as [lg ->].
  exists lg. reflexivity.
Qed.

(** The update in which a call fails. *)
Lemma update_fails (fs : filesys) (io : io_outcome) (user : otp_user) :
  update_io_fails fs io = true ->
  let '(status, _, fs', _) := find_update_user fs io user true in
  status = AUTH_GENERAL_ERROR
  /\ fs_users fs' = fs_users fs
  /\ fs_new fs' = (if new_file_opened fs io then None else fs_new fs).
Proof.
  unfold update_io_fails, new_file_opened, find_update_user.
  destruct io as [lo lk uo no rn]. cbn [io_lock_open io_lock io_users_open
    io_new_open io_rename andb negb].
  destruct lo; cbn [andb negb]; [|intros _; repeat split].
  destruct lk; cbn [andb negb]; [|intros _; repeat split].
  cbn [fs_users].
  destruct uo; cbn [andb negb]; [|intros _; repeat split].
  destruct (fs_users fs) as [content|] eqn:Hfs; cbn [andb negb];
    [|intros _; repeat split].
  destruct no; cbn [andb negb]; [|intros _; repeat split].
  destruct rn; cbn [andb negb]; [discriminate|]. intros _.
  destruct (scan_entries_update (linebuf_lines content) 1 user [] false []
              (linebuf_lines_spec content)) as [lg ->].
  cbn [negb fs_users fs_new]. repeat split.
Qed.

(** C9, as the code has it. For every update that succeeds on a users
    file whose text lines fit the line buffer (at most 1023 characters,
    the newline counted) and which holds no NUL byte: every line that
    does not name the user is in the rewritten file as it was and in the
    same order, comment lines, blank lines and the invalid lines without
    a token type or a user name among them; every line that names the
    user, whether what follows the name is valid or not, is replaced by
    the one line [print_user] writes for the record; when no line names
    the user the update still goes through, the file has the content it
    had, and no line is added. *)
Theorem update_rewrites_target_only (fs : filesys) (user : otp_user)
    (content : cstring) :
  fs_users fs = Some content ->
  Forall (fun l => (List.length l <= 1023)%nat) (text_lines content) ->
  no_nul content ->
  let lines := text_lines content in
  let '(status, _, fs', _) := find_update_user fs io_ok user true in
  (List.concat lines = content /\ Forall line_as_read lines)
  /\ fs_users fs'
     = Some (List.concat (map (fun l => if names_user user l then print_user user
                                   else l) lines))
  /\ fs_new fs' = None
  /\ (exists body, print_user user = body ++ [newline])
  /\ status = (if existsb (names_user user) lines then AUTH_USER_FOUND
               else AUTH_USER_NOT_FOUND)
  /\ (existsb (names_user user) lines = false -> fs_users fs' = Some content).
Proof.
  intros Hfs Hfit Hnul lines.
  assert (Hfl : file_lines content = lines)
    by (apply file_lines_text_lines; exact Hfit).
  assert (Hl : linebuf_lines content = lines)
    by (rewrite linebuf_lines_no_nul by exact Hnul; exact Hfl).
  destruct (file_lines_spec content) as [Hcat _]. rewrite Hfl in Hcat.
  pose proof (file_lines_as_read content) as Hread. rewrite Hfl in Hread.
  assert (Hio : update_io_fails fs io_ok = false)
    by (unfold update_io_fails, new_file_opened; rewrite Hfs; reflexivity).
  destruct (update_succeeds fs io_ok user content Hio Hfs) as [lg ->].
  rewrite Hl. cbn [fs_users fs_new].
  split; [split; [exact Hcat|exact Hread]|].
  split; [reflexivity|]. split; [reflexivity|].
  split.
  { unfold print_user. eexists. rewrite !app_assoc. reflexivity. }
  split; [reflexivity|].
  intros Hno. rewrite map_no_target by exact Hno. rewrite Hcat. reflexivity.
Qed.

(** C8, as the code has it. For every update in which a step fails
    (opening or locking the lock file, opening the users file or the new
    file, renaming the new file over the users file), the result is a
    general error and the users file has the content it had; the new file
    is removed when the call has opened it, and a failure before that
    leaves the path of the new file as it was. *)
Theorem update_failure_keeps_store (fs : filesys) (io : io_outcome)
    (user : otp_user) :
  update_io_fails fs io = true ->
  let '(status, _, fs', _) := find_update_user fs io user true in
  status = AUTH_GENERAL_ERROR
  /\ fs_users fs' = fs_users fs
  /\ fs_new fs' = (if new_file_opened fs io then None else fs_new fs).
Proof. exact (update_fails fs io user). Qed.

End StoreFacts.

(* ----------------------------------------------------------------- *)
(** ** Records returned by the lookup *)

Lemma parse_token_type_wf (ty : cstring) (tok : otp_user) :
  parse_token_type ty = Some tok -> record_wf tok.
Proof.
  unfold parse_token_type, parse_interval, parse_num_digits, record_wf.
  intros H.
  repeat match type of H with
  | context [match ?x with _ => _ end] => destruct x eqn:?; try discriminate
  end;
  repeat match goal with
  | H : context [match ?x with _ => _ end] |- _ =>
      destruct x eqn:?; try discriminate
  end;
  repeat match goal with
  | H : Some _ = Some _ |- _ => injection H as <-
  | H : _ || _ = false |- _ => apply orb_false_iff in H; destruct H
  | H : (_ <=? _) = false |- _ => apply Z.leb_gt in H
  | H : (_ <? _) = false |- _ => apply Z.ltb_ge in H
  end;
  cbn [algorithm time_interval num_digits set_tokinfo set_time_interval
       set_num_digits zero_user] in *;
  unfold OTP_ALGORITHM_HOTP, OTP_ALGORITHM_MOTP, MOTP_TIME_INTERVAL,
    DEFAULT_NUM_DIGITS, INT_MAX in *;
  change powers10_len with 10 in *;
  repeat match goal with
  | |- context [to_int ?v] =>
      pose proof (to_int_range v); unfold in_int, INT_MAX in *;
      generalize dependent (to_int v); intros
  end;
  repeat split; try lia; auto.
Qed.

Section VerifierFacts.

Variable strftime_local : Z -> cstring.
Variable strptime_mktime : cstring -> option Z.

Local Abbreviation scan_line := (scan_line strptime_mktime).
Local Abbreviation scan_entries := (scan_entries strftime_local strptime_mktime).
Local Abbreviation find_update_user :=
  (find_update_user strftime_local strptime_mktime).
Local Abbreviation check_otp := (check_otp strftime_local strptime_mktime).
Local Abbreviation authn_otp_check_password :=
  (authn_otp_check_password strftime_local strptime_mktime).

Lemma scan_line_found_wf (u res : otp_user) (f : bool) (l : cstring) :
  fst (scan_line false u f l) = (LineFound, res) -> record_wf res.
Proof.
  unfold scan_line.
  repeat (break_match; cbn [fst]; try discriminate);
    intros H; injection H as <-;
    match goal with
    | H : parse_token_type _ = Some ?tok |- _ =>
        apply parse_token_type_wf in H; exact H
    end.
Qed.

(** A lookup leaves the files alone, and a record it finds is well
    formed. *)
Lemma lookup_found (fs fs1 : filesys) (io : io_outcome) (u res : otp_user)
    (log : list (Z * invalid_reason)) :
  (List.length (username u) < 128)%nat ->
  find_update_user fs io u false = (AUTH_USER_FOUND, res, fs1, log) ->
  fs1 = fs /\ record_wf res.
Proof.
  intros Hlen. unfold find_update_user. cbn [andb].
  destruct (if io_users_open io then fs_users fs else None) as [content|];
    [|discriminate].
  pose proof (scan_entries_lookup_result strftime_local strptime_mktime
                (linebuf_lines content) 1 u [] false [] Hlen) as Hres.
  destruct (scan_entries false (linebuf_lines content) 1 u [] false [])
    as [r lg|uu nn ff lg]; cbn [negb]; [|discriminate].
  intros H. injection H as <- <- _.
  destruct Hres as [(l & _ & Hl) _]. split; [reflexivity|].
  apply (scan_line_found_wf u r false l). exact Hl.
Qed.

Lemma snprintf_s_length (n : nat) (s : cstring) :
  (0 < n)%nat -> (List.length (snprintf_s n s) < n)%nat.
Proof.
  intros Hn. unfold snprintf_s. rewrite length_firstn. lia.
Qed.

(** The verifier once the lookup has returned the record [user]. *)
Lemma check_password_found (dir_conf : otp_config) (fs fs1 : filesys)
    (io1 io2 : io_outcome) (now : Z) (name otp_given path : cstring)
    (user : otp_user) (log : list (Z * invalid_reason)) :
  users_file dir_conf = Some path ->
  find_update_user fs io1 (set_username zero_user (snprintf_s 128 name)) false
  = (AUTH_USER_FOUND, user, fs1, log) ->
  record_wf user
  /\ authn_otp_check_password dir_conf fs io1 io2 now name otp_given
     = match check_pin user otp_given with
       | None => (AUTH_DENIED, fs)
       | Some otp => check_otp (get_config dir_conf) fs io2 now user otp
       end.
Proof.
  intros Hconf Hlook.
  assert (Hlen : (List.length
                    (username (set_username zero_user (snprintf_s 128 name)))
                  < 128)%nat)
    by (cbn [username set_username]; apply snprintf_s_length; lia).
  destruct (lookup_found fs fs1 io1 _ user log Hlen Hlook) as [-> Hwf].
  split; [exact Hwf|].
  unfold authn_otp_check_password.
  cbn [get_config users_file]. rewrite Hconf.
  rewrite Hlook. reflexivity.
Qed.

(* ----------------------------------------------------------------- *)
(** ** The counter window *)

Lemma window_loop_spec (user : otp_user) (c : Z) (otp : cstring) (stop : Z)
    (fuel : nat) :
  forall adj, stop - adj + 1 <= Z.of_nat fuel ->
    match window_loop fuel user c otp adj stop with
    | Some a =>
        adj <= a <= stop /\ a <> 0
        /\ otp_matches user (to_int (c + a)) otp = true
        /\ forall b, adj <= b < a -> b <> 0 ->
             otp_matches user (to_int (c + b)) otp = false
    | None =>
        forall b, adj <= b <= stop -> b <> 0 ->
          otp_matches user (to_int (c + b)) otp = false
    end.
Proof.
  induction fuel as [|f IH]; intros adj Hfuel.
  - simpl. intros b Hb. lia.
  - cbn [window_loop].
    destruct (Z.ltb_spec stop adj) as [Hlt|Hge]; [intros b Hb; lia|].
    assert (Hf : stop - (adj + 1) + 1 <= Z.of_nat f) by lia.
    specialize (IH (adj + 1) Hf).
    destruct (Z.eqb_spec adj 0) as [Hz|Hnz].
    + destruct (window_loop f user c otp (adj + 1) stop) as [a|].
      * destruct IH as (H1 & H2 & H3 & H4).
        split; [lia|]. split; [exact H2|]. split; [exact H3|].
        intros b Hb Hb0. apply H4; lia.
      * intros b Hb Hb0. apply IH; lia.
    + destruct (otp_matches user (to_int (c + adj)) otp) eqn:Hm.
      * split; [lia|]. split; [exact Hnz|]. split; [exact Hm|].
        intros b Hb. lia.
      * destruct (window_loop f user c otp (adj + 1) stop) as [a|].
        -- destruct IH as (H1 & H2 & H3 & H4).
           split; [lia|]. split; [exact H2|]. split; [exact H3|].
           intros b Hb Hb0. destruct (Z.eq_dec b adj) as [->|Hne]; [exact Hm|].
           apply H4; lia.
        -- intros b Hb Hb0. destruct (Z.eq_dec b adj) as [->|Hne]; [exact Hm|].
           apply IH; lia.
Qed.



(** The window search in scan order: the expected counter first, then
    the adjustments from [window_start] to [window_stop] upwards, 0 left
    out; the first match is taken, and [None] means no candidate
    matches. *)
Lemma window_search_spec (conf : otp_config) (user : otp_user) (now : Z)
    (otp : cstring) :
  let c := expected_counter user now in
  match window_search conf user now otp with
  | Some a =>
      otp_matches user (to_int (c + a)) otp = true
      /\ (a = 0
          \/ (otp_matches user c otp = false
              /\ window_start conf user <= a <= window_stop conf user
              /\ a <> 0
              /\ forall b, window_start conf user <= b < a -> b <> 0 ->
                   otp_matches user (to_int (c + b)) otp = false))
  | None =>
      otp_matches user c otp = false
      /\ forall b, window_start conf user <= b <= window_stop conf user ->
           b <> 0 -> otp_matches user (to_int (c + b)) otp = false
  end.
Proof.
  intros c. unfold window_search. fold c.
  assert (Hc : to_int (c + 0) = c).
  { rewrite Z.add_0_r. apply to_int_id. unfold c, expected_counter.
    destruct (time_interval user =? 0); apply to_int_range. }
  destruct (otp_matches user c otp) eqn:Hm0.
  - rewrite Hc. split; [exact Hm0|left; reflexivity].
  - pose proof (window_loop_spec user c otp (window_stop conf user)
      (Z.to_nat (window_stop conf user - window_start conf user + 1))
      (window_start conf user) ltac:(lia)) as H.
    destruct (window_loop _ user c otp (window_start conf user)
                (window_stop conf user)) as [a|].
    + destruct H as (H1 & H2 & H3 & H4). split; [exact H3|].
      right. split; [reflexivity|]. split; [exact H1|]. split; [exact H2|].
      exact H4.
    + split; [reflexivity|exact H].
Qed.

(* ----------------------------------------------------------------- *)
(** ** The checks of the verifier *)

Lemma strncmp0_len_prefix (s p : cstring) :
  strncmp0_len s p = true <-> exists rest, s = p ++ rest.
Proof.
  revert s. induction p as [|y p IH]; intros s; simpl.
  - split; [intros _; exists s; reflexivity|reflexivity].
  - destruct s as [|x s].
    + split; [discriminate|intros [rest H]; discriminate].
    + split.
      * intros H. apply andb_prop in H. destruct H as [H1 H2].
        unfold ascii_eqb in H1. apply Ascii.eqb_eq in H1. subst y.
        apply IH in H2. destruct H2 as [rest ->]. exists rest. reflexivity.
      * intros [rest H]. injection H as -> ->.
        unfold ascii_eqb. rewrite Ascii.eqb_refl. simpl.
        apply IH. exists rest. reflexivity.
Qed.

Lemma skipn_prefix (p rest : cstring) : skipn (List.length p) (p ++ rest) = rest.
Proof. induction p as [|y p IH]; simpl; [reflexivity|exact IH]. Qed.

Lemma check_pin_hotp (user : otp_user) (otp_given : cstring) :
  algorithm user = OTP_ALGORITHM_HOTP ->
  (forall rest, otp_given = pin user ++ rest ->
     check_pin user otp_given = Some rest)
  /\ ((~ exists rest, otp_given = pin user ++ rest) ->
      check_pin user otp_given = None).
Proof.
  intros Halg. unfold check_pin. rewrite Halg. cbn [Z.eqb negb Pos.eqb
    OTP_ALGORITHM_HOTP OTP_ALGORITHM_MOTP]. split.
  - intros rest ->.
    assert (H : strncmp0_len (pin user ++ rest) (pin user) = true)
      by (apply strncmp0_len_prefix; exists rest; reflexivity).
    rewrite H. cbn [negb]. rewrite skipn_prefix. reflexivity.
  - intros Hno. destruct (strncmp0_len otp_given (pin user)) eqn:E;
      [|reflexivity].
    apply strncmp0_len_prefix in E. contradiction.
Qed.

Lemma strcmp0_neq (a b : cstring) : a <> b -> strcmp0 a b = false.
Proof.
  intros H. destruct (strcmp0 a b) eqn:E; [|reflexivity].
  apply cstr_eqb_eq in E. contradiction.
Qed.

(** Past the length check and the reuse check, the verifier is the
    window search followed by the update. *)
Lemma check_otp_window (conf : otp_config) (fs : filesys) (io2 : io_outcome)
    (now : Z) (user : otp_user) (otp : cstring) :
  strlen otp = num_digits user ->
  otp <> last_otp user ->
  check_otp conf fs io2 now user otp
  = match window_search conf user now otp with
    | None => (AUTH_DENIED, fs)
    | Some adjust =>
        (AUTH_GRANTED,
         files_after
           (find_update_user fs io2 (success_user user now otp adjust) true))
    end.
Proof.
  intros Hlen Hotp. unfold check_otp. rewrite Hlen, Z.eqb_refl. cbn [negb].
  rewrite strcmp0_neq by exact Hotp.
  destruct (window_search conf user now otp) as [adjust|]; [|reflexivity].
  destruct (find_update_user fs io2 (success_user user now otp adjust) true)
    as [[[st u'] fs'] lg].
  reflexivity.
Qed.

(** C7. For every HOTP record the verifier denies a submitted string
    that does not begin with the PIN of the record, and strips the PIN
    before the checks that follow; for an mOTP record there is no PIN
    check, and the string goes on as submitted. The string that is left
    must have num_digits characters, or the result is "denied". An HOTP
    record with PIN "1234" accepts "1234056789" when "056789" is the
    six-digit code of the expected counter (and not the last OTP of the
    record, which the reuse check handles), and denies "056789" alone. *)
Theorem pin_prefix_and_length (dir_conf : otp_config) (fs fs1 : filesys)
    (io1 io2 : io_outcome) (now : Z) (name otp_given path : cstring)
    (user : otp_user) (log : list (Z * invalid_reason)) :
  users_file dir_conf = Some path ->
  find_update_user fs io1 (set_username zero_user (snprintf_s 128 name)) false
  = (AUTH_USER_FOUND, user, fs1, log) ->
  let conf := get_config dir_conf in
  let verify := authn_otp_check_password dir_conf fs io1 io2 now name in
  (algorithm user = OTP_ALGORITHM_HOTP ->
   ((~ exists rest, otp_given = pin user ++ rest) ->
    verify otp_given = (AUTH_DENIED, fs))
   /\ (forall rest, otp_given = pin user ++ rest ->
       verify otp_given = check_otp conf fs io2 now user rest))
  /\ (algorithm user = OTP_ALGORITHM_MOTP ->
      verify otp_given = check_otp conf fs io2 now user otp_given)
  /\ (forall otp, strlen otp <> num_digits user ->
      check_otp conf fs io2 now user otp = (AUTH_DENIED, fs))
  /\ (algorithm user = OTP_ALGORITHM_HOTP ->
      pin user = str "1234" -> num_digits user = 6 ->
      fst (gen_otp user (expected_counter user now)) = str "056789" ->
      last_otp user <> str "056789" ->
      fst (verify (str "1234056789")) = AUTH_GRANTED
      /\ verify (str "056789") = (AUTH_DENIED, fs)).
Proof.
  intros Hconf Hlook conf verify.
  assert (Hv : forall otp,
    verify otp = match check_pin user otp with
                 | None => (AUTH_DENIED, fs)
                 | Some otp' => check_otp conf fs io2 now user otp'
                 end).
  { intros otp. unfold verify.
    apply (check_password_found dir_conf fs fs1 io1 io2 now name otp path
             user log Hconf Hlook). }
  split; [|split; [|split]].
  - intros Halg. destruct (check_pin_hotp user otp_given Halg) as [Hyes Hno].
    split.
    + intros H. rewrite Hv, (Hno H). reflexivity.
    + intros rest H. rewrite Hv, (Hyes rest H). reflexivity.
  - intros Halg. rewrite Hv. unfold check_pin. rewrite Halg. reflexivity.
  - intros otp Hlen. unfold check_otp.
    destruct (Z.eqb_spec (strlen otp) (num_digits user)); [contradiction|].
    reflexivity.
  - intros Halg Hpin Hnd Hcode Hlast.
    destruct (check_pin_hotp user (str "1234056789") Halg) as [Hyes _].
    destruct (check_pin_hotp user (str "056789") Halg) as [_ Hno].
    split.
    + rewrite Hv, (Hyes (str "056789")) by (rewrite Hpin; reflexivity).
      rewrite check_otp_window;
        [|rewrite Hnd; reflexivity|intros E; apply Hlast; symmetry; exact E].
      assert (Hws : window_search conf user now (str "056789") = Some 0).
      { unfold window_search, otp_matches.
        destruct (gen_otp user (expected_counter user now)) as [b10 b16].
        cbn [fst] in Hcode. subst b10.
        unfold strcmp0. rewrite cstr_eqb_refl. reflexivity. }
      rewrite Hws. reflexivity.
    + rewrite Hv, Hno; [reflexivity|].
      rewrite Hpin. intros [rest H]. discriminate.
Qed.

(** C2, as the code has it. For every verification in which the
    submitted OTP, the PIN stripped, has num_digits characters and is the
    last OTP of the record, the result is "granted" when
    last_auth <= now < last_auth + max_linger and "denied" otherwise; in
    both cases the files are left as they were: the offset is not
    advanced and the users file is not rewritten. *)
Theorem reuse_within_linger (dir_conf : otp_config) (fs fs1 : filesys)
    (io1 io2 : io_outcome) (now : Z) (name otp_given path otp : cstring)
    (user : otp_user) (log : list (Z * invalid_reason)) :
  users_file dir_conf = Some path ->
  find_update_user fs io1 (set_username zero_user (snprintf_s 128 name)) false
  = (AUTH_USER_FOUND, user, fs1, log) ->
  check_pin user otp_given = Some otp ->
  strlen otp = num_digits user ->
  otp = last_otp user ->
  in_long (last_auth user + max_linger (get_config dir_conf)) ->
  let verify := authn_otp_check_password dir_conf fs io1 io2 now name in
  (last_auth user <= now < last_auth user + max_linger (get_config dir_conf) ->
   verify otp_given = (AUTH_GRANTED, fs))
  /\ (~ (last_auth user <= now
          < last_auth user + max_linger (get_config dir_conf)) ->
      verify otp_given = (AUTH_DENIED, fs)).
Proof.
  intros Hconf Hlook Hpin Hlen Hotp Hrange verify.
  assert (Hv : verify otp_given
               = check_otp (get_config dir_conf) fs io2 now user otp).
  { unfold verify.
    destruct (check_password_found dir_conf fs fs1 io1 io2 now name otp_given
                path user log Hconf Hlook) as [_ ->].
    rewrite Hpin. reflexivity. }
  rewrite Hv. unfold check_otp.
  rewrite Hlen, Z.eqb_refl. cbn [negb].
  rewrite Hotp. unfold strcmp0. rewrite cstr_eqb_refl.
  rewrite to_long_id by exact Hrange.
  destruct (Z.leb_spec (last_auth user) now);
    destruct (Z.ltb_spec now
                (last_auth user + max_linger (get_config dir_conf)));
    cbn [andb]; split; intros; try reflexivity; lia.
Qed.

(** C3, as the code has it. Whenever the window search accepts a
    candidate, at the offset adjustment [adjust], and the arithmetic of
    the new offset does not overflow (the matched counter is below the
    largest [int] for an event-based record, the old offset plus the
    adjustment is a [long] for a time-based record), the verifier grants
    and calls the update of the users file with the record in which the
    offset is the matched counter plus one for an event-based record, and
    the old offset plus the adjustment for a time-based record, the last
    OTP is the submitted OTP (the PIN stripped) and the last
    authentication time is now. When every call of that update succeeds,
    the users file afterwards holds the line of this record in the place
    of each line that named the user; when a call of it fails, the
    result is "granted" all the same and the users file has the content
    it had. For an event-based record with offset 10 and a maximum offset
    of 4, an OTP that matches at counter 12 (and not before) is granted
    and the offset written is 13; an OTP that matches counter 16 and none
    of 10 to 14 is denied. *)
Theorem window_match_persists (dir_conf : otp_config) (fs fs1 : filesys)
    (io1 io2 : io_outcome) (now : Z) (name otp_given path otp : cstring)
    (user : otp_user) (log : list (Z * invalid_reason)) :
  users_file dir_conf = Some path ->
  find_update_user fs io1 (set_username zero_user (snprintf_s 128 name)) false
  = (AUTH_USER_FOUND, user, fs1, log) ->
  check_pin user otp_given = Some otp ->
  strlen otp = num_digits user ->
  otp <> last_otp user ->
  let conf := get_config dir_conf in
  let verify := authn_otp_check_password dir_conf fs io1 io2 now name in
  let record new_offset := updated_record user new_offset otp now in
  let update new_offset :=
    files_after (find_update_user fs io2 (record new_offset) true) in
  let persisted new_offset :=
    verify otp_given = (AUTH_GRANTED, update new_offset)
    /\ (update_io_fails fs io2 = false ->
        exists content,
          fs_users fs = Some content
          /\ fs_users (update new_offset)
             = Some (List.concat
                       (map (fun l => if names_user user l
                                      then print_user strftime_local
                                             (record new_offset)
                                      else l) (linebuf_lines content))))
    /\ (update_io_fails fs io2 = true ->
        fs_users (update new_offset) = fs_users fs) in
  (forall adjust,
     window_search conf user now otp = Some adjust ->
     let matched_counter := to_int (expected_counter user now + adjust) in
     (time_interval user = 0 -> matched_counter < INT_MAX) ->
     (time_interval user <> 0 -> in_long (offset user + adjust)) ->
     persisted (if time_interval user =? 0 then matched_counter + 1
                else offset user + adjust))
  /\ (time_interval user = 0 -> offset user = 10 -> max_offset conf = 4 ->
      otp_matches user 10 otp = false -> otp_matches user 11 otp = false ->
      otp_matches user 12 otp = true ->
      persisted 13)
  /\ (time_interval user = 0 -> offset user = 10 -> max_offset conf = 4 ->
      otp_matches user 16 otp = true ->
      (forall c, 10 <= c <= 14 -> otp_matches user c otp = false) ->
      verify otp_given = (AUTH_DENIED, fs)).
Proof.
  intros Hconf Hlook Hpin Hlen Hotp conf verify record update persisted.
  destruct (check_password_found dir_conf fs fs1 io1 io2 now name otp_given
              path user log Hconf Hlook) as [Hwf Hv].
  fold verify conf in Hv. rewrite Hpin in Hv.
  pose proof (check_otp_window conf fs io2 now user otp Hlen Hotp) as Hco.
  assert (Hsnp : snprintf_s 128 otp = otp).
  { apply snprintf_s_fits. destruct Hwf as (_ & _ & Hnd).
    unfold strlen in Hlen. lia. }
  assert (Hstore : forall new_offset,
    (update_io_fails fs io2 = false ->
     exists content,
       fs_users fs = Some content
       /\ fs_users (update new_offset)
          = Some (List.concat
                    (map (fun l => if names_user user l
                                   then print_user strftime_local
                                             (record new_offset)
                                   else l) (linebuf_lines content))))
    /\ (update_io_fails fs io2 = true ->
        fs_users (update new_offset) = fs_users fs)).
  { intros new_offset. unfold update, files_after. split.
    - intros Hio. destruct (fs_users fs) as [content|] eqn:Hfs.
      + exists content. split; [reflexivity|].
        destruct (update_succeeds strftime_local strptime_mktime fs io2
                    (record new_offset) content Hio Hfs) as [lg ->].
        reflexivity.
      + unfold update_io_fails, new_file_opened in Hio. rewrite Hfs in Hio.
        rewrite !andb_false_r in Hio. discriminate.
    - intros Hio.
      pose proof (update_fails strftime_local strptime_mktime fs io2
                    (record new_offset) Hio) as H.
      destruct (find_update_user fs io2 (record new_offset) true)
        as [[[st u'] fs'] lg].
      destruct H as (_ & H & _). exact H. }
  assert (Hgen : forall adjust,
    window_search conf user now otp = Some adjust ->
    let matched_counter := to_int (expected_counter user now + adjust) in
    (time_interval user = 0 -> matched_counter < INT_MAX) ->
    (time_interval user <> 0 -> in_long (offset user + adjust)) ->
    persisted (if time_interval user =? 0 then matched_counter + 1
               else offset user + adjust)).
  { intros adjust Hws mc Hev Htm. split; [|apply Hstore].
    rewrite Hv, Hco, Hws.
    assert (Hrec : success_user user now otp adjust
                   = updated_record user
                       (if time_interval user =? 0 then mc + 1
                        else offset user + adjust) otp now).
    { unfold success_user, updated_record, set_last_auth, set_last_otp,
        set_offset.
      cbn [algorithm time_interval num_digits username key pin offset
           last_otp last_auth].
      rewrite Hsnp. fold mc.
      destruct (Z.eqb_spec (time_interval user) 0) as [Hz|Hnz].
      - rewrite to_int_id; [reflexivity|].
        pose proof (to_int_range (expected_counter user now + adjust)) as Hr.
        fold mc in Hr. specialize (Hev Hz).
        unfold in_int, INT_MIN, INT_MAX in *. lia.
      - rewrite to_long_id; [reflexivity|]. apply Htm. exact Hnz. }
    rewrite Hrec. reflexivity. }
  assert (Hexp : time_interval user = 0 -> offset user = 10 ->
                 expected_counter user now = 10).
  { intros Hti Hoff. unfold expected_counter. rewrite Hti, Hoff. reflexivity. }
  split; [exact Hgen|]. split.
  - intros Hti Hoff Hmax H10 H11 H12.
    specialize (Hexp Hti Hoff).
    assert (Hws : window_search conf user now otp = Some 2).
    { pose proof (window_search_spec conf user now otp) as Hspec.
      cbv zeta in Hspec. rewrite Hexp in Hspec.
      unfold window_start, window_stop in Hspec.
      rewrite Hti, Hmax in Hspec. cbn [Z.eqb] in Hspec.
      assert (Hid : forall b, 1 <= b <= 4 -> to_int (10 + b) = 10 + b)
        by (intros b Hb; apply to_int_id;
            unfold in_int, INT_MIN, INT_MAX; lia).
      destruct (window_search conf user now otp) as [a|].
      - destruct Hspec as [Hm [->|(_ & Hrange & Ha0 & Hfirst)]].
        + change (to_int (10 + 0)) with 10 in Hm.
          rewrite H10 in Hm. discriminate.
        + rewrite Hid in Hm by lia.
          assert (Ha : a = 1 \/ a = 2 \/ 3 <= a) by lia.
          destruct Ha as [->|[->|Ha]]; [|reflexivity|].
          * change (10 + 1) with 11 in Hm. rewrite H11 in Hm. discriminate.
          * specialize (Hfirst 2 ltac:(lia) ltac:(lia)).
            rewrite Hid in Hfirst by lia. change (10 + 2) with 12 in Hfirst.
            rewrite H12 in Hfirst. discriminate.
      - destruct Hspec as [_ Hnone].
        specialize (Hnone 2 ltac:(lia) ltac:(lia)).
        rewrite Hid in Hnone by lia. change (10 + 2) with 12 in Hnone.
        rewrite H12 in Hnone. discriminate. }
    specialize (Hgen 2 Hws). cbv zeta in Hgen. rewrite Hexp, Hti in Hgen.
    change (to_int (10 + 2)) with 12 in Hgen.
    apply Hgen; [unfold INT_MAX; lia|intros H; contradiction].
  - intros Hti Hoff Hmax H16 Hnone.
    specialize (Hexp Hti Hoff).
    pose proof (window_search_spec conf user now otp) as Hspec.
    cbv zeta in Hspec. rewrite Hexp in Hspec.
    destruct (window_search conf user now otp) as [a|] eqn:Hws.
    + exfalso. destruct Hspec as [Hm [->|(_ & Hrange & _)]].
      * change (to_int (10 + 0)) with 10 in Hm.
        rewrite Hnone in Hm by lia. discriminate.
      * unfold window_start, window_stop in Hrange.
        rewrite Hti, Hmax in Hrange. cbn [Z.eqb] in Hrange.
        rewrite to_int_id in Hm by (unfold in_int, INT_MIN, INT_MAX; lia).
        rewrite Hnone in Hm by lia. discriminate.
    + rewrite Hv, Hco. reflexivity.
Qed.


End VerifierFacts.

(* ================================================================= *)
(** * The codec: printing a record and reading it back *)

(* ----------------------------------------------------------------- *)
(** ** Decimal numbers *)

Lemma digit_char_spec (d : Z) :
  0 <= d <= 9 ->
  apr_isdigit (digit_char d) = true /\ code (digit_char d) - 48 = d.
Proof.
  intros H.
  assert (E : d = 0 \/ d = 1 \/ d = 2 \/ d = 3 \/ d = 4 \/ d = 5 \/ d = 6
              \/ d = 7 \/ d = 8 \/ d = 9) by lia.
  repeat (destruct E as [->|E]; [split; reflexivity|]).
  subst d. split; reflexivity.
Qed.

Lemma isdigit_not_sep (c : ascii) :
  apr_isdigit c = true ->
  is_ws c = false /\ strchr (str "/") c = false
  /\ ascii_eqb c "-" = false /\ ascii_eqb c "+" = false /\ isspace c = false.
Proof.
  unfold apr_isdigit, code. intros H.
  apply andb_prop in H. destruct H as [H1 H2].
  apply Z.leb_le in H1, H2.
  assert (Hc : c = ascii_of_N (N_of_ascii c))
    by (symmetry; apply ascii_N_embedding).
  assert (E : (N_of_ascii c = 48 \/ N_of_ascii c = 49 \/ N_of_ascii c = 50
               \/ N_of_ascii c = 51 \/ N_of_ascii c = 52 \/ N_of_ascii c = 53
               \/ N_of_ascii c = 54 \/ N_of_ascii c = 55 \/ N_of_ascii c = 56
               \/ N_of_ascii c = 57)%N) by lia.
  rewrite Hc.
  repeat (destruct E as [->|E]; [repeat split; reflexivity|]).
  rewrite E. repeat split; reflexivity.
Qed.

Lemma digits_fuel_isdigit (fuel : nat) :
  forall n, 0 <= n -> Forall (fun c => apr_isdigit c = true)
                             (digits_fuel 10 digit_char fuel n).
Proof.
  induction fuel as [|f IH]; intros n Hn; simpl.
  - constructor; [|constructor].
    apply digit_char_spec. pose proof (Z.mod_pos_bound n 10). lia.
  - destruct (Z.ltb_spec n 10).
    + constructor; [|constructor]. apply digit_char_spec. lia.
    + apply Forall_app. split.
      * apply IH. apply Z.div_pos; lia.
      * constructor; [|constructor].
        apply digit_char_spec. pose proof (Z.mod_pos_bound n 10). lia.
Qed.

Lemma digits_fuel_value (fuel : nat) :
  forall n, 0 <= n < 10 ^ Z.of_nat (S fuel) ->
    fold_left digit_step (digits_fuel 10 digit_char fuel n) 0 = n.
Proof.
  induction fuel as [|f IH]; intros n Hn.
  - change (10 ^ Z.of_nat 1) with 10 in Hn. simpl. unfold digit_step.
    rewrite Z.mod_small by lia.
    destruct (digit_char_spec n ltac:(lia)) as [_ ->]. lia.
  - cbn [digits_fuel]. destruct (Z.ltb_spec n 10).
    + simpl. unfold digit_step.
      destruct (digit_char_spec n ltac:(lia)) as [_ ->]. lia.
    + rewrite fold_left_app. simpl fold_left.
      rewrite IH.
      * unfold digit_step.
        destruct (digit_char_spec (n mod 10)
                    ltac:(pose proof (Z.mod_pos_bound n 10); lia)) as [_ ->].
        pose proof (Z.div_mod n 10). lia.
      * split; [apply Z.div_pos; lia|].
        apply Z.div_lt_upper_bound; [lia|].
        rewrite (Nat2Z.inj_succ (S f)), Z.pow_succ_r in Hn by lia. lia.
Qed.

Lemma dec_digits_isdigit (n : Z) :
  0 <= n -> Forall (fun c => apr_isdigit c = true) (dec_digits n).
Proof. intros H. apply digits_fuel_isdigit. exact H. Qed.

Lemma dec_digits_value (n : Z) :
  0 <= n -> fold_left digit_step (dec_digits n) 0 = n.
Proof.
  intros H. unfold dec_digits. apply digits_fuel_value. split; [exact H|].
  destruct (Z.eq_dec n 0) as [->|Hnz]; [reflexivity|].
  rewrite Nat2Z.inj_succ, Z2Nat.id by apply Z.log2_nonneg.
  pose proof (Z.log2_spec n ltac:(lia)) as [_ Hlt].
  apply Z.lt_le_trans with (2 ^ Z.succ (Z.log2 n)); [exact Hlt|].
  apply Z.pow_le_mono_l. pose proof (Z.log2_nonneg n). lia.
Qed.

Lemma dec_digits_nonempty (n : Z) : dec_digits n <> [].
Proof.
  unfold dec_digits. pose proof (digits_fuel_nonempty 10 digit_char
    (Z.to_nat (Z.log2 n)) n) as H.
  destruct (digits_fuel 10 digit_char (Z.to_nat (Z.log2 n)) n);
    [simpl in H; lia|discriminate].
Qed.

(** The digit loop reads a run of digits up to its end. *)
Lemma digits_loop_run (ds : cstring) :
  Forall (fun c => apr_isdigit c = true) ds ->
  forall acc, digits_loop ds acc = (fold_left digit_step ds acc, []).
Proof.
  induction 1 as [|c ds Hc _ IH]; intros acc; simpl; [reflexivity|].
  rewrite Hc. apply IH.
Qed.

Lemma digits_loop_dec (n : Z) :
  0 <= n -> digits_loop (dec_digits n) 0 = (n, []).
Proof.
  intros H. rewrite digits_loop_run by (apply dec_digits_isdigit; exact H).
  rewrite dec_digits_value by exact H. reflexivity.
Qed.

Lemma isdigit_hd_dec (n : Z) : 0 <= n -> isdigit_hd (dec_digits n) = true.
Proof.
  intros H. pose proof (dec_digits_isdigit n H) as Hd.
  pose proof (dec_digits_nonempty n) as Hne.
  destruct (dec_digits n) as [|c ds]; [contradiction|].
  inversion Hd; subst. simpl. assumption.
Qed.

Lemma clamp_long_id (z : Z) : in_long z -> clamp_long z = z.
Proof.
  unfold in_long, clamp_long. intros H.
  destruct (Z.ltb_spec z LONG_MIN); [lia|].
  destruct (Z.ltb_spec LONG_MAX z); [lia|]. reflexivity.
Qed.

Lemma strtol10_dec (n : Z) :
  0 <= n <= LONG_MAX -> strtol10 (dec_digits n) = (n, []).
Proof.
  intros H. unfold strtol10. rewrite digits_loop_dec by lia.
  rewrite clamp_long_id; [reflexivity|].
  unfold in_long, LONG_MIN, LONG_MAX in *. lia.
Qed.

Lemma skip_space_digits (s : cstring) :
  isdigit_hd s = true -> skip_space s = s.
Proof.
  destruct s as [|c s]; simpl; [discriminate|]. intros H.
  destruct (isdigit_not_sep c H) as (_ & _ & _ & _ & ->). reflexivity.
Qed.

(** [atol] reads back what ["%ld"] prints. *)
Lemma atol_fmt_d (n : Z) : in_long n -> atol (fmt_d n) = n.
Proof.
  intros H. unfold atol, fmt_d.
  destruct (Z.ltb_spec n 0) as [Hneg|Hpos].
  - change (skip_space ("-"%char :: dec_digits (- n)))
      with ("-"%char :: dec_digits (- n)).
    cbv zeta.
    change (hd_is "-" ("-"%char :: dec_digits (- n))) with true.
    cbn [tl]. rewrite digits_loop_dec by lia. cbn [fst].
    rewrite clamp_long_id; [lia|].
    unfold in_long, LONG_MIN, LONG_MAX in *. lia.
  - pose proof (isdigit_hd_dec n Hpos) as Hhd.
    rewrite skip_space_digits by exact Hhd.
    destruct (dec_digits n) as [|c ds] eqn:E; [discriminate|].
    simpl in Hhd. destruct (isdigit_not_sep c Hhd) as (_ & _ & Hm & Hp & _).
    cbv zeta. cbn [hd_is]. rewrite Hm, Hp. rewrite <- E.
    rewrite digits_loop_dec by lia. cbn [fst].
    apply clamp_long_id. exact H.
Qed.

(* ----------------------------------------------------------------- *)
(** ** Tokens of a printed line *)

Lemma skip_sep_token (sep : cstring) (c : ascii) (s : cstring) :
  strchr sep c = false -> skip_sep sep (c :: s) = c :: s.
Proof. intros H. simpl. rewrite H. reflexivity. Qed.

Lemma skip_sep_run (sep w s : cstring) :
  Forall (fun c => strchr sep c = true) w ->
  skip_sep sep (w ++ s) = skip_sep sep s.
Proof.
  induction 1 as [|c w Hc _ IH]; simpl; [reflexivity|].
  rewrite Hc. exact IH.
Qed.

Lemma span_token_sep (sep t : cstring) (c : ascii) (rest : cstring) :
  Forall (fun x => strchr sep x = false) t -> strchr sep c = true ->
  span_token sep (t ++ c :: rest) = (t, rest).
Proof.
  intros Ht Hc. induction Ht as [|x t Hx _ IH]; simpl.
  - rewrite Hc. reflexivity.
  - rewrite Hx, IH. reflexivity.
Qed.

Lemma span_token_end (sep t : cstring) :
  Forall (fun x => strchr sep x = false) t -> span_token sep t = (t, []).
Proof.
  induction 1 as [|x t Hx _ IH]; simpl; [reflexivity|].
  rewrite Hx, IH. reflexivity.
Qed.

(** A token between a run of separators and a separator. *)
Lemma apr_strtok_token (sep w t : cstring) (c : ascii) (rest : cstring) :
  Forall (fun x => strchr sep x = true) w ->
  t <> [] -> Forall (fun x => strchr sep x = false) t ->
  strchr sep c = true ->
  apr_strtok sep (w ++ t ++ c :: rest) = Some (t, rest).
Proof.
  intros Hw Hne Ht Hc. unfold apr_strtok. rewrite skip_sep_run by exact Hw.
  destruct t as [|x t]; [contradiction|].
  inversion Ht as [|? ? Hx Ht']; subst.
  cbn [app]. rewrite skip_sep_token by exact Hx.
  rewrite span_token_sep by assumption. reflexivity.
Qed.

(** The last token of a string. *)
Lemma apr_strtok_last (sep t : cstring) :
  t <> [] -> Forall (fun x => strchr sep x = false) t ->
  apr_strtok sep t = Some (t, []).
Proof.
  intros Hne Ht. unfold apr_strtok.
  destruct t as [|x t]; [contradiction|].
  inversion Ht as [|? ? Hx Ht']; subst.
  rewrite skip_sep_token by exact Hx.
  rewrite span_token_end by assumption. reflexivity.
Qed.

Lemma fields_token (w t : cstring) (c : ascii) (rest : cstring) :
  Forall (fun x => is_ws x = true) w -> is_token t -> is_ws c = true ->
  fields (w ++ t ++ c :: rest) = t :: fields rest.
Proof.
  intros Hw [Hne Ht] Hc. rewrite fields_unfold.
  unfold is_ws in *. rewrite apr_strtok_token by assumption. reflexivity.
Qed.

Lemma fields_run (w : cstring) :
  Forall (fun x => is_ws x = true) w -> fields w = [].
Proof.
  intros Hw. rewrite fields_unfold. unfold apr_strtok.
  rewrite <- (app_nil_r w). unfold is_ws in Hw.
  rewrite skip_sep_run by exact Hw. reflexivity.
Qed.

Lemma spaces_run (k : nat) :
  Forall (fun x => is_ws x = true) (repeat " "%char k).
Proof. induction k; simpl; constructor; [reflexivity|assumption]. Qed.

(** A left-justified field and the space after it. *)
Lemma fields_padded (w t : cstring) (width : Z) (rest : cstring) :
  Forall (fun x => is_ws x = true) w -> is_token t ->
  fields (w ++ fmt_ls width t ++ " "%char :: rest)
  = t :: fields (repeat " "%char (Z.to_nat width - List.length t) ++ rest).
Proof.
  intros Hw Ht. unfold fmt_ls, pad_right.
  set (k := (Z.to_nat width - List.length t)%nat).
  replace ((t ++ repeat " "%char k) ++ " "%char :: rest)
    with (t ++ " "%char :: (repeat " "%char k ++ rest)).
  - apply fields_token; [exact Hw|exact Ht|reflexivity].
  - rewrite <- app_assoc. f_equal.
    change (" "%char :: repeat " "%char k ++ rest)
      with ((" "%char :: repeat " "%char k) ++ rest).
    rewrite (repeat_cons k " "%char). rewrite <- app_assoc. reflexivity.
Qed.

Lemma apr_strtok_skip (sep w s : cstring) :
  Forall (fun x => strchr sep x = true) w ->
  apr_strtok sep (w ++ s) = apr_strtok sep s.
Proof.
  intros Hw. unfold apr_strtok. rewrite skip_sep_run by exact Hw. reflexivity.
Qed.

Lemma fields_skip (w s : cstring) :
  Forall (fun x => is_ws x = true) w -> fields (w ++ s) = fields s.
Proof.
  intros Hw. rewrite (fields_unfold (w ++ s)), (fields_unfold s).
  unfold is_ws in Hw. rewrite apr_strtok_skip by exact Hw. reflexivity.
Qed.

Lemma fields_token0 (t : cstring) (c : ascii) (rest : cstring) :
  is_token t -> is_ws c = true -> fields (t ++ c :: rest) = t :: fields rest.
Proof.
  intros Ht Hc. apply (fields_token [] t c rest); [constructor|exact Ht|exact Hc].
Qed.

(** A field, its padding, a space, and the rest of the line. *)
Lemma fields_tok2 (t : cstring) (k : nat) (rest : cstring) :
  is_token t ->
  fields (t ++ repeat " "%char k ++ str " " ++ rest) = t :: fields rest.
Proof.
  intros Ht.
  replace (repeat " "%char k ++ str " " ++ rest)
    with (" "%char :: (repeat " "%char k ++ rest)).
  - rewrite fields_token0 by (try exact Ht; reflexivity).
    f_equal. apply fields_skip. apply spaces_run.
  - change (str " " ++ rest) with ([" "%char] ++ rest).
    rewrite app_assoc, <- (repeat_cons k " "%char). reflexivity.
Qed.

Lemma fields_tok1 (t rest : cstring) :
  is_token t -> fields (t ++ str " " ++ rest) = t :: fields rest.
Proof. intros Ht. apply (fields_tok2 t 0 rest Ht). Qed.

(** The last field, its padding, and the end of the line. *)
Lemma fields_tok_end (t : cstring) (k : nat) :
  is_token t -> fields (t ++ repeat " "%char k ++ [newline]) = [t].
Proof.
  intros Ht.
  assert (Hrun : Forall (fun x => is_ws x = true)
                        (repeat " "%char k ++ [newline])).
  { apply Forall_app. split; [apply spaces_run|].
    constructor; [reflexivity|constructor]. }
  destruct (repeat " "%char k ++ [newline]) as [|c r] eqn:E.
  - destruct k; discriminate.
  - inversion Hrun as [|? ? Hc Hr]; subst.
    rewrite fields_token0 by assumption.
    rewrite fields_run by exact Hr. reflexivity.
Qed.

(* ----------------------------------------------------------------- *)
(** ** The key in hexadecimal *)

Lemma hexdig_spec (d : Z) :
  0 <= d <= 15 ->
  hex_nibble (hexdig d) = Some d /\ is_ws (hexdig d) = false.
Proof.
  intros H.
  assert (E : d = 0 \/ d = 1 \/ d = 2 \/ d = 3 \/ d = 4 \/ d = 5 \/ d = 6
              \/ d = 7 \/ d = 8 \/ d = 9 \/ d = 10 \/ d = 11 \/ d = 12
              \/ d = 13 \/ d = 14 \/ d = 15) by lia.
  repeat (destruct E as [->|E]; [split; reflexivity|]).
  subst d. split; reflexivity.
Qed.

Lemma octet_nibbles (b : Z) :
  0 <= b < 256 ->
  0 <= b / 16 <= 15 /\ 0 <= b mod 16 <= 15
  /\ Z.lor (Z.shiftl (b / 16) 4) (b mod 16) = b.
Proof.
  intros H.
  pose proof (Z.mod_pos_bound b 16 ltac:(lia)) as Hm.
  pose proof (Z.div_mod b 16 ltac:(lia)) as Hd.
  assert (Hq : 0 <= b / 16 <= 15).
  { split; [apply Z.div_pos; lia|].
    assert (b / 16 < 16) by (apply Z.div_lt_upper_bound; lia). lia. }
  split; [exact Hq|]. split; [lia|].
  rewrite lor_shiftl_add by (change (2 ^ 4) with 16; lia).
  change (2 ^ 4) with 16. lia.
Qed.

Lemma parse_key_hex (k : octets) :
  is_octets k ->
  forall (room : nat) (acc : octets),
    (List.length k <= room)%nat ->
    parse_key room (flat_map fmt_02x k) acc = (acc ++ k, inr tt).
Proof.
  induction 1 as [|b k Hb _ IH]; intros room acc Hroom.
  - simpl. rewrite app_nil_r. destruct room; reflexivity.
  - destruct room as [|room']; [simpl in Hroom; lia|].
    destruct (octet_nibbles b Hb) as (Hhi & Hlo & Hlor).
    destruct (hexdig_spec (b / 16) Hhi) as [Hn1 _].
    destruct (hexdig_spec (b mod 16) Hlo) as [Hn2 _].
    cbn [flat_map fmt_02x app parse_key]. rewrite Hn1, Hn2, Hlor.
    rewrite IH by (simpl in Hroom; lia).
    rewrite <- app_assoc. reflexivity.
Qed.

Lemma hex_key_token (k : octets) :
  k <> [] -> is_octets k -> is_token (flat_map fmt_02x k).
Proof.
  intros Hne Hk. split.
  - destruct k; [contradiction|]. discriminate.
  - induction Hk as [|b k Hb _ IH]; [contradiction|].
    destruct (octet_nibbles b Hb) as (Hhi & Hlo & _).
    cbn [flat_map fmt_02x app].
    constructor; [apply hexdig_spec; exact Hhi|].
    constructor; [apply hexdig_spec; exact Hlo|].
    destruct k as [|b' k']; [constructor|]. apply IH. discriminate.
Qed.

(* ----------------------------------------------------------------- *)
(** ** Token types *)

Lemma dec_digits_short (n : Z) :
  0 <= n <= INT_MAX -> (List.length (dec_digits n) <= 10)%nat.
Proof.
  intros H. unfold dec_digits. apply digits_fuel_length; [lia|].
  unfold INT_MAX in H. change (10 ^ Z.of_nat 10) with 10000000000. lia.
Qed.

Lemma dec_digits_no_slash (n : Z) :
  0 <= n -> Forall (fun x => strchr (str "/") x = false) (dec_digits n).
Proof.
  intros H. pose proof (dec_digits_isdigit n H) as Hd.
  rewrite Forall_forall in *. intros c Hc.
  apply isdigit_not_sep. apply Hd. exact Hc.
Qed.

Lemma dec_digits_no_ws (n : Z) :
  0 <= n -> Forall (fun x => is_ws x = false) (dec_digits n).
Proof.
  intros H. pose proof (dec_digits_isdigit n H) as Hd.
  rewrite Forall_forall in *. intros c Hc.
  apply isdigit_not_sep. apply Hd. exact Hc.
Qed.

(** The token type [print_user] writes, sub-field by sub-field. *)
Lemma print_token_type_eq (r : otp_user) :
  0 <= time_interval r <= INT_MAX -> 0 <= num_digits r <= INT_MAX ->
  print_token_type r
  = alg_name r
    ++ (if (num_digits r =? DEFAULT_NUM_DIGITS)
           && (time_interval r =? default_interval (algorithm r))
           && ((algorithm r =? OTP_ALGORITHM_HOTP)
               || (algorithm r =? OTP_ALGORITHM_MOTP))
        then [] else interval_subfield r)
    ++ (if num_digits r =? DEFAULT_NUM_DIGITS then []
        else digits_subfield r).
Proof.
  intros Hti Hnd. unfold print_token_type.
  fold (alg_name r). fold (interval_subfield r). fold (digits_subfield r).
  pose proof (dec_digits_short _ Hti) as L1.
  pose proof (dec_digits_short _ Hnd) as L2.
  assert (Li : (List.length (interval_subfield r) <= 12)%nat).
  { unfold interval_subfield, fmt_d.
    destruct (time_interval r =? 0); [simpl; lia|].
    destruct (Z.ltb_spec (time_interval r) 0); [lia|].
    rewrite length_app. simpl List.length. lia. }
  assert (Ld : (List.length (digits_subfield r) <= 11)%nat).
  { unfold digits_subfield, fmt_d.
    destruct (Z.ltb_spec (num_digits r) 0); [lia|].
    rewrite length_app. simpl List.length. lia. }
  assert (La : (List.length (alg_name r) <= 4)%nat).
  { unfold alg_name. destruct (algorithm r =? OTP_ALGORITHM_HOTP);
      [simpl; lia|]. destruct (algorithm r =? OTP_ALGORITHM_MOTP); simpl; lia. }
  rewrite (snprintf_s_fits 64 (interval_subfield r)) by lia.
  rewrite (snprintf_s_fits 64 (digits_subfield r)) by lia.
  assert (E : (if num_digits r =? DEFAULT_NUM_DIGITS
               then
                 if (algorithm r =? OTP_ALGORITHM_HOTP)
                    && (time_interval r =? 0)
                 then []
                 else if (algorithm r =? OTP_ALGORITHM_MOTP)
                         && (time_interval r =? 10)
                 then [] else interval_subfield r
               else interval_subfield r)
              = (if (num_digits r =? DEFAULT_NUM_DIGITS)
                    && (time_interval r =? default_interval (algorithm r))
                    && ((algorithm r =? OTP_ALGORITHM_HOTP)
                        || (algorithm r =? OTP_ALGORITHM_MOTP))
                 then [] else interval_subfield r)).
  { unfold default_interval, OTP_ALGORITHM_HOTP, OTP_ALGORITHM_MOTP,
      MOTP_TIME_INTERVAL.
    destruct (num_digits r =? DEFAULT_NUM_DIGITS); [|reflexivity].
    destruct (Z.eqb_spec (algorithm r) 1) as [Ha|Ha].
    - rewrite Ha. cbn [Z.eqb Pos.eqb andb orb].
      destruct (time_interval r =? 0); reflexivity.
    - destruct (Z.eqb_spec (algorithm r) 2) as [Hb|Hb]; cbn [andb orb].
      + destruct (time_interval r =? 10); reflexivity.
      + rewrite andb_false_r. reflexivity. }
  rewrite E. apply snprintf_s_fits.
  rewrite !length_app.
  destruct ((num_digits r =? DEFAULT_NUM_DIGITS)
            && (time_interval r =? default_interval (algorithm r))
            && ((algorithm r =? OTP_ALGORITHM_HOTP)
                || (algorithm r =? OTP_ALGORITHM_MOTP)));
    destruct (num_digits r =? DEFAULT_NUM_DIGITS); cbn [List.length]; lia.
Qed.

Lemma apr_strtok_tok0 (sep t : cstring) (c : ascii) (rest : cstring) :
  t <> [] -> Forall (fun x => strchr sep x = false) t ->
  strchr sep c = true ->
  apr_strtok sep (t ++ c :: rest) = Some (t, rest).
Proof.
  intros Hne Ht Hc.
  apply (apr_strtok_token sep [] t c rest); [constructor|assumption..].
Qed.

Lemma parse_num_digits_end (tok : otp_user) :
  parse_num_digits tok [] = Some tok.
Proof. reflexivity. Qed.

Lemma parse_num_digits_dec (tok : otp_user) (nd : Z) :
  1 <= nd <= 10 ->
  parse_num_digits tok (dec_digits nd) = Some (set_num_digits tok nd).
Proof.
  intros H. unfold parse_num_digits.
  rewrite apr_strtok_last
    by (try apply dec_digits_nonempty; apply dec_digits_no_slash; lia).
  rewrite isdigit_hd_dec by lia. cbn [negb].
  rewrite strtol10_dec by (unfold LONG_MAX; lia).
  rewrite to_int_id by (unfold in_int, INT_MIN, INT_MAX; lia).
  cbn [num_digits set_num_digits is_end negb]. change powers10_len with 10.
  destruct (Z.leb_spec nd 0); [lia|].
  destruct (Z.ltb_spec 10 nd); [lia|]. reflexivity.
Qed.

(** The sub-field of the digits as printed, read back. *)
Lemma parse_num_digits_printed (tok : otp_user) (nd : Z) :
  1 <= nd <= 10 -> num_digits tok = DEFAULT_NUM_DIGITS ->
  (nd = DEFAULT_NUM_DIGITS -> parse_num_digits tok [] = Some (set_num_digits tok nd))
  /\ parse_num_digits tok (dec_digits nd) = Some (set_num_digits tok nd).
Proof.
  intros H Hd. split; [|apply parse_num_digits_dec; exact H].
  intros ->. rewrite parse_num_digits_end. rewrite <- Hd.
  destruct tok; reflexivity.
Qed.

Lemma parse_interval_end (tok : otp_user) : parse_interval tok [] = Some tok.
Proof. reflexivity. Qed.

Lemma parse_interval_E (tok : otp_user) :
  parse_interval tok (str "E") = parse_num_digits (set_time_interval tok 0) []
  /\ forall rest,
       parse_interval tok (str "E" ++ "/"%char :: rest)
       = parse_num_digits (set_time_interval tok 0) rest.
Proof. split; [reflexivity|intros rest; reflexivity]. Qed.

Lemma parse_interval_T (tok : otp_user) (ti : Z) :
  0 < ti <= INT_MAX ->
  parse_interval tok ("T"%char :: dec_digits ti)
  = parse_num_digits (set_time_interval tok ti) []
  /\ forall rest,
       parse_interval tok (("T"%char :: dec_digits ti) ++ "/"%char :: rest)
       = parse_num_digits (set_time_interval tok ti) rest.
Proof.
  intros H.
  assert (Hne : "T"%char :: dec_digits ti <> []) by discriminate.
  assert (Hns : Forall (fun x => strchr (str "/") x = false)
                       ("T"%char :: dec_digits ti))
    by (constructor; [reflexivity|apply dec_digits_no_slash; lia]).
  assert (Hbody : forall last,
    (if strcmp0 ("T"%char :: dec_digits ti) (str "E")
     then parse_num_digits (set_time_interval tok 0) last
     else if hd_is "T" ("T"%char :: dec_digits ti)
     then
       let t := tl ("T"%char :: dec_digits ti) in
       if negb (isdigit_hd t) then None
       else
         let (v, eptr) := strtol10 t in
         let tokinfo := set_time_interval tok (to_int v) in
         if (time_interval tokinfo <=? 0) || negb (is_end eptr)
         then None else parse_num_digits tokinfo last
     else None)
    = parse_num_digits (set_time_interval tok ti) last).
  { intros last.
    replace (strcmp0 ("T"%char :: dec_digits ti) (str "E")) with false
      by reflexivity.
    replace (hd_is "T" ("T"%char :: dec_digits ti)) with true by reflexivity.
    cbn [tl]. cbv zeta. rewrite isdigit_hd_dec by lia. cbn [negb].
    rewrite strtol10_dec by (unfold INT_MAX, LONG_MAX in *; lia).
    rewrite to_int_id by (unfold in_int, INT_MIN, INT_MAX in *; lia).
    cbn [time_interval set_time_interval is_end negb].
    destruct (Z.leb_spec ti 0); [lia|]. reflexivity. }
  split.
  - unfold parse_interval. rewrite apr_strtok_last by assumption.
    apply Hbody.
  - intros rest. unfold parse_interval.
    rewrite apr_strtok_tok0 by (try assumption; reflexivity).
    apply Hbody.
Qed.

Lemma parse_token_type_alg (a : cstring) (A D : Z) :
  (a = str "HOTP" /\ A = OTP_ALGORITHM_HOTP /\ D = 0)
  \/ (a = str "MOTP" /\ A = OTP_ALGORITHM_MOTP /\ D = MOTP_TIME_INTERVAL) ->
  parse_token_type a
  = parse_interval (set_tokinfo zero_user A D DEFAULT_NUM_DIGITS) []
  /\ forall rest,
       (List.length rest < 100)%nat ->
       parse_token_type (a ++ "/"%char :: rest)
       = parse_interval (set_tokinfo zero_user A D DEFAULT_NUM_DIGITS) rest.
Proof.
  intros [(-> & -> & ->)|(-> & -> & ->)]; (split; [reflexivity|]);
    intros rest Hrest; unfold parse_token_type;
    match goal with
    | |- context [strcmp0 ?s (str "E")] =>
        replace (strcmp0 s (str "E")) with false by reflexivity;
        replace (strcmp0 s (str "T")) with false by reflexivity;
        rewrite (snprintf_s_fits 128 s)
          by (rewrite length_app; cbn [List.length str list_ascii_of_string];
              lia)
    end;
    rewrite apr_strtok_tok0
      by (try discriminate; try reflexivity; repeat constructor);
    reflexivity.
Qed.

(** A token type as printed is read back, and it is a field of the line
    that does not start a comment. *)
Lemma parse_print_token_type (r : otp_user) :
  (algorithm r = OTP_ALGORITHM_HOTP \/ algorithm r = OTP_ALGORITHM_MOTP) ->
  0 <= time_interval r <= INT_MAX ->
  1 <= num_digits r <= 10 ->
  parse_token_type (print_token_type r)
  = Some (set_tokinfo zero_user (algorithm r) (time_interval r)
                      (num_digits r))
  /\ is_token (print_token_type r)
  /\ hd_is "#" (print_token_type r) = false.
Proof.
  intros Halg Hti Hnd.
  rewrite print_token_type_eq by (unfold INT_MAX in *; lia).
  set (A := algorithm r) in *. set (ti := time_interval r) in *.
  set (nd := num_digits r) in *.
  assert (Ha : (alg_name r = str "HOTP" /\ A = OTP_ALGORITHM_HOTP
                /\ default_interval A = 0)
               \/ (alg_name r = str "MOTP" /\ A = OTP_ALGORITHM_MOTP
                   /\ default_interval A = MOTP_TIME_INTERVAL)).
  { unfold alg_name. fold A.
    destruct Halg as [->| ->]; [left|right]; repeat split. }
  assert (Hor : (A =? OTP_ALGORITHM_HOTP) || (A =? OTP_ALGORITHM_MOTP) = true)
    by (destruct Halg as [->| ->]; reflexivity).
  rewrite Hor, andb_true_r.
  destruct (parse_token_type_alg (alg_name r) A (default_interval A) Ha)
    as [P0 P1].
  set (tok0 := set_tokinfo zero_user A (default_interval A) DEFAULT_NUM_DIGITS)
    in *.
  pose proof (dec_digits_short ti Hti) as Lti.
  pose proof (dec_digits_short nd ltac:(unfold INT_MAX; lia)) as Lnd.
  assert (Hname : is_token (alg_name r) /\ hd_is "#" (alg_name r) = false
                  /\ exists c s, alg_name r = c :: s).
  { destruct Ha as [(-> & _)|(-> & _)]; (split; [|split]);
      try reflexivity; try (eexists; eexists; reflexivity);
      (split; [discriminate|repeat constructor]). }
  destruct Hname as (Hatok & Hahash & c0 & s0 & Hcons).
  assert (Hi : interval_subfield r
               = "/"%char :: (if ti =? 0 then str "E"
                              else "T"%char :: dec_digits ti)).
  { unfold interval_subfield, fmt_d. fold ti.
    destruct (ti =? 0); [reflexivity|].
    destruct (Z.ltb_spec ti 0); [lia|]. reflexivity. }
  assert (Hd : digits_subfield r = "/"%char :: dec_digits nd).
  { unfold digits_subfield, fmt_d. fold nd.
    destruct (Z.ltb_spec nd 0); [lia|]. reflexivity. }
  assert (Hmid_tok : Forall (fun x => is_ws x = false)
                            (if ti =? 0 then str "E"
                             else "T"%char :: dec_digits ti)).
  { destruct (ti =? 0); [repeat constructor|].
    constructor; [reflexivity|apply dec_digits_no_ws; lia]. }
  assert (Hmid_len : (List.length (if (ti =? 0)%Z then str "E"
                                   else "T"%char :: dec_digits ti) <= 11)%nat).
  { destruct (ti =? 0); cbn [List.length str list_ascii_of_string]; lia. }
  assert (Hmid : forall tok rest',
    (rest' = [] \/ exists y, rest' = "/"%char :: y) ->
    parse_interval tok ((if ti =? 0 then str "E"
                         else "T"%char :: dec_digits ti) ++ rest')
    = parse_num_digits (set_time_interval tok ti)
        (match rest' with [] => [] | _ :: y => y end)).
  { intros tok rest' Hr.
    destruct (Z.eqb_spec ti 0) as [Hz|Hnz].
    - rewrite Hz. destruct (parse_interval_E tok) as [E0 E1].
      destruct Hr as [->|[y ->]]; [rewrite app_nil_r; exact E0|apply E1].
    - destruct (parse_interval_T tok ti ltac:(lia)) as [T0 T1].
      destruct Hr as [->|[y ->]]; [rewrite app_nil_r; exact T0|apply T1]. }
  rewrite Hi, Hd.
  destruct (parse_num_digits_printed (set_time_interval tok0 ti) nd Hnd
              eq_refl) as [D0 D1].
  assert (Hfinal : set_num_digits (set_time_interval tok0 ti) nd
                   = set_tokinfo zero_user A ti nd) by reflexivity.
  destruct (Z.eqb_spec nd DEFAULT_NUM_DIGITS) as [Hnd6|Hnd6]; cbn [andb].
  - destruct (Z.eqb_spec ti (default_interval A)) as [Hdef|Hdef].
    + rewrite !app_nil_r. split; [|split; assumption].
      rewrite P0, parse_interval_end. unfold tok0.
      rewrite <- Hdef, Hnd6. reflexivity.
    + rewrite app_nil_r. split; [|split].
      * rewrite P1 by (cbn [List.length]; lia).
        rewrite <- (app_nil_r (if ti =? 0 then _ else _)).
        rewrite Hmid by (left; reflexivity).
        rewrite (D0 Hnd6). rewrite Hfinal. reflexivity.
      * split; [rewrite Hcons; discriminate|].
        apply Forall_app. split; [apply Hatok|].
        constructor; [reflexivity|exact Hmid_tok].
      * rewrite Hcons in *. exact Hahash.
  - split; [|split].
    + change ((("/"%char :: (if ti =? 0 then str "E"
                             else "T"%char :: dec_digits ti))
               ++ "/"%char :: dec_digits nd))
        with ("/"%char :: ((if ti =? 0 then str "E"
                            else "T"%char :: dec_digits ti)
                           ++ "/"%char :: dec_digits nd)).
      rewrite P1 by (rewrite length_app; cbn [List.length]; lia).
      rewrite Hmid by (right; eexists; reflexivity).
      rewrite D1, Hfinal. reflexivity.
    + split; [rewrite Hcons; discriminate|].
      apply Forall_app. split; [apply Hatok|].
      apply Forall_app. split.
      * constructor; [reflexivity|exact Hmid_tok].
      * constructor; [reflexivity|apply dec_digits_no_ws; lia].
    + rewrite Hcons in *. exact Hahash.
Qed.

(* ----------------------------------------------------------------- *)
(** ** Round trip *)

Lemma fmt_d_token (n : Z) : is_token (fmt_d n).
Proof.
  unfold fmt_d. destruct (Z.ltb_spec n 0).
  - split; [discriminate|].
    constructor; [reflexivity|apply dec_digits_no_ws; lia].
  - split; [apply dec_digits_nonempty|apply dec_digits_no_ws; lia].
Qed.

Lemma fields_tok_end0 (t : cstring) : is_token t -> fields (t ++ [newline]) = [t].
Proof. intros Ht. apply (fields_tok_end t 0 Ht). Qed.

Section CodecFacts.

Variable strftime_local : Z -> cstring.
Variable strptime_mktime : cstring -> option Z.

Local Abbreviation print_user := (print_user strftime_local).
Local Abbreviation scan_line := (scan_line strptime_mktime).
Local Abbreviation valid_user := (valid_user strftime_local strptime_mktime).

(** The fields of the line [print_user] writes for a valid record. *)
Lemma fields_print_user (r : otp_user) :
  valid_user r ->
  fields (print_user r)
  = [print_token_type r; username r; pin_field r; flat_map fmt_02x (key r);
     fmt_d (offset r)]
    ++ (if is_end (last_otp r) then []
        else [last_otp r; strftime_local (last_auth r)]).
Proof.
  intros (Halg & Hti & Hnd & (Hname & _) & Hpin & (Hkne & Hkoct & _) & _
          & Hlast).
  destruct (parse_print_token_type r Halg Hti Hnd) as (_ & Htype & _).
  assert (Hpf : is_token (pin_field r)).
  { unfold pin_field. destruct Hpin as [->|(Hp & _)].
    - split; [discriminate|repeat constructor].
    - destruct (pin r); [destruct Hp as [Hp _]; contradiction|exact Hp]. }
  pose proof (hex_key_token (key r) Hkne Hkoct) as Hhex.
  pose proof (fmt_d_token (offset r)) as Hoff.
  unfold print_user. fold (pin_field r).
  unfold fmt_ls, fmt_ld_left, pad_right.
  destruct Hlast as [(Hl & _)|(Hotp & _ & Hts & _)].
  - rewrite Hl. cbn [is_end negb]. rewrite app_nil_l.
    rewrite <- !app_assoc.
    rewrite fields_tok2 by exact Htype.
    rewrite fields_tok2 by exact Hname.
    rewrite fields_tok2 by exact Hpf.
    rewrite fields_tok1 by exact Hhex.
    rewrite fields_tok_end by exact Hoff. reflexivity.
  - assert (Hne : is_end (last_otp r) = false)
      by (destruct (last_otp r); [destruct Hotp as [Hotp _]; contradiction
                                 |reflexivity]).
    rewrite Hne. cbn [negb].
    rewrite <- !app_assoc.
    rewrite fields_tok2 by exact Htype.
    rewrite fields_tok2 by exact Hname.
    rewrite fields_tok2 by exact Hpf.
    rewrite fields_tok1 by exact Hhex.
    rewrite fields_tok2 by exact Hoff.
    rewrite fields_tok2 by exact Hotp.
    rewrite fields_tok_end0 by exact Hts. reflexivity.
Qed.


End CodecFacts.

(* ================================================================= *)
(** * Worked examples, on a host in the UTC time zone *)

Lemma decode_optional_fields_witness :
  let line := str "HOTP bob - 00ff 5" ++ nl in
  fields line = [str "HOTP"; str "bob"; str "-"; str "00ff"; str "5"]
  /\ parse_token_type (str "HOTP")
     = Some (set_tokinfo zero_user OTP_ALGORITHM_HOTP 0 6)
  /\ str "bob" = username lookup_bob
  /\ key_decodes (str "00ff") [0; 255]
  /\ scan_line utc_strptime_mktime false lookup_bob false line
     = (LineFound,
        mk_user OTP_ALGORITHM_HOTP 0 6 (str "bob") [0; 255] [] 5 [] 0, true).
Proof.
  intros line.
  assert (H1 : fields line
               = [str "HOTP"; str "bob"; str "-"; str "00ff"; str "5"])
    by reflexivity.
  assert (H2 : parse_token_type (str "HOTP")
               = Some (set_tokinfo zero_user OTP_ALGORITHM_HOTP 0 6))
    by reflexivity.
  assert (H3 : str "bob" = username lookup_bob) by reflexivity.
  assert (H4 : key_decodes (str "00ff") [0; 255]) by reflexivity.
  split; [exact H1|]. split; [exact H2|]. split; [exact H3|].
  split; [exact H4|].
  destruct (decode_optional_fields utc_strptime_mktime lookup_bob false line
              _ _ _ _ _ _ _ H1 H2 H3 H4) as (_ & H & _).
  exact (H (str "5") eq_refl).
Defined.

(** C6 as stated fails: the mandatory fields are present and well
    formed, the timestamp alone is absent, and the line is invalid. *)
Lemma decode_missing_timestamp_invalid :
  let line := str "HOTP bob - 00ff 5 123456" ++ nl in
  fields line
  = [str "HOTP"; str "bob"; str "-"; str "00ff"; str "5"; str "123456"]
  /\ parse_token_type (str "HOTP") <> None
  /\ key_decodes (str "00ff") [0; 255]
  /\ fst (fst (scan_line utc_strptime_mktime false lookup_bob false line))
     = LineInvalid MissingTimestamp.
Proof.
  intros line. repeat split; try reflexivity. discriminate.
Qed.


(** A line with a NUL byte is decoded up to that byte: the key is the
    two octets before it, and what follows on the line is not read. *)
Example lookup_line_with_nul :
  let content := str "HOTP bob - 00ff" ++ [NUL] ++ str "zz 5" ++ nl in
  file_lines content = [content]
  /\ linebuf_lines content = [str "HOTP bob - 00ff"]
  /\ find_update_user utc_strftime utc_strptime_mktime (store_of content) io_ok
       lookup_bob false
     = (AUTH_USER_FOUND,
        mk_user OTP_ALGORITHM_HOTP 0 6 (str "bob") [0; 255] [] 0 [] 0,
        store_of content, []).
Proof. intros content. repeat split. Qed.

Lemma update_rewrites_target_only_witness :
  let content :=
    str "# one-time password users" ++ nl ++ nl
    ++ str "XOTP junk" ++ nl
    ++ str "HOTP bob - 00ff 5" ++ nl
    ++ str "MOTP amy 1234 0a0b 7" ++ nl in
  let user := mk_user OTP_ALGORITHM_HOTP 0 6 (str "bob") [0; 255] [] 6
                      (str "755224") 0 in
  fs_users (store_of content) = Some content
  /\ Forall (fun l => (List.length l <= 1023)%nat) (text_lines content)
  /\ no_nul content
  /\ fs_users (files_after (find_update_user utc_strftime utc_strptime_mktime
                              (store_of content) io_ok user true))
     = Some (str "# one-time password users" ++ nl ++ nl
             ++ str "XOTP junk" ++ nl
             ++ str "HOTP    bob           -       00ff 6       755224  1970-01-01T00:00:00L"
             ++ nl
             ++ str "MOTP amy 1234 0a0b 7" ++ nl).
Proof.
  intros content user.
  assert (H1 : fs_users (store_of content) = Some content) by reflexivity.
  assert (H2 : Forall (fun l => (List.length l <= 1023)%nat)
                      (text_lines content)).
  { apply Forall_forall. intros l Hl.
    assert (E : forallb (fun l => (List.length l <=? 1023)%nat)
                        (text_lines content) = true)
      by (vm_compute; reflexivity).
    rewrite forallb_forall in E. apply Nat.leb_le. apply E. exact Hl. }
  assert (H3 : no_nul content) by (vm_compute; reflexivity).
  split; [exact H1|]. split; [exact H2|]. split; [exact H3|].
  pose proof (update_rewrites_target_only utc_strftime utc_strptime_mktime
                (store_of content) user content H1 H2 H3) as H.
  cbv zeta in H. unfold files_after.
  destruct (find_update_user utc_strftime utc_strptime_mktime
              (store_of content) io_ok user true)
    as [[[status res] fs'] log].
  destruct H as (_ & H & _). cbn [fst snd]. rewrite H.
  vm_compute. reflexivity.
Defined.

(** C9 as stated fails, in three ways. An invalid line that names the
    user (its key is no hexadecimal text) is overwritten like the valid
    one, since the update replaces a line as soon as it has read the
    name: the file ends up with two fresh lines. A comment line with a
    NUL byte is copied up to that byte, without its newline. A comment
    line longer than the line buffer is read in two pieces, and the
    second piece, which reads as an entry of the user, is overwritten. *)
Lemma update_changes_other_lines :
  let user := mk_user OTP_ALGORITHM_HOTP 0 6 (str "bob") [0; 255] [] 6
                      (str "755224") 0 in
  let fresh :=
    str "HOTP    bob           -       00ff 6       755224  1970-01-01T00:00:00L"
    ++ nl in
  let update content :=
    find_update_user utc_strftime utc_strptime_mktime (store_of content) io_ok
      user true in
  let rewritten text := mk_fs (Some text) None (Some []) in
  let valid := str "HOTP bob - 00ff 5" ++ nl in
  let invalid := str "HOTP bob - zz 5" ++ nl in
  let comment := str "# c" ++ [NUL] ++ str "mment" ++ nl in
  let long_comment := str "#" ++ repeat "a"%char 1022 ++ str "HOTP bob" ++ nl in
  print_user utc_strftime user = fresh
  /\ text_lines (invalid ++ valid) = [invalid; valid]
  /\ fst (fst (scan_line utc_strptime_mktime false lookup_bob false invalid))
     = LineInvalid (InvalidKey (str "zz"))
  /\ update (invalid ++ valid)
     = (AUTH_USER_FOUND, user, rewritten (fresh ++ fresh), [])
  /\ fresh ++ fresh <> invalid ++ fresh
  /\ text_lines (comment ++ valid) = [comment; valid]
  /\ update (comment ++ valid)
     = (AUTH_USER_FOUND, user, rewritten (str "# c" ++ fresh), [])
  /\ str "# c" ++ fresh <> comment ++ fresh
  /\ text_lines long_comment = [long_comment]
  /\ hd_is "#" long_comment = true
  /\ update long_comment
     = (AUTH_USER_FOUND, user,
        rewritten (str "#" ++ repeat "a"%char 1022 ++ fresh), [])
  /\ str "#" ++ repeat "a"%char 1022 ++ fresh <> long_comment.
Proof.
  intros user fresh update rewritten valid invalid comment long_comment.
  split; [vm_compute; reflexivity|]. split; [vm_compute; reflexivity|].
  split; [vm_compute; reflexivity|]. split; [vm_compute; reflexivity|].
  split; [vm_compute; discriminate|]. split; [vm_compute; reflexivity|].
  split; [vm_compute; reflexivity|]. split; [vm_compute; discriminate|].
  split; [vm_compute; reflexivity|]. split; [vm_compute; reflexivity|].
  split; [vm_compute; reflexivity|].
  intros H. apply (f_equal (@List.length ascii)) in H.
  vm_compute in H. discriminate H.
Qed.

Lemma update_failure_keeps_store_witness :
  let fs := store_of (str "HOTP bob - 00ff 5" ++ nl) in
  let io := mk_io true true true true false in
  let user := bob_record [] 6 (str "755224") 0 in
  update_io_fails fs io = true
  /\ find_update_user utc_strftime utc_strptime_mktime fs io user true
     = (AUTH_GENERAL_ERROR, user, mk_fs (fs_users fs) None (Some []), []).
Proof.
  intros fs io user.
  assert (H1 : update_io_fails fs io = true) by reflexivity.
  split; [exact H1|].
  pose proof (update_failure_keeps_store utc_strftime utc_strptime_mktime
                fs io user H1) as H.
  destruct (find_update_user utc_strftime utc_strptime_mktime fs io user true)
    as [[[status res] fs'] log] eqn:E.
  destruct H as (Hs & _ & _). subst status.
  rewrite <- E. reflexivity.
Defined.

(** C8 as stated fails: the lock file cannot be opened, and a new file
    found at the start of the call is still there after it. *)
Lemma update_failure_leaves_stale_new_file :
  let fs := mk_fs (Some (str "HOTP bob - 00ff 5" ++ nl))
                  (Some (str "HOTP bob - 00")) None in
  let io := mk_io false true true true true in
  let user := bob_record [] 6 (str "755224") 0 in
  fst (fst (fst (find_update_user utc_strftime utc_strptime_mktime fs io user
                                  true)))
  = AUTH_GENERAL_ERROR
  /\ fs_new (files_after (find_update_user utc_strftime utc_strptime_mktime
                            fs io user true))
     = Some (str "HOTP bob - 00")
  /\ fs_new (files_after (find_update_user utc_strftime utc_strptime_mktime
                            fs io user true)) <> None.
Proof.
  intros fs io user. repeat split. discriminate.
Qed.

Lemma pin_prefix_and_length_witness :
  let content :=
    str "HOTP bob 1234 3132333435363738393031323334353637383930 487779" ++ nl in
  let user := bob_record (str "1234") 487779 [] 0 in
  let verify :=
    authn_otp_check_password utc_strftime utc_strptime_mktime default_conf
      (store_of content) io_ok io_ok 1700000000 (str "bob") in
  users_file default_conf = Some (str "users")
  /\ find_update_user utc_strftime utc_strptime_mktime (store_of content) io_ok
       (set_username zero_user (snprintf_s 128 (str "bob"))) false
     = (AUTH_USER_FOUND, user, store_of content, [])
  /\ fst (gen_otp user (expected_counter user 1700000000)) = str "056789"
  /\ fst (verify (str "1234056789")) = AUTH_GRANTED
  /\ verify (str "056789") = (AUTH_DENIED, store_of content).
Proof.
  intros content user verify.
  assert (H1 : users_file default_conf = Some (str "users")) by reflexivity.
  assert (H2 : find_update_user utc_strftime utc_strptime_mktime
                 (store_of content) io_ok
                 (set_username zero_user (snprintf_s 128 (str "bob"))) false
               = (AUTH_USER_FOUND, user, store_of content, []))
    by (vm_compute; reflexivity).
  assert (H3 : fst (gen_otp user (expected_counter user 1700000000))
               = str "056789")
    by (vm_compute; reflexivity).
  split; [exact H1|]. split; [exact H2|]. split; [exact H3|].
  destruct (pin_prefix_and_length utc_strftime utc_strptime_mktime
              default_conf (store_of content) (store_of content) io_ok io_ok
              1700000000 (str "bob") (str "1234056789") (str "users") user []
              H1 H2) as (_ & _ & _ & H).
  apply H; [reflexivity|reflexivity|reflexivity|exact H3|discriminate].
Defined.

Lemma reuse_within_linger_witness :
  let content :=
    str "HOTP bob 1234 3132333435363738393031323334353637383930 1 755224 1970-01-01T00:10:00L"
    ++ nl in
  let user := bob_record (str "1234") 1 (str "755224") 600 in
  users_file default_conf = Some (str "users")
  /\ find_update_user utc_strftime utc_strptime_mktime (store_of content) io_ok
       (set_username zero_user (snprintf_s 128 (str "bob"))) false
     = (AUTH_USER_FOUND, user, store_of content, [])
  /\ check_pin user (str "1234755224") = Some (str "755224")
  /\ strlen (str "755224") = num_digits user
  /\ str "755224" = last_otp user
  /\ in_long (last_auth user + max_linger (get_config default_conf))
  /\ authn_otp_check_password utc_strftime utc_strptime_mktime default_conf
       (store_of content) io_ok io_ok 700 (str "bob") (str "1234755224")
     = (AUTH_GRANTED, store_of content)
  /\ authn_otp_check_password utc_strftime utc_strptime_mktime default_conf
       (store_of content) io_ok io_ok 1200 (str "bob") (str "1234755224")
     = (AUTH_DENIED, store_of content).
Proof.
  intros content user.
  assert (H1 : users_file default_conf = Some (str "users")) by reflexivity.
  assert (H2 : find_update_user utc_strftime utc_strptime_mktime
                 (store_of content) io_ok
                 (set_username zero_user (snprintf_s 128 (str "bob"))) false
               = (AUTH_USER_FOUND, user, store_of content, []))
    by (vm_compute; reflexivity).
  assert (H3 : check_pin user (str "1234755224") = Some (str "755224"))
    by reflexivity.
  assert (H4 : strlen (str "755224") = num_digits user) by reflexivity.
  assert (H5 : str "755224" = last_otp user) by reflexivity.
  assert (H6 : in_long (last_auth user + max_linger (get_config default_conf)))
    by (vm_compute; split; discriminate).
  split; [exact H1|]. split; [exact H2|]. split; [exact H3|].
  split; [exact H4|]. split; [exact H5|]. split; [exact H6|].
  split.
  - apply (reuse_within_linger utc_strftime utc_strptime_mktime default_conf
             (store_of content) (store_of content) io_ok io_ok 700 (str "bob")
             (str "1234755224") (str "users") (str "755224") user []
             H1 H2 H3 H4 H5 H6).
    vm_compute. split; [discriminate|reflexivity].
  - apply (reuse_within_linger utc_strftime utc_strptime_mktime default_conf
             (store_of content) (store_of content) io_ok io_ok 1200 (str "bob")
             (str "1234755224") (str "users") (str "755224") user []
             H1 H2 H3 H4 H5 H6).
    vm_compute. intros [_ H]. discriminate.
Defined.

(** C2 as stated fails: the submitted OTP is the last OTP of the record
    and the time is within the linger time, and the result is "denied",
    because the OTP has five characters where the record has six
    digits. *)
Lemma reuse_of_short_otp_denied :
  let content :=
    str "HOTP bob - 3132333435363738393031323334353637383930 1 75522 1970-01-01T00:10:00L"
    ++ nl in
  let user := bob_record [] 1 (str "75522") 600 in
  find_update_user utc_strftime utc_strptime_mktime (store_of content) io_ok
    (set_username zero_user (snprintf_s 128 (str "bob"))) false
  = (AUTH_USER_FOUND, user, store_of content, [])
  /\ check_pin user (str "75522") = Some (last_otp user)
  /\ last_auth user <= 700 < last_auth user + max_linger (get_config default_conf)
  /\ authn_otp_check_password utc_strftime utc_strptime_mktime default_conf
       (store_of content) io_ok io_ok 700 (str "bob") (str "75522")
     = (AUTH_DENIED, store_of content).
Proof.
  intros content user.
  split; [vm_compute; reflexivity|]. split; [reflexivity|].
  split; [vm_compute; split; [discriminate|reflexivity]|].
  vm_compute. reflexivity.
Qed.

Lemma window_match_persists_witness :
  let content :=
    str "HOTP bob - 3132333435363738393031323334353637383930 10" ++ nl in
  let user := bob_record [] 10 [] 0 in
  let conf := mk_config (Some (str "users")) 4 (-1) in
  users_file conf = Some (str "users")
  /\ find_update_user utc_strftime utc_strptime_mktime (store_of content) io_ok
       (set_username zero_user (snprintf_s 128 (str "bob"))) false
     = (AUTH_USER_FOUND, user, store_of content, [])
  /\ check_pin user (str "868912") = Some (str "868912")
  /\ strlen (str "868912") = num_digits user
  /\ str "868912" <> last_otp user
  /\ otp_matches user 12 (str "868912") = true
  /\ otp_matches user 16 (str "186581") = true
  /\ authn_otp_check_password utc_strftime utc_strptime_mktime conf
       (store_of content) io_ok io_ok 1700000000 (str "bob") (str "868912")
     = (AUTH_GRANTED,
        mk_fs (Some (str "HOTP    bob           -       3132333435363738393031323334353637383930 13      868912  2023-11-14T22:13:20L"
                     ++ nl))
              None (Some []))
  /\ authn_otp_check_password utc_strftime utc_strptime_mktime conf
       (store_of content) io_ok io_ok 1700000000 (str "bob") (str "186581")
     = (AUTH_DENIED, store_of content).
Proof.
  intros content user conf.
  assert (H1 : users_file conf = Some (str "users")) by reflexivity.
  assert (H2 : find_update_user utc_strftime utc_strptime_mktime
                 (store_of content) io_ok
                 (set_username zero_user (snprintf_s 128 (str "bob"))) false
               = (AUTH_USER_FOUND, user, store_of content, []))
    by (vm_compute; reflexivity).
  assert (H3 : check_pin user (str "868912") = Some (str "868912"))
    by reflexivity.
  assert (H4 : strlen (str "868912") = num_digits user) by reflexivity.
  assert (H5 : str "868912" <> last_otp user) by discriminate.
  assert (H6 : otp_matches user 12 (str "868912") = true)
    by (vm_compute; reflexivity).
  assert (H7 : otp_matches user 16 (str "186581") = true)
    by (vm_compute; reflexivity).
  split; [exact H1|]. split; [exact H2|]. split; [exact H3|].
  split; [exact H4|]. split; [exact H5|]. split; [exact H6|].
  split; [exact H7|]. split.
  - assert (M10 : otp_matches user 10 (str "868912") = false)
      by (vm_compute; reflexivity).
    assert (M11 : otp_matches user 11 (str "868912") = false)
      by (vm_compute; reflexivity).
    destruct (window_match_persists utc_strftime utc_strptime_mktime conf
                (store_of content) (store_of content) io_ok io_ok 1700000000
                (str "bob") (str "868912") (str "users") (str "868912") user []
                H1 H2 H3 H4 H5) as (_ & H & _).
    destruct (H eq_refl eq_refl eq_refl M10 M11 H6) as (Hgrant & _).
    rewrite Hgrant. vm_compute. reflexivity.
  - assert (H3' : check_pin user (str "186581") = Some (str "186581"))
      by reflexivity.
    assert (H5' : str "186581" <> last_otp user) by discriminate.
    destruct (window_match_persists utc_strftime utc_strptime_mktime conf
                (store_of content) (store_of content) io_ok io_ok 1700000000
                (str "bob") (str "186581") (str "users") (str "186581") user []
                H1 H2 H3' H4 H5') as (_ & _ & H).
    apply H; [reflexivity|reflexivity|reflexivity|exact H7|].
    intros c Hc.
    assert (E : c = 10 \/ c = 11 \/ c = 12 \/ c = 13 \/ c = 14) by lia.
    destruct E as [->|[->|[->|[->| ->]]]]; vm_compute; reflexivity.
Defined.

(** C3 as stated fails, in two ways. The window search accepts the OTP
    of counter 12 for the record with offset 10, the rename that ends the
    update fails, and the verifier grants all the same: the users file
    holds the record it held, with offset 10 and no last OTP, so the same
    OTP is granted again. And for a record with offset 2147483647, the
    largest [int], the verifier grants the OTP of that counter and writes
    back the offset -2147483648, which is not the matched counter plus
    one. *)
Lemma window_match_not_persisted :
  let content :=
    str "HOTP bob - 3132333435363738393031323334353637383930 10" ++ nl in
  let content_max :=
    str "HOTP bob - 3132333435363738393031323334353637383930 2147483647"
    ++ nl in
  let conf := mk_config (Some (str "users")) 4 (-1) in
  let rename_fails := mk_io true true true true false in
  let verify content io2 :=
    authn_otp_check_password utc_strftime utc_strptime_mktime conf
      (store_of content) io_ok io2 1700000000 (str "bob") in
  let kept := mk_fs (Some content) None (Some []) in
  window_search (get_config conf) (bob_record [] 10 [] 0) 1700000000
    (str "868912") = Some 2
  /\ verify content rename_fails (str "868912") = (AUTH_GRANTED, kept)
  /\ find_update_user utc_strftime utc_strptime_mktime kept io_ok lookup_bob
       false
     = (AUTH_USER_FOUND, bob_record [] 10 [] 0, kept, [])
  /\ authn_otp_check_password utc_strftime utc_strptime_mktime conf kept io_ok
       rename_fails 1700000000 (str "bob") (str "868912")
     = (AUTH_GRANTED, kept)
  /\ window_search (get_config conf) (bob_record [] 2147483647 [] 0)
       1700000000 (str "223505") = Some 0
  /\ expected_counter (bob_record [] 2147483647 [] 0) 1700000000 = 2147483647
  /\ verify content_max io_ok (str "223505")
     = (AUTH_GRANTED,
        mk_fs (Some (str "HOTP    bob           -       3132333435363738393031323334353637383930 -2147483648 223505  2023-11-14T22:13:20L"
                     ++ nl))
              None (Some [])).
Proof.
  intros content content_max conf rename_fails verify kept.
  repeat split; vm_compute; reflexivity.
Qed.

(** A time-based mOTP record: the PIN is no prefix of what is
    submitted, the code of the counter two intervals back is granted
    (upper case or lower case), and the offset written is -2. *)
Example motp_time_window :
  let content := str "MOTP amy 1234 0a0bff 0" ++ nl in
  let verify :=
    authn_otp_check_password utc_strftime utc_strptime_mktime default_conf
      (store_of content) io_ok io_ok 1700000000 (str "amy") in
  verify (str "5FF5FE")
  = (AUTH_GRANTED,
     mk_fs (Some (str "MOTP    amy           1234    0a0bff -2      5FF5FE  2023-11-14T22:13:20L"
                  ++ nl))
           None (Some []))
  /\ verify (str "12345ff5fe") = (AUTH_DENIED, store_of content)
  /\ verify (str "d5c378") <> (AUTH_DENIED, store_of content)
  /\ verify (str "000000") = (AUTH_DENIED, store_of content).
Proof.
  intros content verify.
  split; [vm_compute; reflexivity|]. split; [vm_compute; reflexivity|].
  split; [vm_compute; discriminate|vm_compute; reflexivity].
Qed.

(* ----------------------------------------------------------------- *)
(** ** The codec *)


(** A record with default values in all the fields that have one. *)
Example roundtrip_of_default_record :
  let r := mk_user OTP_ALGORITHM_HOTP 0 6 (str "bob") [1; 2] [] 0 [] 0 in
  print_user utc_strftime r = str "HOTP    bob           -       0102 0      " ++ nl
  /\ scan_line utc_strptime_mktime false
       (set_username zero_user (username r)) false (print_user utc_strftime r)
     = (LineFound, r, true).
Proof. split; vm_compute; reflexivity. Qed.


(* ----------------------------------------------------------------- *)
(** ** The window search *)


(** C1, at an input on which the code departs from it. The record keeps
    the offset, for an event-based token the next expected count, in a
    [long], and the generators take the counter as an [unsigned long];
    the verifier puts the expected counter into an [int]. The users file
    holds the event-based record with the test key of RFC 4226 and offset
    4294967296, and both OTPs reach the window search. The expected
    counter the verifier computes is 0 and not the offset: it grants the
    OTP of counter 0 and writes back offset 1, and it denies the OTP of
    counter 4294967296. *)
Lemma expected_counter_narrowed :
  let content :=
    str "HOTP bob - 3132333435363738393031323334353637383930 4294967296"
    ++ nl in
  let user := bob_record [] 4294967296 [] 0 in
  let verify :=
    authn_otp_check_password utc_strftime utc_strptime_mktime default_conf
      (store_of content) io_ok io_ok 1700000000 (str "bob") in
  find_update_user utc_strftime utc_strptime_mktime (store_of content) io_ok
    (set_username zero_user (snprintf_s 128 (str "bob"))) false
  = (AUTH_USER_FOUND, user, store_of content, [])
  /\ check_pin user (str "999456") = Some (str "999456")
  /\ strlen (str "999456") = num_digits user
  /\ str "999456" <> last_otp user
  /\ time_interval user = 0
  /\ offset user = 4294967296
  /\ expected_counter user 1700000000 = 0
  /\ fst (hotp rfc4226_key 4294967296 6 OTP_BUF_SIZE) = str "999456"
  /\ fst (hotp rfc4226_key 0 6 OTP_BUF_SIZE) = str "755224"
  /\ verify (str "999456") = (AUTH_DENIED, store_of content)
  /\ verify (str "755224")
     = (AUTH_GRANTED,
        mk_fs (Some (str "HOTP    bob           -       3132333435363738393031323334353637383930 1       755224  2023-11-14T22:13:20L"
                     ++ nl))
              None (Some [])).
Proof.
  intros content user verify.
  split; [vm_compute; reflexivity|]. split; [reflexivity|].
  split; [reflexivity|]. split; [discriminate|].
  repeat split; vm_compute; reflexivity.
Qed.

(* ================================================================= *)
(** * Further properties of the module *)

(* ----------------------------------------------------------------- *)
(** ** Code generators: [printhex] and [motp] *)

Lemma le_octets_length (n : nat) (v : Z) : List.length (le_octets n v) = n.
Proof.
  revert v. induction n as [|n IH]; intros v; simpl; [reflexivity|].
  rewrite IH. reflexivity.
Qed.

Lemma le_octets_range (n : nat) (v : Z) : is_octets (le_octets n v).
Proof.
  revert v. induction n as [|n IH]; intros v; simpl; [constructor|].
  constructor; [apply land_255_range|apply IH].
Qed.

Lemma MD5_length (msg : octets) : List.length (MD5 msg) = 16%nat.
Proof.
  unfold MD5.
  destruct (fold_left md5_block _ md5_init) as [[[a b] c] d].
  rewrite !length_app, !le_octets_length. reflexivity.
Qed.

Lemma MD5_range (msg : octets) : is_octets (MD5 msg).
Proof.
  unfold MD5.
  destruct (fold_left md5_block _ md5_init) as [[[a b] c] d].
  unfold is_octets.
  do 3 (apply Forall_app; split; [apply le_octets_range|]).
  apply le_octets_range.
Qed.

Lemma hex_of_octets_length (b : octets) :
  List.length (hex_of_octets b) = (2 * List.length b)%nat.
Proof.
  induction b as [|x b IH]; [reflexivity|].
  unfold hex_of_octets in *. cbn [flat_map fmt_02x app List.length].
  rewrite IH. lia.
Qed.

Lemma skipn_nth_cons (A : Type) (l : list A) (i : nat) (d : A) :
  (i < List.length l)%nat -> skipn i l = nth i l d :: skipn (S i) l.
Proof.
  revert i. induction l as [|x l IH]; intros i Hi; [simpl in Hi; lia|].
  destruct i as [|i]; [reflexivity|].
  simpl in Hi. cbn [skipn nth]. apply IH. lia.
Qed.

Lemma land_1_mod (i : Z) : Z.land i 1 = i mod 2.
Proof. change 1 with (Z.ones 1). rewrite Z.land_ones by lia. reflexivity. Qed.

(** The hex digit [printhex] writes at index [i]. *)
Lemma hex_of_octets_nth (data : octets) :
  is_octets data ->
  forall i, 0 <= i < 2 * Z.of_nat (List.length data) ->
    nth (Z.to_nat i) (hex_of_octets data) "0"%char
    = hexdig (Z.land (if Z.land i 1 =? 0
                      then Z.shiftr (octet_at data (i / 2)) 4
                      else octet_at data (i / 2)) 0x0f).
Proof.
  induction data as [|b rest IH]; intros Hoct i Hi; [simpl in Hi; lia|].
  inversion Hoct as [|? ? Hb Hrest]; subst.
  change 0x0f with (Z.ones 4). rewrite Z.land_ones by lia.
  rewrite land_1_mod.
  unfold hex_of_octets. cbn [flat_map fmt_02x app].
  fold (hex_of_octets rest).
  destruct (Z.eq_dec i 0) as [->|H0].
  { cbn [Z.to_nat nth]. change (0 mod 2) with 0. cbn [Z.eqb].
    unfold octet_at. change (Z.to_nat (0 / 2)) with 0%nat. cbn [nth].
    rewrite Z.shiftr_div_pow2 by lia. change (2 ^ 4) with 16.
    rewrite Z.mod_small; [reflexivity|].
    split; [apply Z.div_pos; lia|apply Z.div_lt_upper_bound; lia]. }
  destruct (Z.eq_dec i 1) as [->|H1].
  { change (Z.to_nat 1) with 1%nat. cbn [nth]. change (1 mod 2) with 1.
    cbn [Z.eqb]. unfold octet_at. change (Z.to_nat (1 / 2)) with 0%nat.
    cbn [nth]. reflexivity. }
  replace (Z.to_nat i) with (S (S (Z.to_nat (i - 2)))) by lia.
  cbn [nth]. rewrite IH; [|exact Hrest|simpl List.length in Hi; lia].
  change 0x0f with (Z.ones 4). rewrite Z.land_ones by lia.
  rewrite land_1_mod.
  replace ((i - 2) mod 2) with (i mod 2)
    by (replace i with (i - 2 + 1 * 2) at 1 by lia; apply Z.mod_add; lia).
  assert (Hq : i / 2 = (i - 2) / 2 + 1).
  { replace i with (i - 2 + 1 * 2) at 1 by lia. apply Z.div_add. lia. }
  assert (Ho : octet_at (b :: rest) (i / 2) = octet_at rest ((i - 2) / 2)).
  { unfold octet_at. rewrite Hq.
    assert (0 <= (i - 2) / 2) by (apply Z.div_pos; lia).
    replace (Z.to_nat ((i - 2) / 2 + 1)) with (S (Z.to_nat ((i - 2) / 2)))
      by lia.
    reflexivity. }
  rewrite Ho. reflexivity.
Qed.

Lemma printhex_loop_spec (data : octets) (buflen max_digits : Z) :
  is_octets data ->
  forall (fuel : nat) (i : Z),
    0 <= i -> 2 * Z.of_nat (List.length data) - i <= Z.of_nat fuel ->
    printhex_loop fuel i buflen data max_digits
    = firstn (Z.to_nat (Z.min max_digits (buflen - 1) - i))
        (skipn (Z.to_nat i) (hex_of_octets data)).
Proof.
  intros Hoct. induction fuel as [|f IH]; intros i Hi Hfuel.
  - cbn [printhex_loop]. rewrite skipn_all2; [rewrite firstn_nil; reflexivity|].
    rewrite hex_of_octets_length. lia.
  - cbn [printhex_loop].
    destruct (Z.ltb_spec (i / 2) (Z.of_nat (List.length data))) as [Hd|Hd];
      cbn [andb].
    + assert (Hlt : i < 2 * Z.of_nat (List.length data)).
      { destruct (Z.lt_ge_cases i (2 * Z.of_nat (List.length data)));
          [assumption|].
        assert (Z.of_nat (List.length data) <= i / 2)
          by (apply Z.div_le_lower_bound; lia). lia. }
      destruct (Z.ltb_spec i max_digits) as [Hm|Hm]; cbn [andb].
      * destruct (Z.ltb_spec i (buflen - 1)) as [Hb|Hb].
        -- rewrite (skipn_nth_cons _ _ _ "0"%char)
             by (rewrite hex_of_octets_length; lia).
           replace (Z.to_nat (Z.min max_digits (buflen - 1) - i))
             with (S (Z.to_nat (Z.min max_digits (buflen - 1) - (i + 1))))
             by lia.
           cbn [firstn]. rewrite hex_of_octets_nth by (assumption || lia).
           f_equal. rewrite IH by lia.
           replace (Z.to_nat (i + 1)) with (S (Z.to_nat i)) by lia.
           reflexivity.
        -- replace (Z.to_nat (Z.min max_digits (buflen - 1) - i)) with 0%nat
             by lia. reflexivity.
      * replace (Z.to_nat (Z.min max_digits (buflen - 1) - i)) with 0%nat
          by lia. reflexivity.
    + rewrite skipn_all2; [rewrite firstn_nil; reflexivity|].
      rewrite hex_of_octets_length.
      assert (2 * Z.of_nat (List.length data) <= i); [|lia].
      pose proof (Z.mul_div_le i 2 ltac:(lia)). lia.
Qed.

Lemma printhex_firstn (buflen : nat) (data : octets) (max_digits : Z) :
  is_octets data ->
  printhex buflen data max_digits
  = firstn (Z.to_nat (Z.min max_digits (Z.of_nat buflen - 1)))
      (hex_of_octets data).
Proof.
  intros Hoct. unfold printhex.
  rewrite printhex_loop_spec by (assumption || lia).
  rewrite Z.sub_0_r. reflexivity.
Qed.

(** X1. For a buffer of at least one character and data made of
    octets, [printhex] writes the hex digits of the data, two for each
    octet, the high nibble first and in lower case, and stops after
    max_digits digits or when the buffer has one character left: the
    text and its terminator fit the buffer. *)
Theorem printhex_digits (buflen : nat) (data : octets) (max_digits : Z) :
  (0 < buflen)%nat -> is_octets data ->
  printhex buflen data max_digits
  = firstn (Z.to_nat (Z.min max_digits (Z.of_nat buflen - 1)))
      (hex_of_octets data)
  /\ (List.length (printhex buflen data max_digits) < buflen)%nat
  /\ (List.length (printhex buflen data max_digits)
      <= 2 * List.length data)%nat.
Proof.
  intros Hb Hoct. rewrite printhex_firstn by exact Hoct.
  split; [reflexivity|].
  rewrite length_firstn, hex_of_octets_length. lia.
Qed.

Lemma printhex_digits_witness :
  (0 < 4)%nat /\ is_octets [10; 255; 3]
  /\ printhex 4 [10; 255; 3] 5 = str "0af".
Proof.
  assert (H1 : (0 < 4)%nat) by lia.
  assert (H2 : is_octets [10; 255; 3]) by (repeat constructor; lia).
  split; [exact H1|]. split; [exact H2|].
  destruct (printhex_digits 4 [10; 255; 3] 5 H1 H2) as [H _].
  rewrite H. reflexivity.
Defined.

(** X2. [motp] puts together the counter in decimal, as an unsigned
    long, the key in lower-case hex and the PIN; when this text fits the
    buffer of 256 characters it is hashed with MD5, and the code is made
    of the first ndigits hex digits of the digest, one less than the
    buffer length at most. *)
Theorem motp_digest (key : octets) (pin : cstring) (counter ndigits : Z)
    (buflen : nat) :
  (0 < buflen)%nat -> is_octets key ->
  let text := dec_digits (counter mod 2 ^ 64) ++ hex_of_octets key ++ pin in
  (List.length text < 256)%nat ->
  motp key pin counter ndigits buflen
  = firstn (Z.to_nat (Z.min ndigits (Z.of_nat buflen - 1)))
      (hex_of_octets (MD5 (octets_of_cstring text))).
Proof.
  intros Hb Hoct text Hlen. unfold motp.
  rewrite (printhex_firstn 256 key) by exact Hoct.
  assert (Hk : firstn (Z.to_nat (Z.min (Z.of_nat (List.length key) * 2)
                                   (Z.of_nat 256 - 1))) (hex_of_octets key)
               = hex_of_octets key).
  { apply firstn_all2. rewrite hex_of_octets_length.
    unfold text in Hlen. rewrite !length_app, hex_of_octets_length in Hlen.
    lia. }
  rewrite Hk. unfold fmt_lu, to_ulong. fold text.
  rewrite snprintf_s_fits by exact Hlen.
  apply printhex_firstn. apply MD5_range.
Qed.

Lemma motp_digest_witness :
  (0 < 16)%nat /\ is_octets [10; 11; 255]
  /\ motp [10; 11; 255] (str "1234") 169999998 6 16 = str "5ff5fe".
Proof.
  assert (H1 : (0 < 16)%nat) by lia.
  assert (H2 : is_octets [10; 11; 255]) by (repeat constructor; lia).
  split; [exact H1|]. split; [exact H2|].
  rewrite (motp_digest [10; 11; 255] (str "1234") 169999998 6 16 H1 H2);
    [vm_compute; reflexivity|vm_compute; lia].
Defined.

(* ----------------------------------------------------------------- *)
(** ** Lookup: the records it returns *)

Lemma hex_nibble_range (c : ascii) (n : Z) :
  hex_nibble c = Some n -> 0 <= n < 16.
Proof.
  intros H.
  destruct c as [[] [] [] [] [] [] [] []]; vm_compute in H;
    try discriminate; injection H as <-; lia.
Qed.

Lemma octet_of_nibbles (n0 n1 : Z) :
  0 <= n0 < 16 -> 0 <= n1 < 16 -> 0 <= Z.lor (Z.shiftl n0 4) n1 < 256.
Proof.
  intros H0 H1. rewrite lor_shiftl_add by lia. change (2 ^ 4) with 16. lia.
Qed.

(** The key loop stays within the room it is given. *)
Lemma parse_key_bounds (room : nat) :
  forall (s : cstring) (acc k : octets) (e : cstring + unit),
    parse_key room s acc = (k, e) -> is_octets acc ->
    is_octets k
    /\ (List.length acc <= List.length k <= List.length acc + room)%nat
    /\ (e = inr tt -> s <> [] -> (0 < room)%nat ->
        (List.length acc < List.length k)%nat).
Proof.
  induction room as [|room IH]; intros s acc k e H Hacc.
  - simpl in H. injection H as <- <-.
    split; [exact Hacc|]. split; [lia|]. intros _ _ Hr. lia.
  - cbn [parse_key] in H.
    destruct s as [|c0 s1].
    { injection H as <- <-. split; [exact Hacc|]. split; [lia|].
      intros _ Hs. contradiction. }
    destruct (hex_nibble c0) as [n0|] eqn:E0.
    2:{ injection H as <- <-. split; [exact Hacc|]. split; [lia|].
        intros He. discriminate. }
    destruct s1 as [|c1 s2].
    { injection H as <- <-. split; [exact Hacc|]. split; [lia|].
      intros He. discriminate. }
    destruct (hex_nibble c1) as [n1|] eqn:E1.
    2:{ injection H as <- <-. split; [exact Hacc|]. split; [lia|].
        intros He. discriminate. }
    apply IH in H.
    + destruct H as (H1 & H2 & _). rewrite length_app in H2. simpl in H2.
      split; [exact H1|]. split; [lia|]. intros _ _ _. lia.
    + apply Forall_app. split; [exact Hacc|].
      constructor; [|constructor].
      apply octet_of_nibbles; eapply hex_nibble_range; eassumption.
Qed.

Lemma clamp_long_range (z : Z) : in_long (clamp_long z).
Proof.
  unfold clamp_long, in_long, LONG_MIN, LONG_MAX.
  destruct (Z.ltb_spec z (- 2 ^ 63)); [lia|].
  destruct (Z.ltb_spec (2 ^ 63 - 1) z); lia.
Qed.

Lemma atol_range (s : cstring) : in_long (atol s).
Proof.
  unfold atol.
  destruct (hd_is "-" (skip_space s)); [apply clamp_long_range|].
  destruct (hd_is "+" (skip_space s)); apply clamp_long_range.
Qed.

Lemma apr_strtok_nonempty (sep s t r : cstring) :
  apr_strtok sep s = Some (t, r) -> t <> [].
Proof.
  unfold apr_strtok. destruct (skip_sep sep s) as [|c s']; [discriminate|].
  destruct (span_token sep s') as [t' r']. intros H. injection H as <- _.
  discriminate.
Qed.

Section LookupFacts.

Variable strftime_local : Z -> cstring.
Variable strptime_mktime : cstring -> option Z.

Local Abbreviation scan_line := (scan_line strptime_mktime).
Local Abbreviation scan_entries := (scan_entries strftime_local strptime_mktime).
Local Abbreviation find_update_user :=
  (find_update_user strftime_local strptime_mktime).
Local Abbreviation check_otp := (check_otp strftime_local strptime_mktime).
Local Abbreviation authn_otp_check_password :=
  (authn_otp_check_password strftime_local strptime_mktime).
Local Abbreviation authn_otp_get_realm_hash :=
  (authn_otp_get_realm_hash strftime_local strptime_mktime).

Lemma scan_line_found_bounds (u res : otp_user) (f : bool) (l : cstring) :
  fst (scan_line false u f l) = (LineFound, res) -> record_bounds res.
Proof.
  unfold scan_line, record_bounds.
  repeat (break_match; cbn [fst]; try discriminate);
    intros H; injection H as <-;
    cbn [username pin last_otp key offset set_username set_tokinfo set_pin
         set_key set_offset set_last_otp set_last_auth zero_user];
    match goal with
    | Hk : parse_key 256 ?s [] = (?k, inr ?x), Ht : apr_strtok _ _ = Some (?s, _)
      |- _ =>
        destruct x;
        pose proof (parse_key_bounds 256 s [] k (inr tt) Hk
                      (Forall_nil _)) as (Hoct & Hlen & Hpos);
        specialize (Hpos eq_refl (apr_strtok_nonempty _ _ _ _ Ht) ltac:(lia));
        cbn [List.length] in Hlen, Hpos
    end;
    (split; [apply snprintf_s_length; lia|]);
    (split; [apply snprintf_s_length; lia|]);
    (split; [first [apply snprintf_s_length; lia | cbn [List.length]; lia]|]);
    (split; [lia|]); (split; [exact Hoct|]);
    first [apply atol_range | unfold in_long, LONG_MIN, LONG_MAX; lia].
Qed.

(** A lookup leaves the files as they are, whatever its result. *)
Lemma lookup_files (fs fs' : filesys) (io : io_outcome) (u res : otp_user)
    (st : authn_status) (log : list (Z * invalid_reason)) :
  find_update_user fs io u false = (st, res, fs', log) ->
  fs' = fs
  /\ (st = AUTH_USER_FOUND \/ st = AUTH_USER_NOT_FOUND
      \/ st = AUTH_GENERAL_ERROR).
Proof.
  unfold find_update_user. cbn [andb].
  destruct (if io_users_open io then fs_users fs else None) as [content|].
  - destruct (scan_entries false (linebuf_lines content) 1 u [] false [])
      as [r lg|uu nn ff lg]; cbn [negb]; intros H; injection H as <- _ <- _;
      split; auto.
  - intros H. injection H as <- _ <- _. split; auto.
Qed.

(** The lines before the first one that decodes for the user are passed
    over; the name looked up stays. *)
Lemma scan_entries_first_found (pre : list cstring) :
  forall (rest : list cstring) (n : Z) (u : otp_user) (nf : cstring)
         (fd : bool) (log : list (Z * invalid_reason)),
    (List.length (username u) < 128)%nat ->
    Forall (fun l => fst (fst (scan_line false u false l)) <> LineFound) pre ->
    exists u' nf' fd' log',
      username u' = username u
      /\ scan_entries false (pre ++ rest) n u nf fd log
         = scan_entries false rest (n + Z.of_nat (List.length pre)) u' nf' fd'
             (log ++ log').
Proof.
  induction pre as [|l pre IH]; intros rest n u nf fd log Hlen Hall.
  - exists u, nf, fd, []. split; [reflexivity|].
    simpl. rewrite app_nil_r, Z.add_0_r. reflexivity.
  - inversion Hall as [|? ? Hl Hpre]; subst.
    pose proof (scan_line_lookup_username strptime_mktime u fd l Hlen) as Hname.
    destruct (scan_line_lookup_indep strptime_mktime u u fd false l eq_refl)
      as [Hres _].
    replace (n + Z.of_nat (List.length (l :: pre)))
      with (n + 1 + Z.of_nat (List.length pre))
      by (cbn [List.length]; lia).
    change ((l :: pre) ++ rest) with (l :: (pre ++ rest)).
    cbn [scan_entries].
    destruct (scan_line false u fd l) as [[r u1] fd1] eqn:E.
    cbn [fst snd] in Hname, Hres.
    assert (Hlen1 : (List.length (username u1) < 128)%nat)
      by (rewrite Hname; exact Hlen).
    assert (Hpre1 : Forall
              (fun l0 => fst (fst (scan_line false u1 false l0)) <> LineFound)
              pre).
    { rewrite Forall_forall in *. intros l0 Hin.
      destruct (scan_line_lookup_indep strptime_mktime u1 u false false l0
                  Hname) as [H1 _].
      rewrite H1. apply Hpre. exact Hin. }
    destruct r.
    + destruct (IH rest (n + 1) u1 nf fd1 log Hlen1 Hpre1)
        as (u' & nf' & fd' & lg & Hu & ->).
      exists u', nf', fd', lg. split; [congruence|reflexivity].
    + destruct (IH rest (n + 1) u1 nf fd1 (log ++ [(n, why)]) Hlen1 Hpre1)
        as (u' & nf' & fd' & lg & Hu & ->).
      exists u', nf', fd', ((n, why) :: lg). split; [congruence|].
      rewrite <- app_assoc. reflexivity.
    + destruct (IH rest (n + 1) u1 (nf ++ print_user strftime_local u1) fd1 log
                  Hlen1 Hpre1)
        as (u' & nf' & fd' & lg & Hu & ->).
      exists u', nf', fd', lg. split; [congruence|reflexivity].
    + exfalso. apply Hl. rewrite <- Hres. reflexivity.
Qed.

(** The lookup of a file whose first line that decodes for the user is
    [l]. *)
Lemma lookup_first (fs : filesys) (io : io_outcome) (u res : otp_user)
    (content : cstring) (pre post : list cstring) (l : cstring) :
  (List.length (username u) < 128)%nat ->
  io_users_open io = true ->
  fs_users fs = Some content ->
  linebuf_lines content = pre ++ l :: post ->
  Forall (fun l0 => fst (fst (scan_line false u false l0)) <> LineFound) pre ->
  fst (scan_line false u false l) = (LineFound, res) ->
  exists log, find_update_user fs io u false = (AUTH_USER_FOUND, res, fs, log).
Proof.
  intros Hlen Hopen Hfs Hlines Hpre Hl.
  unfold find_update_user. cbn [andb]. rewrite Hopen, Hfs, Hlines.
  destruct (scan_entries_first_found pre (l :: post) 1 u [] false [] Hlen Hpre)
    as (u' & nf' & fd' & lg & Hu & ->).
  cbn [scan_entries].
  destruct (scan_line_lookup_indep strptime_mktime u' u fd' false l Hu)
    as [H1 H2].
  destruct (scan_line false u' fd' l) as [[r u1] fd1].
  destruct (scan_line false u false l) as [[r0 u0] fd0].
  cbn [fst snd] in *. injection Hl as -> ->. subst r.
  rewrite (H2 eq_refl). eexists. reflexivity.
Qed.

(** X3. A lookup returns the record of the first line of the users
    file that decodes for the user: lines before it that do not decode
    (comments, blank lines, lines of other users, invalid entries of the
    user) are passed over, and what comes after that line is not read,
    so that a second entry of the same user is never used. The files
    are left as they were. The lines are the strings the scan decodes
    ([linebuf_lines]): each line read, up to its first NUL byte if it
    holds one. *)
Theorem lookup_returns_first_valid_entry (fs : filesys) (io : io_outcome)
    (u res : otp_user) (content : cstring) (pre post : list cstring)
    (l : cstring) :
  (List.length (username u) < 128)%nat ->
  io_users_open io = true ->
  fs_users fs = Some content ->
  linebuf_lines content = pre ++ l :: post ->
  Forall (fun l0 => fst (fst (scan_line false u false l0)) <> LineFound) pre ->
  fst (scan_line false u false l) = (LineFound, res) ->
  exists log, find_update_user fs io u false = (AUTH_USER_FOUND, res, fs, log).
Proof.
  intros Hlen Hopen Hfs Hlines Hpre Hl.
  exact (lookup_first fs io u res content pre post l Hlen Hopen Hfs Hlines
           Hpre Hl).
Qed.

(** What a lookup returns: the record of a line of the file, with the
    name looked up, well formed and within the buffers. *)
Lemma lookup_found_line (fs fs1 : filesys) (io : io_outcome) (u res : otp_user)
    (log : list (Z * invalid_reason)) :
  (List.length (username u) < 128)%nat ->
  find_update_user fs io u false = (AUTH_USER_FOUND, res, fs1, log) ->
  exists content l,
    fs_users fs = Some content /\ In l (linebuf_lines content)
    /\ fst (scan_line false u false l) = (LineFound, res)
    /\ username res = username u.
Proof.
  intros Hlen. unfold find_update_user. cbn [andb].
  destruct (io_users_open io); [|discriminate].
  destruct (fs_users fs) as [content|]; [|discriminate].
  pose proof (scan_entries_lookup_result strftime_local strptime_mktime
                (linebuf_lines content) 1 u [] false [] Hlen) as Hres.
  destruct (scan_entries false (linebuf_lines content) 1 u [] false [])
    as [r lg|uu nn ff lg]; cbn [negb]; [|discriminate].
  intros H. injection H as <- _ _.
  destruct Hres as [(l & Hin & Hl) _].
  exists content, l. split; [reflexivity|]. split; [exact Hin|].
  split; [exact Hl|].
  pose proof (scan_line_lookup_username strptime_mktime u false l Hlen) as Hn.
  destruct (scan_line false u false l) as [[a b] c]. cbn [fst snd] in *.
  injection Hl as _ ->. exact Hn.
Qed.

Lemma lookup_bounds (fs fs1 : filesys) (io : io_outcome) (u res : otp_user)
    (log : list (Z * invalid_reason)) :
  (List.length (username u) < 128)%nat ->
  find_update_user fs io u false = (AUTH_USER_FOUND, res, fs1, log) ->
  username res = username u /\ record_wf res /\ record_bounds res.
Proof.
  intros Hlen Hlook.
  destruct (lookup_found_line fs fs1 io u res log Hlen Hlook)
    as (content & l & _ & _ & Hl & Hn).
  split; [exact Hn|]. split.
  - apply (scan_line_found_wf strptime_mktime u res false l). exact Hl.
  - apply (scan_line_found_bounds u res false l). exact Hl.
Qed.

(** X4. A record returned by a lookup carries the name looked up, an
    algorithm that is HOTP or MOTP, a time interval that is not negative,
    a number of digits from 1 to the number of entries of [powers10], a
    PIN and a last OTP shorter than their buffers of 128 characters, a
    key of 1 to 256 octets (the size of the key buffer), and an offset
    in the range of a [long]. *)
Theorem lookup_record_within_buffers (fs fs1 : filesys) (io : io_outcome)
    (u res : otp_user) (log : list (Z * invalid_reason)) :
  (List.length (username u) < 128)%nat ->
  find_update_user fs io u false = (AUTH_USER_FOUND, res, fs1, log) ->
  username res = username u
  /\ (algorithm res = OTP_ALGORITHM_HOTP \/ algorithm res = OTP_ALGORITHM_MOTP)
  /\ 0 <= time_interval res <= INT_MAX
  /\ 1 <= num_digits res <= powers10_len
  /\ (List.length (pin res) < 128)%nat
  /\ (List.length (last_otp res) < 128)%nat
  /\ (0 < List.length (key res) <= 256)%nat
  /\ is_octets (key res)
  /\ in_long (offset res).
Proof.
  intros Hlen Hlook.
  destruct (lookup_bounds fs fs1 io u res log Hlen Hlook)
    as (Hn & (Ha & Hti & Hnd) & (_ & Hp & Ho & Hk & Hoct & Hoff)).
  change powers10_len with 10.
  split; [exact Hn|]. split; [exact Ha|]. split; [exact Hti|].
  split; [exact Hnd|]. split; [exact Hp|]. split; [exact Ho|].
  split; [exact Hk|]. split; [exact Hoct|exact Hoff].
Qed.

(** X5. [authn_otp_check_password] never returns "user found"; unless
    it grants, the users file, the new file and the lock file are as they
    were, whatever the outcome of the I/O; and without a users file in
    the configuration the result is a general error. *)
Theorem check_password_failure_keeps_files (dir_conf : otp_config)
    (fs : filesys) (io1 io2 : io_outcome) (now : Z)
    (name otp_given : cstring) :
  let '(status, fs') :=
    authn_otp_check_password dir_conf fs io1 io2 now name otp_given in
  status <> AUTH_USER_FOUND
  /\ (status <> AUTH_GRANTED -> fs' = fs)
  /\ (users_file dir_conf = None -> status = AUTH_GENERAL_ERROR).
Proof.
  unfold authn_otp_check_password. cbn [get_config users_file].
  destruct (users_file dir_conf) as [path|].
  2:{ split; [discriminate|]. split; reflexivity. }
  destruct (find_update_user fs io1
              (set_username zero_user (snprintf_s 128 name)) false)
    as [[[st user] fs1] lg] eqn:Hlook.
  destruct (lookup_files _ _ _ _ _ _ _ Hlook) as [-> Hst].
  destruct st; try (destruct Hst as [H|[H|H]]; discriminate);
    try (split; [discriminate|]; split; [reflexivity|discriminate]).
  destruct (check_pin user otp_given) as [otp|];
    [|split; [discriminate|]; split; [reflexivity|discriminate]].
  unfold check_otp.
  destruct (negb (strlen otp =? num_digits user));
    [split; [discriminate|]; split; [reflexivity|discriminate]|].
  destruct (strcmp0 otp (last_otp user)).
  - destruct ((last_auth user <=? now)
              && (now <? to_long (last_auth user
                                  + max_linger (get_config dir_conf))));
      split; try discriminate; split; try reflexivity; discriminate.
  - destruct (window_search (get_config dir_conf) user now otp) as [adj|].
    + destruct (find_update_user fs io2 (success_user user now otp adj) true)
        as [[[st2 u2] fs2] lg2].
      split; [discriminate|]. split; [intros H; contradiction|discriminate].
    + split; [discriminate|]. split; [reflexivity|discriminate].
Qed.

End LookupFacts.

(* ----------------------------------------------------------------- *)
(** ** Digest authentication *)

Lemma strcasecmp0_refl (s : cstring) : strcasecmp0 s s = true.
Proof. unfold strcasecmp0. apply cstr_eqb_refl. Qed.

(** The length of the codes the generators write into a buffer of
    [OTP_BUF_SIZE] characters, for a number of digits from 1 to 10. *)
Lemma hotp_decimal_length (key : octets) (counter nd : Z) :
  1 <= nd <= 10 -> strlen (fst (hotp key counter nd OTP_BUF_SIZE)) = nd.
Proof.
  intros Hnd. rewrite hotp_unfold. cbv zeta.
  destruct (Z.ltb_spec nd 1) as [?|_]; [lia|]. cbn [fst].
  apply (hotp_buf10 (hotp_value (HMAC_SHA1 key (be_octets 8 counter))) nd);
    [|exact Hnd].
  apply hotp_value_range. apply HMAC_SHA1_range.
Qed.

Lemma motp_length (key : octets) (pin : cstring) (counter nd : Z) :
  1 <= nd <= 10 -> strlen (motp key pin counter nd OTP_BUF_SIZE) = nd.
Proof.
  intros Hnd. unfold motp, strlen.
  rewrite printhex_firstn by apply MD5_range.
  rewrite length_firstn, hex_of_octets_length, MD5_length.
  unfold OTP_BUF_SIZE. lia.
Qed.

Lemma set_offset_same (u : otp_user) : set_offset u (offset u) = u.
Proof. destruct u. reflexivity. Qed.

Section DigestFacts.

Variable strftime_local : Z -> cstring.
Variable strptime_mktime : cstring -> option Z.

Local Abbreviation find_update_user :=
  (find_update_user strftime_local strptime_mktime).
Local Abbreviation check_otp := (check_otp strftime_local strptime_mktime).
Local Abbreviation authn_otp_check_password :=
  (authn_otp_check_password strftime_local strptime_mktime).
Local Abbreviation authn_otp_get_realm_hash :=
  (authn_otp_get_realm_hash strftime_local strptime_mktime).

Lemma digest_otp_length (user : otp_user) (c : Z) :
  record_wf user -> strlen (digest_otp user c) = num_digits user.
Proof.
  intros (_ & _ & Hnd). unfold digest_otp.
  destruct (algorithm user =? OTP_ALGORITHM_MOTP);
    [apply motp_length|apply hotp_decimal_length]; exact Hnd.
Qed.

Lemma digest_otp_matches (user : otp_user) (c : Z) :
  otp_matches user c (digest_otp user c) = true.
Proof.
  unfold otp_matches, gen_otp, digest_otp.
  destruct (algorithm user =? OTP_ALGORITHM_MOTP).
  - rewrite strcasecmp0_refl. apply orb_true_r.
  - destruct (hotp (key user) (to_ulong c) (num_digits user) OTP_BUF_SIZE)
      as [b10 b16]. cbn [fst]. unfold strcmp0. rewrite cstr_eqb_refl.
    reflexivity.
Qed.

(** The digest path once the lookup has returned the record [user]. *)
Lemma realm_hash_found (dir_conf : otp_config) (fs fs1 : filesys)
    (io1 io2 : io_outcome) (now : Z) (name realm path : cstring)
    (user : otp_user) (log : list (Z * invalid_reason)) :
  users_file dir_conf = Some path ->
  find_update_user fs io1 (set_username zero_user (snprintf_s 128 name)) false
  = (AUTH_USER_FOUND, user, fs1, log) ->
  let conf := get_config dir_conf in
  let linger :=
    (last_auth user <=? now)
    && (now <? to_long (last_auth user + max_linger conf)) in
  let counter := expected_counter user now in
  authn_otp_get_realm_hash dir_conf fs io1 io2 now name realm
  = if linger then
      (AUTH_USER_FOUND,
       Some (ap_md5 (digest_hashbuf user realm (snprintf_s 32 (last_otp user)))),
       fs)
    else
      (AUTH_USER_FOUND,
       Some (ap_md5 (digest_hashbuf user realm (digest_otp user counter))),
       files_after
         (find_update_user fs io2
            (digest_user user now counter (digest_otp user counter)) true)).
Proof.
  intros Hconf Hlook conf linger counter.
  destruct (lookup_files strftime_local strptime_mktime _ _ _ _ _ _ _ Hlook)
    as [-> _].
  unfold authn_otp_get_realm_hash. cbn [get_config users_file].
  rewrite Hconf, Hlook. fold conf. fold linger.
  destruct linger; cbn [negb]; [reflexivity|].
  fold counter.
  destruct (find_update_user fs io2
              (digest_user user now counter (digest_otp user counter)) true)
    as [[[st u'] fs'] lg].
  reflexivity.
Qed.


(** X6. [authn_otp_get_realm_hash] returns "user found", "user not
    found" or a general error, never "granted" or "denied"; it stores a
    hash exactly when it returns "user found"; in the other cases the
    files are as they were; and without a users file in the configuration
    the result is a general error. *)
Theorem realm_hash_status (dir_conf : otp_config) (fs : filesys)
    (io1 io2 : io_outcome) (now : Z) (name realm : cstring) :
  let '(status, rethash, fs') :=
    authn_otp_get_realm_hash dir_conf fs io1 io2 now name realm in
  (status = AUTH_USER_FOUND \/ status = AUTH_USER_NOT_FOUND
   \/ status = AUTH_GENERAL_ERROR)
  /\ (status = AUTH_USER_FOUND <-> rethash <> None)
  /\ (status <> AUTH_USER_FOUND -> fs' = fs)
  /\ (users_file dir_conf = None -> status = AUTH_GENERAL_ERROR).
Proof.
  unfold authn_otp_get_realm_hash. cbn [get_config users_file].
  destruct (users_file dir_conf) as [path|].
  2:{ split; [auto|]. split; [split; [discriminate|intros H; contradiction]|].
      split; reflexivity. }
  destruct (find_update_user fs io1
              (set_username zero_user (snprintf_s 128 name)) false)
    as [[[st user] fs1] lg] eqn:Hlook.
  destruct (lookup_files strftime_local strptime_mktime _ _ _ _ _ _ _ Hlook)
    as [-> Hst].
  destruct st; try (destruct Hst as [H|[H|H]]; discriminate).
  - destruct (negb ((last_auth user <=? now)
               && (now <? to_long (last_auth user
                                   + max_linger (get_config dir_conf))))).
    + destruct (find_update_user fs io2 _ true) as [[[st2 u2] fs2] lg2].
      split; [auto|]. split; [split; [discriminate|reflexivity]|].
      split; [intros H; contradiction|discriminate].
    + split; [auto|]. split; [split; [discriminate|reflexivity]|].
      split; [intros H; contradiction|discriminate].
  - split; [auto|]. split; [split; [discriminate|intros H; contradiction]|].
    split; [reflexivity|discriminate].
  - split; [auto|]. split; [split; [discriminate|intros H; contradiction]|].
    split; [reflexivity|discriminate].
Qed.

(** X7. Past the linger time the digest path and the basic path agree.
    For a record the lookup returns, [authn_otp_get_realm_hash] hashes
    "user:realm:password" (cut to the 256 characters of its buffer) where
    the password is the PIN (none for mOTP) followed by the code of the
    expected counter, and it writes back the record with that code as
    last OTP, the time as last authentication time and, for an
    event-based record, the counter plus one as offset. When that code is
    not the last OTP of the record, [authn_otp_check_password] grants
    the same password at the same time and leaves the same files. *)
Theorem realm_hash_agrees_with_basic (dir_conf : otp_config)
    (fs fs1 : filesys) (io1 io2 : io_outcome) (now : Z)
    (name realm path : cstring) (user : otp_user)
    (log : list (Z * invalid_reason)) :
  users_file dir_conf = Some path ->
  find_update_user fs io1 (set_username zero_user (snprintf_s 128 name)) false
  = (AUTH_USER_FOUND, user, fs1, log) ->
  let conf := get_config dir_conf in
  let counter := expected_counter user now in
  let otp := digest_otp user counter in
  let password :=
    (if algorithm user =? OTP_ALGORITHM_MOTP then [] else pin user) ++ otp in
  (last_auth user <=? now)
  && (now <? to_long (last_auth user + max_linger conf)) = false ->
  otp <> last_otp user ->
  let fs' :=
    files_after (find_update_user fs io2 (digest_user user now counter otp)
                   true) in
  authn_otp_get_realm_hash dir_conf fs io1 io2 now name realm
  = (AUTH_USER_FOUND,
     Some (ap_md5 (snprintf_s 256
                     (username user ++ str ":" ++ realm ++ str ":"
                      ++ password))),
     fs')
  /\ authn_otp_check_password dir_conf fs io1 io2 now name password
     = (AUTH_GRANTED, fs')
  /\ digest_user user now counter otp
     = updated_record user
         (if time_interval user =? 0 then to_int (counter + 1)
          else offset user) otp now.
Proof.
  intros Hconf Hlook conf counter otp password Hlinger Hotp fs'.
  assert (Hlen : (List.length
                    (username (set_username zero_user (snprintf_s 128 name)))
                  < 128)%nat)
    by (cbn [username set_username]; apply snprintf_s_length; lia).
  destruct (lookup_bounds strftime_local strptime_mktime fs fs1 io1 _ user log
              Hlen Hlook) as (_ & Hwf & (_ & _ & _ & _ & _ & Hoff)).
  pose proof (digest_otp_length user counter Hwf) as Hol. fold otp in Hol.
  assert (Hsnp : snprintf_s 128 otp = otp).
  { apply snprintf_s_fits. destruct Hwf as (_ & _ & Hnd).
    unfold strlen in Hol. lia. }
  assert (Hrec : digest_user user now counter otp
                 = updated_record user
                     (if time_interval user =? 0 then to_int (counter + 1)
                      else offset user) otp now).
  { unfold digest_user, updated_record. rewrite Hsnp.
    destruct (time_interval user =? 0); destruct user; reflexivity. }
  split; [|split; [|exact Hrec]].
  - pose proof (realm_hash_found dir_conf fs fs1 io1 io2 now name realm path
                  user log Hconf Hlook) as H.
    cbv zeta in H. fold conf in H. rewrite Hlinger in H. exact H.
  - destruct (check_password_found strftime_local strptime_mktime dir_conf fs
                fs1 io1 io2 now name password path user log Hconf Hlook)
      as [_ ->].
    assert (Hpin : check_pin user password = Some otp).
    { unfold check_pin, password.
      destruct (algorithm user =? OTP_ALGORITHM_MOTP); cbn [negb];
        [reflexivity|].
      assert (H : strncmp0_len (pin user ++ otp) (pin user) = true)
        by (apply strncmp0_len_prefix; exists otp; reflexivity).
      rewrite H. cbn [negb]. rewrite skipn_prefix. reflexivity. }
    rewrite Hpin.
    rewrite check_otp_window by assumption.
    assert (Hws : window_search (get_config dir_conf) user now otp = Some 0).
    { unfold window_search. fold counter. unfold otp.
      rewrite digest_otp_matches. reflexivity. }
    rewrite Hws.
    assert (Hsu : success_user user now otp 0
                  = digest_user user now counter otp).
    { rewrite Hrec. unfold success_user, updated_record. fold counter.
      rewrite Hsnp, !Z.add_0_r.
      rewrite (to_int_id counter)
        by (unfold counter, expected_counter;
            destruct (time_interval user =? 0); apply to_int_range).
      rewrite (to_long_id (offset user)) by exact Hoff.
      destruct (time_interval user =? 0); destruct user; reflexivity. }
    rewrite Hsu. reflexivity.
Qed.

(** X8. Within the linger time ([last_auth <= now < last_auth +
    max_linger], the sum in the range of a [long]) and for a last OTP
    that fits the 32 characters of the OTP buffer,
    [authn_otp_get_realm_hash] hashes "user:realm:password" where the
    password is the PIN (none for mOTP) followed by the last OTP, and
    leaves the files as they were; when the last OTP has num_digits
    characters, [authn_otp_check_password] grants that password at that
    time, again without touching the files. *)
Theorem realm_hash_within_linger (dir_conf : otp_config)
    (fs fs1 : filesys) (io1 io2 : io_outcome) (now : Z)
    (name realm path : cstring) (user : otp_user)
    (log : list (Z * invalid_reason)) :
  users_file dir_conf = Some path ->
  find_update_user fs io1 (set_username zero_user (snprintf_s 128 name)) false
  = (AUTH_USER_FOUND, user, fs1, log) ->
  let conf := get_config dir_conf in
  let password :=
    (if algorithm user =? OTP_ALGORITHM_MOTP then [] else pin user)
    ++ last_otp user in
  in_long (last_auth user + max_linger conf) ->
  last_auth user <= now < last_auth user + max_linger conf ->
  (List.length (last_otp user) < 32)%nat ->
  authn_otp_get_realm_hash dir_conf fs io1 io2 now name realm
  = (AUTH_USER_FOUND,
     Some (ap_md5 (snprintf_s 256
                     (username user ++ str ":" ++ realm ++ str ":"
                      ++ password))),
     fs)
  /\ (strlen (last_otp user) = num_digits user ->
      authn_otp_check_password dir_conf fs io1 io2 now name password
      = (AUTH_GRANTED, fs)).
Proof.
  intros Hconf Hlook conf password Hrange Hnow Hshort.
  assert (Hlinger : (last_auth user <=? now)
                    && (now <? to_long (last_auth user + max_linger conf))
                    = true).
  { rewrite to_long_id by exact Hrange.
    apply andb_true_intro. split; [apply Z.leb_le|apply Z.ltb_lt]; lia. }
  split.
  - pose proof (realm_hash_found dir_conf fs fs1 io1 io2 now name realm path
                  user log Hconf Hlook) as H.
    cbv zeta in H. fold conf in H. rewrite Hlinger in H.
    rewrite (snprintf_s_fits 32) in H by exact Hshort. exact H.
  - intros Hlen.
    destruct (check_password_found strftime_local strptime_mktime dir_conf fs
                fs1 io1 io2 now name password path user log Hconf Hlook)
      as [_ ->].
    assert (Hpin : check_pin user password = Some (last_otp user)).
    { unfold check_pin, password.
      destruct (algorithm user =? OTP_ALGORITHM_MOTP); cbn [negb];
        [reflexivity|].
      assert (H : strncmp0_len (pin user ++ last_otp user) (pin user) = true)
        by (apply strncmp0_len_prefix; exists (last_otp user); reflexivity).
      rewrite H. cbn [negb]. rewrite skipn_prefix. reflexivity. }
    rewrite Hpin. unfold check_otp. rewrite Hlen, Z.eqb_refl. cbn [negb].
    unfold strcmp0. rewrite cstr_eqb_refl. fold conf. rewrite Hlinger.
    reflexivity.
Qed.

End DigestFacts.

(* ----------------------------------------------------------------- *)
(** ** Reading back what an update has written *)

Lemma gets_full_line (n : nat) :
  forall (body y : cstring),
    Forall (fun c => ascii_eqb c newline = false) body ->
    (List.length body < n)%nat ->
    apr_file_gets n (body ++ newline :: y) = (body ++ [newline], y).
Proof.
  induction n as [|n IH]; intros body y Hb Hlen; [lia|].
  destruct body as [|c body].
  - cbn [app apr_file_gets]. unfold ascii_eqb. rewrite Ascii.eqb_refl.
    reflexivity.
  - inversion Hb as [|? ? Hc Hrest]; subst.
    cbn [app apr_file_gets]. rewrite Hc.
    rewrite IH by (assumption || (simpl in Hlen; lia)). reflexivity.
Qed.

(** A line that is read with something left after it ends in a newline
    or fills the buffer: it is read the same whatever follows. *)
Lemma gets_stable (n : nat) :
  forall (l x y : cstring),
    apr_file_gets n (l ++ x) = (l, x) -> x <> [] ->
    apr_file_gets n (l ++ y) = (l, y).
Proof.
  induction n as [|n IH]; intros l x y H Hx.
  - cbn [apr_file_gets] in H. injection H as H1 H2.
    subst l. reflexivity.
  - destruct l as [|c l].
    + exfalso. cbn [app] in H. destruct x as [|c x]; [contradiction|].
      cbn [apr_file_gets] in H.
      destruct (ascii_eqb c newline); [discriminate|].
      destruct (apr_file_gets n x). discriminate.
    + cbn [app apr_file_gets] in *.
      destruct (ascii_eqb c newline).
      * injection H as H1 H2. subst l. reflexivity.
      * destruct (apr_file_gets n (l ++ x)) as [l1 r1] eqn:E.
        injection H as -> ->.
        rewrite (IH l x y E Hx). reflexivity.
Qed.

Lemma reads_as_read_lines (fuel : nat) :
  forall s, (List.length s <= fuel)%nat -> reads_as (read_lines fuel s).
Proof.
  induction fuel as [|f IH]; intros s Hs; [exact I|].
  destruct s as [|c s]; [exact I|]. cbn [read_lines].
  destruct (apr_file_gets_spec 1023 (c :: s)) as (H1 & H2 & H3).
  destruct (apr_file_gets 1023 (c :: s)) as [l r] eqn:E. cbn [fst snd] in *.
  assert (Hl : l <> []) by (apply H3; [discriminate|lia]).
  assert (Hr : (List.length r <= f)%nat).
  { apply (f_equal (@List.length ascii)) in H1.
    rewrite length_app in H1. simpl in H1, Hs.
    destruct l; [contradiction|]. simpl in H1. lia. }
  cbn [reads_as]. split; [exact Hl|]. split; [|apply IH; exact Hr].
  destruct (read_lines_spec f r Hr) as [-> _]. rewrite H1. exact E.
Qed.

Lemma reads_as_file_lines (content : cstring) : reads_as (file_lines content).
Proof. apply reads_as_read_lines. lia. Qed.

Lemma reads_as_nonempty (ls : list cstring) :
  reads_as ls -> List.concat ls = [] -> ls = [].
Proof.
  destruct ls as [|l rest]; [reflexivity|].
  cbn [reads_as List.concat]. intros (Hl & _) H.
  apply app_eq_nil in H. destruct H as [H _]. contradiction.
Qed.

(** Lines that are read back one by one are the lines of their file. *)
Lemma file_lines_concat (ls : list cstring) :
  reads_as ls -> file_lines (List.concat ls) = ls.
Proof.
  unfold file_lines.
  assert (H : forall fuel, reads_as ls ->
                (List.length (List.concat ls) <= fuel)%nat ->
                read_lines fuel (List.concat ls) = ls);
    [|intros Hr; apply H; [exact Hr|lia]].
  induction ls as [|l rest IH]; intros fuel Hr Hfuel.
  - destruct fuel; reflexivity.
  - cbn [reads_as] in Hr. destruct Hr as (Hl & Hg & Hrest).
    cbn [List.concat] in *.
    destruct l as [|c l]; [contradiction|].
    rewrite length_app in Hfuel. cbn [List.length] in Hfuel.
    destruct fuel as [|f]; [lia|].
    change ((c :: l) ++ List.concat rest) with (c :: (l ++ List.concat rest)).
    cbn [read_lines].
    change (c :: (l ++ List.concat rest)) with ((c :: l) ++ List.concat rest).
    rewrite Hg. f_equal. apply IH; [exact Hrest|lia].
Qed.

Lemma reads_as_rewrite (new_line body : cstring) (user : otp_user)
    (ls : list cstring) :
  new_line = body ++ [newline] ->
  Forall (fun c => ascii_eqb c newline = false) body ->
  (List.length body < 1023)%nat ->
  reads_as ls -> reads_as (map (rewrite_line new_line user) ls).
Proof.
  intros Hnew Hbody Hlen. induction ls as [|l rest IH]; [intros _; exact I|].
  cbn [reads_as map]. intros (Hl & Hg & Hrest).
  specialize (IH Hrest). split; [|split; [|exact IH]].
  - unfold rewrite_line. destruct (names_user user l); [|exact Hl].
    rewrite Hnew. destruct body; discriminate.
  - unfold rewrite_line at 1 3. destruct (names_user user l).
    + rewrite Hnew, <- app_assoc. cbn [app].
      apply gets_full_line; assumption.
    + destruct rest as [|l2 rest2]; [exact Hg|].
      apply (gets_stable 1023 l (List.concat (l2 :: rest2))); [exact Hg|].
      intros H. apply reads_as_nonempty in H; [discriminate|exact Hrest].
Qed.

Lemma first_named (user : otp_user) (ls : list cstring) :
  existsb (names_user user) ls = true ->
  exists pre l post,
    ls = pre ++ l :: post
    /\ Forall (fun l0 => names_user user l0 = false) pre
    /\ names_user user l = true.
Proof.
  induction ls as [|l rest IH]; [discriminate|].
  cbn [existsb]. destruct (names_user user l) eqn:E.
  - intros _. exists [], l, rest. repeat split; [constructor|exact E].
  - cbn [orb]. intros H. destruct (IH H) as (pre & l0 & post & -> & Hpre & Hl).
    exists (l :: pre), l0, post. split; [reflexivity|].
    split; [constructor; assumption|exact Hl].
Qed.

Lemma map_rewrite_prefix (new_line : cstring) (user : otp_user)
    (pre : list cstring) :
  Forall (fun l0 => names_user user l0 = false) pre ->
  map (rewrite_line new_line user) pre = pre.
Proof.
  induction 1 as [|l pre Hl Hpre IH]; [reflexivity|].
  cbn [map]. unfold rewrite_line at 1. rewrite Hl, IH. reflexivity.
Qed.

Lemma not_ws_not_newline (c : ascii) :
  is_ws c = false -> ascii_eqb c newline = false.
Proof.
  unfold is_ws, strchr, WHITESPACE. cbn [existsb]. intros H.
  repeat (apply orb_false_iff in H; destruct H as [? H]).
  assumption.
Qed.

Lemma token_no_newline (t : cstring) :
  is_token t -> Forall (fun c => ascii_eqb c newline = false) t.
Proof.
  intros [_ H]. eapply Forall_impl; [|exact H].
  intros c. apply not_ws_not_newline.
Qed.

Lemma spaces_no_newline (n : nat) :
  Forall (fun c => ascii_eqb c newline = false) (repeat " "%char n).
Proof.
  apply Forall_forall. intros c Hin. apply repeat_spec in Hin. subst c.
  reflexivity.
Qed.

Lemma padded_no_newline (w : Z) (t : cstring) :
  is_token t ->
  Forall (fun c => ascii_eqb c newline = false) (pad_right " "%char w t).
Proof.
  intros Ht. unfold pad_right. apply Forall_app.
  split; [apply token_no_newline; exact Ht|apply spaces_no_newline].
Qed.

Section RoundTrip.

Variable strftime_local : Z -> cstring.
Variable strptime_mktime : cstring -> option Z.

Local Abbreviation print_user := (print_user strftime_local).
Local Abbreviation scan_line := (scan_line strptime_mktime).
Local Abbreviation scan_entries := (scan_entries strftime_local strptime_mktime).
Local Abbreviation find_update_user :=
  (find_update_user strftime_local strptime_mktime).
Local Abbreviation valid_user := (valid_user strftime_local strptime_mktime).

(** In read-only mode the flag [found] tells that the line names the
    user. *)
Lemma scan_line_names (u : otp_user) (l : cstring) :
  snd (scan_line false u false l) = names_user u l.
Proof.
  unfold names_user, scan_line. rewrite !fields_unfold.
  destruct (hd_is "#" l).
  { cbn [snd]. repeat (break_match; try reflexivity). }
  destruct (apr_strtok WHITESPACE l) as [[ty r1]|]; [|reflexivity].
  rewrite fields_unfold.
  destruct (parse_token_type ty) as [tok|].
  - destruct (apr_strtok WHITESPACE r1) as [[name r2]|]; [|reflexivity].
    cbn [negb andb]. destruct (strcmp0 name (username u)); cbn [negb];
      [|reflexivity].
    repeat (break_match; try reflexivity).
  - destruct (apr_strtok WHITESPACE r1) as [[name r2]|]; reflexivity.
Qed.

Lemma scan_line_found_names (u res : otp_user) (l : cstring) :
  fst (fst (scan_line false u false l)) = LineFound -> names_user u l = true.
Proof.
  rewrite <- scan_line_names. unfold scan_line.
  repeat (break_match; cbn [fst snd]; try discriminate; try reflexivity).
Qed.

Lemma names_user_username (u1 u2 : otp_user) (l : cstring) :
  username u1 = username u2 -> names_user u1 l = names_user u2 l.
Proof. intros H. unfold names_user. rewrite H. reflexivity. Qed.


(** The line [print_user] writes for a valid record is one line of
    text. *)
Lemma print_user_line (r : otp_user) :
  valid_user r ->
  exists body,
    print_user r = body ++ [newline]
    /\ Forall (fun c => ascii_eqb c newline = false) body.
Proof.
  intros (Halg & Hti & Hnd & (Hname & _) & Hpin & (Hkne & Hkoct & _) & _
          & Hlast).
  destruct (parse_print_token_type r Halg Hti Hnd) as (_ & Htype & _).
  assert (Hpf : is_token (if is_end (pin r) then str "-" else pin r)).
  { destruct Hpin as [->|(Hp & _)].
    - split; [discriminate|repeat constructor].
    - destruct (pin r); [destruct Hp as [Hp _]; contradiction|exact Hp]. }
  pose proof (hex_key_token (key r) Hkne Hkoct) as Hhex.
  pose proof (fmt_d_token (offset r)) as Hoff.
  unfold print_user. eexists. split; [rewrite !app_assoc; reflexivity|].
  unfold fmt_ls, fmt_ld_left.
  repeat (apply Forall_app; split);
    try apply spaces_no_newline;
    try (apply token_no_newline; assumption);
    try (repeat constructor; fail).
  destruct Hlast as [(Hl & _)|(Hotp & _ & Hts & _)].
  - rewrite Hl. constructor.
  - destruct (is_end (last_otp r)); cbn [negb]; [constructor|].
    repeat (apply Forall_app; split);
      try apply spaces_no_newline;
      try (apply token_no_newline; assumption);
      repeat constructor.
Qed.

(** The line written for a valid record decodes to the record. *)
Lemma scan_line_print_user (r : otp_user) :
  valid_user r ->
  scan_line false (set_username zero_user (username r)) false (print_user r)
  = (LineFound, r, true).
Proof.
  intros Hv.
  pose proof (fields_print_user strftime_local strptime_mktime r Hv)
    as Hfields.
  destruct Hv as (Halg & Hti & Hnd & (Hname & Hnlen) & Hpin
                  & (Hkne & Hkoct & Hklen) & Hoff & Hlast).
  destruct (parse_print_token_type r Halg Hti Hnd) as (Hparse & _ & _).
  assert (Hkey : key_decodes (flat_map fmt_02x (key r)) (key r))
    by (unfold key_decodes; rewrite parse_key_hex by assumption;
        reflexivity).
  assert (Hpn : snprintf_s 128
                  (if strcmp0 (pin_field r) (str "-") then []
                   else pin_field r) = pin r).
  { unfold pin_field. destruct Hpin as [->|(Hp & Hdash & Hplen)].
    - reflexivity.
    - destruct (pin r) as [|c p] eqn:E;
        [destruct Hp as [Hp _]; contradiction|].
      cbn [is_end]. rewrite strcmp0_neq by exact Hdash.
      apply snprintf_s_fits. exact Hplen. }
  set (user := set_username zero_user (username r)).
  destruct (scan_line_by_fields strptime_mktime user false (print_user r)
              (print_token_type r) (username r) (pin_field r)
              (flat_map fmt_02x (key r))
              (fmt_d (offset r)
               :: (if is_end (last_otp r) then []
                   else [last_otp r; strftime_local (last_auth r)]))
              _ (key r) Hfields Hparse eq_refl Hkey)
    as (_ & Hone & _ & Hall).
  destruct Hlast as [(Hl & Ha)|(Hotp & Holen & Hts & Hrt)].
  - rewrite (Hone (fmt_d (offset r))) by (rewrite Hl; reflexivity).
    unfold decoded. rewrite Hpn, atol_fmt_d by exact Hoff.
    rewrite (snprintf_s_fits 128 (username r)) by exact Hnlen.
    destruct r; cbn in *. subst. reflexivity.
  - assert (Hne : is_end (last_otp r) = false)
      by (destruct (last_otp r); [destruct Hotp as [Hotp _]; contradiction
                                 |reflexivity]).
    rewrite (Hall (fmt_d (offset r)) (last_otp r)
               (strftime_local (last_auth r)) [] (last_auth r))
      by (try rewrite Hne; try reflexivity; exact Hrt).
    unfold decoded. rewrite Hpn, atol_fmt_d by exact Hoff.
    rewrite (snprintf_s_fits 128 (username r)) by exact Hnlen.
    rewrite (snprintf_s_fits 128 (last_otp r)) by exact Holen.
    destruct r; reflexivity.
Qed.

(** The files after an update in which every call succeeds, on a users
    file without a NUL byte. *)
Lemma update_files (fs : filesys) (user : otp_user) (content : cstring) :
  fs_users fs = Some content ->
  no_nul content ->
  files_after (find_update_user fs io_ok user true)
  = mk_fs (Some (List.concat (map (rewrite_line (print_user user) user)
                                  (file_lines content))))
          None (Some []).
Proof.
  intros Hfs Hnul.
  unfold find_update_user. cbn [io_ok io_lock_open io_lock io_users_open
    io_new_open io_rename andb negb fs_users fs_new fs_lock].
  rewrite Hfs.
  destruct (scan_entries_update strftime_local strptime_mktime
              (linebuf_lines content) 1 user [] false []
              (linebuf_lines_spec content)) as [lg ->].
  rewrite linebuf_lines_no_nul by exact Hnul. reflexivity.
Qed.

(** The rewritten file holds no NUL byte when the old one and the new
    line hold none. *)
Lemma no_nul_rewrite (new_line content : cstring) (user : otp_user) :
  no_nul content -> no_nul new_line ->
  no_nul (List.concat (map (rewrite_line new_line user) (file_lines content))).
Proof.
  intros Hc Hn. destruct (file_lines_spec content) as [Hcat _].
  rewrite <- Hcat in Hc. apply no_nul_concat in Hc. apply no_nul_concat.
  rewrite Forall_forall in *. intros l Hin. apply in_map_iff in Hin.
  destruct Hin as (l0 & <- & Hin). unfold rewrite_line.
  destruct (names_user user l0); [exact Hn|apply Hc; exact Hin].
Qed.

(** The lookup in the file an update has written. *)
Lemma lookup_after_update (fs : filesys) (io : io_outcome) (r : otp_user)
    (content : cstring) :
  fs_users fs = Some content ->
  no_nul content ->
  valid_user r ->
  (List.length (print_user r) <= 1023)%nat ->
  no_nul (print_user r) ->
  existsb (names_user r) (file_lines content) = true ->
  io_users_open io = true ->
  let fs' := files_after (find_update_user fs io_ok r true) in
  exists log,
    find_update_user fs' io (set_username zero_user (username r)) false
    = (AUTH_USER_FOUND, r, fs', log).
Proof.
  intros Hfs Hnul Hv Hlen Hnl0 Hnamed Hopen fs'.
  destruct (print_user_line r Hv) as (body & Hbody & Hnl).
  assert (Hblen : (List.length body < 1023)%nat).
  { rewrite Hbody, length_app in Hlen. simpl in Hlen. lia. }
  destruct (first_named r (file_lines content) Hnamed)
    as (pre & l & post & Hlines & Hpre & Hl).
  set (u0 := set_username zero_user (username r)).
  assert (Hfs' : fs' = mk_fs (Some (List.concat
                    (map (rewrite_line (print_user r) r) (file_lines content))))
                    None (Some []))
    by (apply update_files; assumption).
  assert (Hread : linebuf_lines (List.concat
                    (map (rewrite_line (print_user r) r) (file_lines content)))
                  = pre ++ print_user r
                      :: map (rewrite_line (print_user r) r) post).
  { rewrite linebuf_lines_no_nul by (apply no_nul_rewrite; assumption).
    rewrite file_lines_concat
      by (apply (reads_as_rewrite _ body); try assumption;
          apply reads_as_file_lines).
    rewrite Hlines, map_app, map_rewrite_prefix by exact Hpre.
    cbn [map]. unfold rewrite_line at 1. rewrite Hl. reflexivity. }
  pose proof Hv as (_ & _ & _ & (_ & Hnlen) & _).
  apply (lookup_first strftime_local strptime_mktime fs' io u0 r
           (List.concat (map (rewrite_line (print_user r) r)
                             (file_lines content)))
           pre (map (rewrite_line (print_user r) r) post) (print_user r)).
  - exact Hnlen.
  - exact Hopen.
  - rewrite Hfs'. reflexivity.
  - exact Hread.
  - rewrite Forall_forall in *. intros l0 Hin Hfound.
    apply (scan_line_found_names u0 r) in Hfound.
    rewrite (names_user_username u0 r l0 eq_refl) in Hfound.
    rewrite (Hpre l0 Hin) in Hfound. discriminate.
  - unfold u0. rewrite (scan_line_print_user r Hv). reflexivity.
Qed.


End RoundTrip.

(* ----------------------------------------------------------------- *)
(** ** The codes are fields of the users file *)

Lemma hexdig_no_ws (d : Z) : is_ws (hexdig d) = false.
Proof.
  unfold hexdig.
  destruct (nth_in_or_default (Z.to_nat d) (str "0123456789abcdef") "0"%char)
    as [Hin|Heq]; [|rewrite Heq; reflexivity].
  set (x := nth (Z.to_nat d) (str "0123456789abcdef") "0"%char) in *.
  cbn [str list_ascii_of_string In] in Hin.
  repeat (destruct Hin as [<-|Hin]; [reflexivity|]). contradiction.
Qed.

Lemma digit_char_no_ws (d : Z) : 0 <= d <= 9 -> is_ws (digit_char d) = false.
Proof.
  intros H. apply isdigit_not_sep. apply digit_char_spec. exact H.
Qed.

Lemma hex_digits_no_ws (n : Z) : Forall (fun x => is_ws x = false) (hex_digits n).
Proof.
  unfold hex_digits. generalize (Z.to_nat (Z.log2 n)) as fuel. intros fuel.
  revert n. induction fuel as [|f IH]; intros n; cbn [digits_fuel].
  - constructor; [apply hexdig_no_ws|constructor].
  - destruct (n <? 16).
    + constructor; [apply hexdig_no_ws|constructor].
    + apply Forall_app. split; [apply IH|].
      constructor; [apply hexdig_no_ws|constructor].
Qed.

Lemma hex_of_octets_no_ws (b : octets) :
  Forall (fun x => is_ws x = false) (hex_of_octets b).
Proof.
  induction b as [|x b IH]; [constructor|].
  unfold hex_of_octets. cbn [flat_map fmt_02x app].
  constructor; [apply hexdig_no_ws|].
  constructor; [apply hexdig_no_ws|exact IH].
Qed.

Lemma Forall_firstn_of (A : Type) (P : A -> Prop) (n : nat) (l : list A) :
  Forall P l -> Forall P (firstn n l).
Proof.
  intros H. revert n. induction H as [|x l Hx Hl IH]; intros n.
  - rewrite firstn_nil. constructor.
  - destruct n as [|n]; [constructor|].
    cbn [firstn]. constructor; [exact Hx|apply IH].
Qed.

Lemma pad_zero_no_ws (w : Z) (s : cstring) :
  Forall (fun x => is_ws x = false) s ->
  Forall (fun x => is_ws x = false) (pad_left "0"%char w s).
Proof.
  intros H. unfold pad_left. apply Forall_app. split; [|exact H].
  apply Forall_forall. intros c Hin. apply repeat_spec in Hin. subst c.
  reflexivity.
Qed.

Lemma is_ws_tolower (c : ascii) : is_ws (apr_tolower c) = is_ws c.
Proof. destruct c as [[] [] [] [] [] [] [] []]; reflexivity. Qed.

Lemma strcasecmp0_no_ws (a b : cstring) :
  strcasecmp0 a b = true ->
  Forall (fun x => is_ws x = false) b -> Forall (fun x => is_ws x = false) a.
Proof.
  unfold strcasecmp0. intros H. apply cstr_eqb_eq in H.
  revert b H. induction a as [|x a IH]; intros b H Hb; [constructor|].
  destruct b as [|y b]; [discriminate|].
  cbn [map] in H. injection H as Hxy Hab.
  inversion Hb as [|? ? Hy Hb']; subst.
  constructor; [|apply (IH b); assumption].
  rewrite <- is_ws_tolower, Hxy, is_ws_tolower. exact Hy.
Qed.

(** The codes generated for a record are free of white space. *)
Lemma gen_otp_no_ws (user : otp_user) (c : Z) :
  1 <= num_digits user <= 10 ->
  Forall (fun x => is_ws x = false) (fst (gen_otp user c))
  /\ Forall (fun x => is_ws x = false) (snd (gen_otp user c)).
Proof.
  intros Hnd. unfold gen_otp.
  destruct (algorithm user =? OTP_ALGORITHM_MOTP); cbn [fst snd].
  - split; [constructor|]. unfold motp.
    rewrite printhex_firstn by apply MD5_range.
    apply Forall_firstn_of. apply hex_of_octets_no_ws.
  - rewrite hotp_unfold. cbv zeta.
    destruct (Z.ltb_spec (num_digits user) 1) as [?|_]; [lia|]. cbn [fst snd].
    set (v := hotp_value (HMAC_SHA1 (key user) (be_octets 8 (to_ulong c)))).
    assert (Hv : 0 <= v < 2 ^ 31)
      by (apply hotp_value_range; apply HMAC_SHA1_range).
    destruct (hotp_buf10 v (num_digits user) Hv Hnd) as [-> _].
    destruct (hotp_buf16 v (num_digits user) Hv Hnd) as [-> _].
    split; apply pad_zero_no_ws.
    + apply dec_digits_no_ws. apply Z.mod_pos_bound.
      apply Z.pow_pos_nonneg; lia.
    + apply hex_digits_no_ws.
Qed.

(** An OTP that matches a generated code is a field of the users
    file. *)
Lemma otp_matches_token (user : otp_user) (c : Z) (otp : cstring) :
  1 <= num_digits user <= 10 ->
  strlen otp = num_digits user ->
  otp_matches user c otp = true -> is_token otp.
Proof.
  intros Hnd Hlen Hm. split.
  - intros ->. unfold strlen in Hlen. simpl in Hlen. lia.
  - destruct (gen_otp_no_ws user c Hnd) as [H10 H16].
    unfold otp_matches in Hm.
    destruct (gen_otp user c) as [b10 b16]. cbn [fst snd] in *.
    apply orb_prop in Hm. destruct Hm as [Hm|Hm].
    + apply cstr_eqb_eq in Hm. subst otp. exact H10.
    + apply (strcasecmp0_no_ws otp b16); assumption.
Qed.

Lemma to_long_range (z : Z) : in_long (to_long z).
Proof.
  unfold in_long, LONG_MIN, LONG_MAX, to_long, wrap_signed.
  pose proof (Z.mod_pos_bound (z + 2 ^ (64 - 1)) (2 ^ 64)). lia.
Qed.

Lemma in_int_long (z : Z) : in_int z -> in_long z.
Proof.
  unfold in_int, in_long, INT_MIN, INT_MAX, LONG_MIN, LONG_MAX. lia.
Qed.
(* ----------------------------------------------------------------- *)
(** ** The fields of a record read from the file *)

Lemma span_token_no_sep (sep s : cstring) :
  Forall (fun c => strchr sep c = false) (fst (span_token sep s)).
Proof.
  induction s as [|c s IH]; [constructor|].
  cbn [span_token]. destruct (strchr sep c) eqn:E; [constructor|].
  destruct (span_token sep s) as [t r]. cbn [fst] in *.
  constructor; assumption.
Qed.

Lemma skip_sep_hd (sep s : cstring) (c : ascii) (s' : cstring) :
  skip_sep sep s = c :: s' -> strchr sep c = false.
Proof.
  induction s as [|x s IH]; [discriminate|].
  cbn [skip_sep]. destruct (strchr sep x) eqn:E; [exact IH|].
  intros H. injection H as <- _. exact E.
Qed.

(** What [apr_strtok] returns for the users file is a field. *)
Lemma apr_strtok_field (s t r : cstring) :
  apr_strtok WHITESPACE s = Some (t, r) -> is_token t.
Proof.
  unfold apr_strtok.
  destruct (skip_sep WHITESPACE s) as [|c s'] eqn:E; [discriminate|].
  pose proof (span_token_no_sep WHITESPACE s') as Hs.
  destruct (span_token WHITESPACE s') as [t' r']. cbn [fst] in Hs.
  intros H. injection H as <- _. split; [discriminate|].
  constructor; [exact (skip_sep_hd _ _ _ _ E)|exact Hs].
Qed.

Lemma snprintf_s_field (n : nat) (t : cstring) :
  (1 < n)%nat -> is_token t -> is_token (snprintf_s n t).
Proof.
  intros Hn [Hne Hall]. unfold snprintf_s. split.
  - destruct t as [|c t]; [contradiction|].
    destruct n as [|[|n]]; [lia|lia|]. discriminate.
  - apply Forall_firstn_of. exact Hall.
Qed.

Section FoundFields.

Variable strptime_mktime : cstring -> option Z.

Local Abbreviation scan_line := (scan_line strptime_mktime).

(** The fields of a record that a line decodes to are fields the file
    can hold. *)
Lemma scan_line_found_fields (u res : otp_user) (f : bool) (l : cstring) :
  fst (scan_line false u f l) = (LineFound, res) -> record_fields res.
Proof.
  intros H.
  pose proof (scan_line_found_wf strptime_mktime u res f l H)
    as (Halg & Hti & Hnd).
  pose proof (scan_line_found_bounds strptime_mktime u res f l H)
    as (Hnlen & Hplen & _ & Hklen & Hkoct & Hoff).
  split; [exact Halg|]. split; [exact Hti|]. split; [exact Hnd|].
  assert (Hfields : is_token (username res)
                    /\ (pin res = [] \/ (is_token (pin res)
                                        /\ pin res <> str "-"))).
  { revert H. unfold scan_line.
    destruct (hd_is "#" l); [discriminate|].
    destruct (apr_strtok WHITESPACE l) as [[ty r1]|]; [|discriminate].
    destruct (parse_token_type ty) as [tok|]; [|discriminate].
    destruct (apr_strtok WHITESPACE r1) as [[name r2]|] eqn:T2;
      [|discriminate].
    destruct (strcmp0 name (username u)); cbn [negb]; [|discriminate].
    destruct (apr_strtok WHITESPACE r2) as [[pn r3]|] eqn:T3;
      [|discriminate].
    apply apr_strtok_field in T2. apply apr_strtok_field in T3.
    assert (Hn : is_token (snprintf_s 128 name))
      by (apply snprintf_s_field; [lia|exact T2]).
    assert (Hp : snprintf_s 128 (if strcmp0 pn (str "-") then [] else pn) = []
                 \/ (is_token (snprintf_s 128
                                 (if strcmp0 pn (str "-") then [] else pn))
                     /\ snprintf_s 128
                          (if strcmp0 pn (str "-") then [] else pn)
                        <> str "-")).
    { destruct (strcmp0 pn (str "-")) eqn:E; [left; reflexivity|right].
      split; [apply snprintf_s_field; [lia|exact T3]|].
      intros Hd. unfold snprintf_s in Hd.
      destruct pn as [|c [|c2 pn]]; cbn [firstn Nat.sub] in Hd;
        try discriminate.
      injection Hd as ->. discriminate. }
    repeat (break_match; cbn [fst]; try discriminate);
      intros H; injection H as <-; split; assumption. }
  destruct Hfields as [Hname Hpin].
  split; [split; assumption|].
  split; [destruct Hpin as [Hp|[Hp Hd]]; [left; exact Hp|right];
          split; [exact Hp|split; assumption]|].
  split; [|exact Hoff].
  split; [intros E; rewrite E in Hklen; simpl in Hklen; lia|].
  split; [exact Hkoct|lia].
Qed.

End FoundFields.

(* ----------------------------------------------------------------- *)
(** ** Verifying again after a grant *)

Section ReplayFacts.

Variable strftime_local : Z -> cstring.
Variable strptime_mktime : cstring -> option Z.

Local Abbreviation print_user := (print_user strftime_local).
Local Abbreviation scan_line := (scan_line strptime_mktime).
Local Abbreviation find_update_user :=
  (find_update_user strftime_local strptime_mktime).
Local Abbreviation check_otp := (check_otp strftime_local strptime_mktime).
Local Abbreviation authn_otp_check_password :=
  (authn_otp_check_password strftime_local strptime_mktime).
Local Abbreviation valid_user := (valid_user strftime_local strptime_mktime).

(** The record written back at [success] is a valid record when the
    C library reads back the time it prints. *)
Lemma success_user_valid (user : otp_user) (now : Z) (otp : cstring)
    (adjust : Z) :
  record_fields user ->
  strlen otp = num_digits user -> is_token otp ->
  is_token (strftime_local now) ->
  strptime_mktime (strftime_local now) = Some now ->
  valid_user (success_user user now otp adjust)
  /\ last_otp (success_user user now otp adjust) = otp.
Proof.
  intros (Halg & Hti & Hnd & Hname & Hpin & Hkey & Hoff) Hlen Htok Hts Hrt.
  assert (Hsnp : snprintf_s 128 otp = otp)
    by (apply snprintf_s_fits; unfold strlen in Hlen; lia).
  unfold success_user, valid_user.
  cbn [algorithm time_interval num_digits username key pin offset last_otp
       last_auth set_offset set_last_otp set_last_auth].
  rewrite Hsnp. split; [|reflexivity].
  split; [exact Halg|]. split; [exact Hti|]. split; [exact Hnd|].
  split; [exact Hname|]. split; [exact Hpin|]. split; [exact Hkey|].
  split.
  - destruct (time_interval user =? 0);
      [apply in_int_long; apply to_int_range|apply to_long_range].
  - right. split; [exact Htok|].
    split; [unfold strlen in Hlen; lia|]. split; assumption.
Qed.

Lemma otp_matches_success (user : otp_user) (now : Z) (otp : cstring)
    (adjust c : Z) (o : cstring) :
  otp_matches (success_user user now otp adjust) c o = otp_matches user c o.
Proof. reflexivity. Qed.

Lemma check_pin_success (user : otp_user) (now : Z) (otp : cstring)
    (adjust : Z) (pw : cstring) :
  check_pin (success_user user now otp adjust) pw = check_pin user pw.
Proof. reflexivity. Qed.

(** A verification that is granted by the window search, and the
    verifications that follow it on the files it leaves. *)
Lemma verify_after_grant (dir_conf : otp_config) (fs fs1 : filesys)
    (io1 : io_outcome) (now : Z) (name pw path otp content : cstring)
    (user : otp_user) (log : list (Z * invalid_reason)) (adjust : Z) :
  users_file dir_conf = Some path ->
  fs_users fs = Some content ->
  no_nul content ->
  find_update_user fs io1 (set_username zero_user (snprintf_s 128 name)) false
  = (AUTH_USER_FOUND, user, fs1, log) ->
  check_pin user pw = Some otp ->
  strlen otp = num_digits user ->
  otp <> last_otp user ->
  window_search (get_config dir_conf) user now otp = Some adjust ->
  is_token (strftime_local now) ->
  strptime_mktime (strftime_local now) = Some now ->
  let user' := success_user user now otp adjust in
  (List.length (print_user user') <= 1023)%nat ->
  no_nul (print_user user') ->
  let fs' := files_after (find_update_user fs io_ok user' true) in
  authn_otp_check_password dir_conf fs io1 io_ok now name pw
  = (AUTH_GRANTED, fs')
  /\ last_otp user' = otp
  /\ forall (io3 io4 : io_outcome) (now2 : Z) (pw2 : cstring),
       io_users_open io3 = true ->
       authn_otp_check_password dir_conf fs' io3 io4 now2 name pw2
       = match check_pin user pw2 with
         | None => (AUTH_DENIED, fs')
         | Some otp2 => check_otp (get_config dir_conf) fs' io4 now2 user' otp2
         end.
Proof.
  intros Hconf Hcontent Hnul Hlook Hpin Hlen Hotp Hws Hts Hrt user' Hline
         Hline0 fs'.
  set (u0 := set_username zero_user (snprintf_s 128 name)) in *.
  assert (Hlen0 : (List.length (username u0) < 128)%nat)
    by (cbn [username set_username u0]; apply snprintf_s_length; lia).
  destruct (check_password_found strftime_local strptime_mktime dir_conf fs
              fs1 io1 io_ok now name pw path user log Hconf Hlook)
    as [Hwf Hfirst].
  destruct (lookup_found_line strftime_local strptime_mktime fs fs1 io1 u0
              user log Hlen0 Hlook) as (content' & l & Hfs & Hin & Hl & Hname).
  rewrite Hcontent in Hfs. injection Hfs as <-. pose proof Hcontent as Hfs.
  rewrite linebuf_lines_no_nul in Hin by exact Hnul.
  assert (Htok : is_token otp).
  { pose proof (window_search_spec (get_config dir_conf) user now otp) as Hs.
    cbv zeta in Hs. rewrite Hws in Hs. destruct Hs as [Hm _].
    destruct Hwf as (_ & _ & Hnd).
    exact (otp_matches_token user _ otp Hnd Hlen Hm). }
  assert (Hv : record_fields user)
    by (apply (scan_line_found_fields strptime_mktime u0 user false l);
        exact Hl).
  destruct (success_user_valid user now otp adjust Hv Hlen Htok Hts Hrt)
    as [Hv' Hlast]. fold user' in Hv', Hlast.
  assert (Hname' : username user' = username u0) by exact Hname.
  assert (Hnamed : existsb (names_user user') (file_lines content) = true).
  { apply existsb_exists. exists l. split; [exact Hin|].
    rewrite (names_user_username user' u0 l Hname').
    apply (scan_line_found_names strptime_mktime u0 user).
    rewrite Hl. reflexivity. }
  split; [|split; [exact Hlast|]].
  - rewrite Hfirst, Hpin, check_otp_window by assumption.
    rewrite Hws. reflexivity.
  - intros io3 io4 now2 pw2 Hopen.
    destruct (lookup_after_update strftime_local strptime_mktime fs io3 user'
                content Hfs Hnul Hv' Hline Hline0 Hnamed Hopen)
      as [log' Hlook'].
    fold fs' in Hlook'. rewrite Hname' in Hlook'.
    destruct (check_password_found strftime_local strptime_mktime dir_conf fs'
                fs' io3 io4 now2 name pw2 path user' log' Hconf Hlook')
      as [_ ->].
    reflexivity.
Qed.

(** X10. Replay of an accepted OTP. When the window search accepts a
    password on a users file that holds no NUL byte, at a time the C
    library prints and reads back, and the update goes through with a
    line that fits the line buffer and holds no NUL byte, a second
    verification of the same password on the files the first one leaves
    is granted as long as the time is within max_linger seconds of the
    first one and denied from then on, and in both cases it leaves the
    files as they are. *)
Theorem accepted_otp_replay (dir_conf : otp_config) (fs fs1 : filesys)
    (io1 io3 io4 : io_outcome) (now : Z) (name pw path otp content : cstring)
    (user : otp_user) (log : list (Z * invalid_reason)) (adjust : Z) :
  users_file dir_conf = Some path ->
  fs_users fs = Some content ->
  no_nul content ->
  find_update_user fs io1 (set_username zero_user (snprintf_s 128 name)) false
  = (AUTH_USER_FOUND, user, fs1, log) ->
  check_pin user pw = Some otp ->
  strlen otp = num_digits user ->
  otp <> last_otp user ->
  let conf := get_config dir_conf in
  window_search conf user now otp = Some adjust ->
  is_token (strftime_local now) ->
  strptime_mktime (strftime_local now) = Some now ->
  (List.length (print_user (success_user user now otp adjust)) <= 1023)%nat ->
  no_nul (print_user (success_user user now otp adjust)) ->
  in_long (now + max_linger conf) ->
  io_users_open io3 = true ->
  let fs' :=
    files_after
      (find_update_user fs io_ok (success_user user now otp adjust) true) in
  authn_otp_check_password dir_conf fs io1 io_ok now name pw
  = (AUTH_GRANTED, fs')
  /\ forall now2,
       authn_otp_check_password dir_conf fs' io3 io4 now2 name pw
       = (if (now <=? now2) && (now2 <? now + max_linger conf)
          then AUTH_GRANTED else AUTH_DENIED, fs').
Proof.
  intros Hconf Hcontent Hnul Hlook Hpin Hlen Hotp conf Hws Hts Hrt Hline
         Hline0 Hrange Hopen fs'.
  destruct (verify_after_grant dir_conf fs fs1 io1 now name pw path otp
              content user log adjust Hconf Hcontent Hnul Hlook Hpin Hlen Hotp
              Hws Hts Hrt Hline Hline0)
    as (Hfirst & Hlast & Hnext).
  split; [exact Hfirst|].
  intros now2. fold fs' in Hnext. rewrite (Hnext io3 io4 now2 pw Hopen), Hpin.
  unfold check_otp.
  change (num_digits (success_user user now otp adjust))
    with (num_digits user).
  rewrite Hlen, Z.eqb_refl. cbn [negb]. rewrite Hlast.
  unfold strcmp0. rewrite cstr_eqb_refl.
  change (last_auth (success_user user now otp adjust)) with now.
  fold conf. rewrite to_long_id by exact Hrange.
  destruct ((now <=? now2) && (now2 <? now + max_linger conf)); reflexivity.
Qed.

(** X11. The counter of an event-based record only moves forward, as
    long as the counters stay below the largest [int]. After the window
    search has accepted a password at the counter [matched], on a users
    file that holds no NUL byte and at a time the C library prints and
    reads back, and the update has gone through with a line that fits
    the line buffer and holds no NUL byte, and when [matched] is below
    the largest [int] and matched + 1 + max_offset is at most the largest
    [int] (so that the counters of the next window do not wrap around), a
    later verification
    of another password is denied unless its OTP is the code of one of
    the counters matched + 1 to matched + 1 + max_offset: the codes of
    the counters up to [matched] are not tried again. *)
Theorem event_counter_moves_forward (dir_conf : otp_config)
    (fs fs1 : filesys) (io1 io3 io4 : io_outcome) (now : Z)
    (name pw path otp content : cstring) (user : otp_user)
    (log : list (Z * invalid_reason)) (adjust : Z) :
  users_file dir_conf = Some path ->
  fs_users fs = Some content ->
  no_nul content ->
  find_update_user fs io1 (set_username zero_user (snprintf_s 128 name)) false
  = (AUTH_USER_FOUND, user, fs1, log) ->
  check_pin user pw = Some otp ->
  strlen otp = num_digits user ->
  otp <> last_otp user ->
  let conf := get_config dir_conf in
  window_search conf user now otp = Some adjust ->
  is_token (strftime_local now) ->
  strptime_mktime (strftime_local now) = Some now ->
  (List.length (print_user (success_user user now otp adjust)) <= 1023)%nat ->
  no_nul (print_user (success_user user now otp adjust)) ->
  io_users_open io3 = true ->
  time_interval user = 0 ->
  let matched := to_int (expected_counter user now + adjust) in
  matched < INT_MAX ->
  matched + 1 + max_offset conf <= INT_MAX ->
  let fs' :=
    files_after
      (find_update_user fs io_ok (success_user user now otp adjust) true) in
  authn_otp_check_password dir_conf fs io1 io_ok now name pw
  = (AUTH_GRANTED, fs')
  /\ forall (now2 : Z) (pw2 otp2 : cstring),
       check_pin user pw2 = Some otp2 ->
       otp2 <> otp ->
       (forall b, 0 <= b <= Z.max 0 (max_offset conf) ->
          otp_matches user (matched + 1 + b) otp2 = false) ->
       authn_otp_check_password dir_conf fs' io3 io4 now2 name pw2
       = (AUTH_DENIED, fs').
Proof.
  intros Hconf Hcontent Hnul Hlook Hpin Hlen Hotp conf Hws Hts Hrt Hline
         Hline0 Hopen Hti matched Hm1 Hm2 fs'.
  destruct (verify_after_grant dir_conf fs fs1 io1 now name pw path otp
              content user log adjust Hconf Hcontent Hnul Hlook Hpin Hlen Hotp
              Hws Hts Hrt Hline Hline0)
    as (Hfirst & Hlast & Hnext).
  split; [exact Hfirst|].
  intros now2 pw2 otp2 Hpin2 Hne Hnone. fold fs' in Hnext.
  rewrite (Hnext io3 io4 now2 pw2 Hopen), Hpin2.
  set (user' := success_user user now otp adjust) in *.
  pose proof (to_int_range (expected_counter user now + adjust)) as Hmr.
  fold matched in Hmr.
  assert (Hoff : offset user' = matched + 1).
  { unfold user', success_user.
    cbn [offset set_offset set_last_otp set_last_auth].
    rewrite Hti. cbn [Z.eqb]. fold matched. apply to_int_id.
    unfold in_int, INT_MIN, INT_MAX in *. lia. }
  assert (Hexp : expected_counter user' now2 = matched + 1).
  { unfold expected_counter.
    change (time_interval user') with (time_interval user).
    rewrite Hti. cbn [Z.eqb]. rewrite Hoff. apply to_int_id.
    unfold in_int, INT_MIN, INT_MAX in *. lia. }
  unfold check_otp.
  destruct (negb (strlen otp2 =? num_digits user')); [reflexivity|].
  rewrite Hlast. rewrite strcmp0_neq by exact Hne.
  pose proof (window_search_spec conf user' now2 otp2) as Hs.
  cbv zeta in Hs. rewrite Hexp in Hs. fold conf.
  destruct (window_search conf user' now2 otp2) as [a|]; [|reflexivity].
  exfalso. destruct Hs as [Hm [->|(_ & Hr & Ha0 & _)]].
  - rewrite Z.add_0_r, to_int_id in Hm
      by (unfold in_int, INT_MIN, INT_MAX in *; lia).
    unfold user' in Hm. rewrite otp_matches_success in Hm.
    specialize (Hnone 0). rewrite Z.add_0_r in Hnone.
    rewrite Hnone in Hm; [discriminate|lia].
  - unfold window_start, window_stop in Hr.
    change (time_interval user') with (time_interval user) in Hr.
    rewrite Hti in Hr. cbn [Z.eqb] in Hr.
    rewrite to_int_id in Hm by (unfold in_int, INT_MIN, INT_MAX in *; lia).
    unfold user' in Hm. rewrite otp_matches_success in Hm.
    rewrite Hnone in Hm; [discriminate|lia].
Qed.

End ReplayFacts.

(* ----------------------------------------------------------------- *)
(** ** The key field *)

Lemma hex_nibble_hexdig (c : ascii) (n : Z) :
  hex_nibble c = Some n -> hexdig n = apr_tolower c.
Proof.
  intros H.
  destruct c as [[] [] [] [] [] [] [] []]; vm_compute in H;
    try discriminate; injection H as <-; reflexivity.
Qed.

Lemma fmt_02x_nibbles (n0 n1 : Z) :
  0 <= n0 < 16 -> 0 <= n1 < 16 ->
  fmt_02x (Z.lor (Z.shiftl n0 4) n1) = [hexdig n0; hexdig n1].
Proof.
  intros H0 H1. rewrite lor_shiftl_add by lia. change (2 ^ 4) with 16.
  unfold fmt_02x.
  replace ((n0 * 16 + n1) / 16) with n0
    by (apply Z.div_unique with n1; lia).
  replace ((n0 * 16 + n1) mod 16) with n1
    by (apply Z.mod_unique with n0; lia).
  reflexivity.
Qed.

Lemma hex_of_octets_app (a b : octets) :
  hex_of_octets (a ++ b) = hex_of_octets a ++ hex_of_octets b.
Proof. unfold hex_of_octets. apply flat_map_app. Qed.

Lemma parse_key_decoded (room : nat) :
  forall (s : cstring) (acc k : octets),
    parse_key room s acc = (k, inr tt) ->
    hex_of_octets k
    = hex_of_octets acc ++ map apr_tolower (firstn (2 * room) s).
Proof.
  induction room as [|room IH]; intros s acc k H.
  - simpl in H. injection H as <-. simpl. rewrite app_nil_r. reflexivity.
  - cbn [parse_key] in H.
    destruct s as [|c0 s1].
    { injection H as <-. rewrite firstn_nil. simpl. rewrite app_nil_r.
      reflexivity. }
    destruct (hex_nibble c0) as [n0|] eqn:E0; [|discriminate].
    destruct s1 as [|c1 s2]; [discriminate|].
    destruct (hex_nibble c1) as [n1|] eqn:E1; [|discriminate].
    apply IH in H. rewrite H, hex_of_octets_app.
    unfold hex_of_octets at 2. cbn [flat_map]. rewrite app_nil_r.
    rewrite fmt_02x_nibbles by (eapply hex_nibble_range; eassumption).
    rewrite (hex_nibble_hexdig c0 n0 E0), (hex_nibble_hexdig c1 n1 E1).
    replace (2 * S room)%nat with (S (S (2 * room))) by lia.
    cbn [firstn map]. rewrite <- app_assoc. reflexivity.
Qed.

Lemma parse_key_rejected (room : nat) :
  forall (s bad : cstring) (acc k : octets),
    parse_key room s acc = (k, inl bad) ->
    (exists pre, s = pre ++ bad)
    /\ match bad with
       | [] => True
       | c :: _ => hex_nibble c = None
       end.
Proof.
  induction room as [|room IH]; intros s bad acc k H.
  - simpl in H. discriminate.
  - cbn [parse_key] in H.
    destruct s as [|c0 s1]; [discriminate|].
    destruct (hex_nibble c0) as [n0|] eqn:E0.
    2:{ injection H as _ <-. split; [exists []; reflexivity|exact E0]. }
    destruct s1 as [|c1 s2].
    { injection H as _ <-. split; [exists [c0]; reflexivity|exact I]. }
    destruct (hex_nibble c1) as [n1|] eqn:E1.
    2:{ injection H as _ <-. split; [exists [c0]; reflexivity|exact E1]. }
    apply IH in H. destruct H as [[pre ->] Hbad].
    split; [exists (c0 :: c1 :: pre); reflexivity|exact Hbad].
Qed.

(** X12. The key field of a line. The key loop reads at most 256
    octets, whatever the length of the field. When it accepts the field,
    the octets printed in hex are the first 512 characters of the field
    in lower case: hex digits are read in either case, two for each
    octet, and what follows the 512th is left out. When it rejects the
    field, the text reported is the rest of the field from a character
    that is no hex digit, or the empty rest of a field with an odd
    number of hex digits. *)
Theorem key_field_decoding (s : cstring) (k : octets)
    (e : cstring + unit) :
  parse_key 256 s [] = (k, e) ->
  is_octets k /\ (List.length k <= 256)%nat
  /\ match e with
     | inr _ => hex_of_octets k = map apr_tolower (firstn 512 s)
     | inl bad =>
         (exists pre, s = pre ++ bad)
         /\ match bad with
            | [] => True
            | c :: _ => hex_nibble c = None
            end
     end.
Proof.
  intros H.
  destruct (parse_key_bounds 256 s [] k e H (Forall_nil _)) as (Hoct & Hlen & _).
  split; [exact Hoct|]. split; [simpl in Hlen; lia|].
  destruct e as [bad|[]].
  - exact (parse_key_rejected 256 s bad [] k H).
  - exact (parse_key_decoded 256 s [] k H).
Qed.

(* ----------------------------------------------------------------- *)
(** ** Token types and codes at the bounds *)

(** X13. Every token type [parse_token_type] accepts gives an
    algorithm that is HOTP or MOTP, a time interval from 0 to [INT_MAX]
    and a number of digits from 1 to the number of entries of
    [powers10]. *)
Theorem token_type_ranges (ty : cstring) (tok : otp_user) :
  parse_token_type ty = Some tok ->
  (algorithm tok = OTP_ALGORITHM_HOTP \/ algorithm tok = OTP_ALGORITHM_MOTP)
  /\ 0 <= time_interval tok <= INT_MAX
  /\ 1 <= num_digits tok <= powers10_len.
Proof. intros H. exact (parse_token_type_wf ty tok H). Qed.

(** X14. [hotp] takes any number of digits: one below 1 counts as 1,
    and one above the number of entries of [powers10] counts as that
    number, for the decimal and for the hexadecimal code. *)
Theorem hotp_digits_clamped (key : octets) (counter ndigits : Z)
    (buflen : nat) :
  hotp key counter ndigits buflen
  = hotp key counter (Z.max 1 (Z.min ndigits powers10_len)) buflen.
Proof.
  rewrite !hotp_unfold. cbv zeta. change powers10_len with 10.
  destruct (Z.ltb_spec ndigits 1) as [H1|H1].
  - replace (Z.max 1 (Z.min ndigits 10)) with 1 by lia. reflexivity.
  - destruct (Z.ltb_spec ndigits 10) as [H2|H2].
    + replace (Z.max 1 (Z.min ndigits 10)) with ndigits by lia.
      destruct (Z.ltb_spec ndigits 1) as [?|_]; [lia|].
      destruct (Z.ltb_spec ndigits 10) as [_|?]; [|lia]. reflexivity.
    + replace (Z.max 1 (Z.min ndigits 10)) with 10 by lia.
      cbn [Z.ltb Z.compare Pos.compare Pos.compare_cont].
      destruct (Z.ltb_spec ndigits 8) as [?|_]; [lia|]. reflexivity.
Qed.

(* ----------------------------------------------------------------- *)
(** ** Configuration *)

(** X15. The configuration in effect after a merge. A maximum offset
    or linger time set in the new configuration wins; one that is unset
    (-1) is taken from the base configuration, and from the default (4,
    and 600 seconds) when that has none either. The users file is the
    one of the new configuration, or else of the base; when neither has
    one the field is left as the allocation returned it. A request
    without configuration gets the defaults and no users file, and
    merging a configuration that sets nothing onto a base with a users
    file changes nothing. *)
Theorem merged_config_effective (uninit : option cstring)
    (base new : otp_config) :
  let eff := get_config (merge_authn_otp_dir_config uninit base new) in
  max_offset eff
  = (if max_offset new =? -1 then max_offset (get_config base)
     else max_offset new)
  /\ max_linger eff
     = (if max_linger new =? -1 then max_linger (get_config base)
        else max_linger new)
  /\ (forall f, users_file new = Some f -> users_file eff = Some f)
  /\ (users_file new = None ->
      forall f, users_file base = Some f -> users_file eff = Some f)
  /\ (users_file new = None -> users_file base = None ->
      users_file eff = uninit)
  /\ get_request_config None = mk_config None DEFAULT_MAX_OFFSET DEFAULT_MAX_LINGER
  /\ (users_file base <> None ->
      get_config (merge_authn_otp_dir_config uninit base
                    create_authn_otp_dir_config)
      = get_config base).
Proof.
  cbv zeta. unfold get_config, merge_authn_otp_dir_config.
  cbn [users_file max_offset max_linger].
  split.
  { destruct (max_offset new =? -1) eqn:E; cbn [negb]; [reflexivity|].
    rewrite E. reflexivity. }
  split.
  { destruct (max_linger new =? -1) eqn:E; cbn [negb]; [reflexivity|].
    rewrite E. reflexivity. }
  split; [intros f ->; reflexivity|].
  split; [intros -> f ->; reflexivity|].
  split; [intros -> ->; reflexivity|].
  split; [reflexivity|].
  intros Hf. cbn [create_authn_otp_dir_config users_file max_offset
                  max_linger Z.eqb negb].
  destruct (users_file base); [reflexivity|contradiction].
Qed.

(* ----------------------------------------------------------------- *)
(** ** The status of a lookup *)

Section LookupStatus.

Variable strftime_local : Z -> cstring.
Variable strptime_mktime : cstring -> option Z.

Local Abbreviation scan_line := (scan_line strptime_mktime).
Local Abbreviation scan_entries := (scan_entries strftime_local strptime_mktime).
Local Abbreviation find_update_user :=
  (find_update_user strftime_local strptime_mktime).

(** X16. The status of a lookup. The files are left as they were. When
    the users file cannot be opened (it does not exist, or the open
    fails) the result is a general error; otherwise the result is "user
    found" when some line of the file decodes for the user and "user not
    found" when none does. The lines are the strings the scan decodes
    ([linebuf_lines]): each line read, up to its first NUL byte if it
    holds one. *)
Theorem lookup_status (fs : filesys) (io : io_outcome) (u : otp_user) :
  (List.length (username u) < 128)%nat ->
  let '(status, res, fs', _) := find_update_user fs io u false in
  fs' = fs
  /\ match (if io_users_open io then fs_users fs else None) with
     | None => status = AUTH_GENERAL_ERROR
     | Some content =>
         let decodes l := fst (fst (scan_line false u false l)) = LineFound in
         (Exists decodes (linebuf_lines content) -> status = AUTH_USER_FOUND)
         /\ (~ Exists decodes (linebuf_lines content) ->
             status = AUTH_USER_NOT_FOUND)
     end.
Proof.
  intros Hlen. unfold find_update_user. cbn [andb].
  destruct (if io_users_open io then fs_users fs else None) as [content|];
    [|split; reflexivity].
  pose proof (scan_entries_lookup_result strftime_local strptime_mktime
                (linebuf_lines content) 1 u [] false [] Hlen) as Hres.
  destruct (scan_entries false (linebuf_lines content) 1 u [] false [])
    as [r lg|uu nn ff lg] eqn:E; cbn [negb].
  - split; [reflexivity|]. cbv zeta. split; [reflexivity|].
    intros Hno. exfalso. apply Hno.
    destruct Hres as [(l & Hin & Hl) _].
    apply Exists_exists. exists l. split; [exact Hin|].
    rewrite Hl. reflexivity.
  - split; [reflexivity|]. cbv zeta. destruct Hres as [Hall _]. split.
    + intros Hex. exfalso. apply Exists_exists in Hex.
      destruct Hex as (l & Hin & Hl). rewrite Forall_forall in Hall.
      exact (Hall l Hin Hl).
    + intros _. reflexivity.
Qed.

End LookupStatus.

(* ----------------------------------------------------------------- *)
(** ** Digest authentication within the linger time *)

Section DigestLinger.

Variable strftime_local : Z -> cstring.
Variable strptime_mktime : cstring -> option Z.

Local Abbreviation print_user := (print_user strftime_local).
Local Abbreviation find_update_user :=
  (find_update_user strftime_local strptime_mktime).
Local Abbreviation authn_otp_get_realm_hash :=
  (authn_otp_get_realm_hash strftime_local strptime_mktime).
Local Abbreviation valid_user := (valid_user strftime_local strptime_mktime).

Lemma digest_otp_token (user : otp_user) (c : Z) :
  record_wf user -> is_token (digest_otp user c).
Proof.
  intros Hwf. pose proof (digest_otp_length user c Hwf) as Hlen.
  destruct Hwf as (_ & _ & Hnd).
  apply (otp_matches_token user c); [exact Hnd|exact Hlen|].
  apply digest_otp_matches.
Qed.

Lemma digest_user_valid (user : otp_user) (now c : Z) :
  record_fields user ->
  is_token (strftime_local now) ->
  strptime_mktime (strftime_local now) = Some now ->
  valid_user (digest_user user now c (digest_otp user c))
  /\ last_otp (digest_user user now c (digest_otp user c)) = digest_otp user c.
Proof.
  intros (Halg & Hti & Hnd & Hname & Hpin & Hkey & Hoff) Hts Hrt.
  assert (Hwf : record_wf user) by (split; [exact Halg|split; assumption]).
  pose proof (digest_otp_length user c Hwf) as Hlen.
  pose proof (digest_otp_token user c Hwf) as Htok.
  assert (Hsnp : snprintf_s 128 (digest_otp user c) = digest_otp user c)
    by (apply snprintf_s_fits; unfold strlen in Hlen; lia).
  unfold digest_user, valid_user. rewrite Hsnp.
  destruct (time_interval user =? 0) eqn:E;
    cbn [algorithm time_interval num_digits username key pin offset last_otp
         last_auth set_offset set_last_otp set_last_auth];
    (split; [|reflexivity]);
    (split; [exact Halg|]); (split; [exact Hti|]); (split; [exact Hnd|]);
    (split; [exact Hname|]); (split; [exact Hpin|]); (split; [exact Hkey|]);
    (split; [first [exact Hoff | apply in_int_long; apply to_int_range]|]);
    right; (split; [exact Htok|]);
    (split; [unfold strlen in Hlen; lia|]); split; assumption.
Qed.

(** X17. Past the linger time [authn_otp_get_realm_hash] writes the
    record back, and from then on, for max_linger seconds, it returns the
    same hash for the user and leaves the files as they are: the counter
    is used up once, by the first request. The users file holds no NUL
    byte, the new line of the record fits the line buffer and holds no
    NUL byte, every call of the update succeeds, and the C library reads
    back the time it prints. *)
Theorem realm_hash_repeats_within_linger (dir_conf : otp_config)
    (fs fs1 : filesys) (io1 io3 io4 : io_outcome) (now : Z)
    (name realm path content : cstring) (user : otp_user)
    (log : list (Z * invalid_reason)) :
  users_file dir_conf = Some path ->
  fs_users fs = Some content ->
  no_nul content ->
  find_update_user fs io1 (set_username zero_user (snprintf_s 128 name)) false
  = (AUTH_USER_FOUND, user, fs1, log) ->
  let conf := get_config dir_conf in
  let counter := expected_counter user now in
  let otp := digest_otp user counter in
  let user' := digest_user user now counter otp in
  (last_auth user <=? now)
  && (now <? to_long (last_auth user + max_linger conf)) = false ->
  is_token (strftime_local now) ->
  strptime_mktime (strftime_local now) = Some now ->
  (List.length (print_user user') <= 1023)%nat ->
  no_nul (print_user user') ->
  in_long (now + max_linger conf) ->
  io_users_open io3 = true ->
  let fs' := files_after (find_update_user fs io_ok user' true) in
  let rethash := ap_md5 (digest_hashbuf user realm otp) in
  authn_otp_get_realm_hash dir_conf fs io1 io_ok now name realm
  = (AUTH_USER_FOUND, Some rethash, fs')
  /\ forall now2, now <= now2 < now + max_linger conf ->
       authn_otp_get_realm_hash dir_conf fs' io3 io4 now2 name realm
       = (AUTH_USER_FOUND, Some rethash, fs').
Proof.
  intros Hconf Hcontent Hnul Hlook conf counter otp user' Hlinger Hts Hrt
         Hline Hline0 Hrange Hopen fs' rethash.
  set (u0 := set_username zero_user (snprintf_s 128 name)) in *.
  assert (Hlen0 : (List.length (username u0) < 128)%nat)
    by (cbn [username set_username u0]; apply snprintf_s_length; lia).
  destruct (lookup_found_line strftime_local strptime_mktime fs fs1 io1 u0
              user log Hlen0 Hlook) as (content' & l & Hfs & Hin & Hl & Hname).
  rewrite Hcontent in Hfs. injection Hfs as <-. pose proof Hcontent as Hfs.
  rewrite linebuf_lines_no_nul in Hin by exact Hnul.
  destruct (lookup_bounds strftime_local strptime_mktime fs fs1 io1 u0 user log
              Hlen0 Hlook) as (_ & Hwf & _).
  assert (Hv : record_fields user)
    by (apply (scan_line_found_fields strptime_mktime u0 user false l);
        exact Hl).
  destruct (digest_user_valid user now counter Hv Hts Hrt) as [Hv' Hlast].
  fold otp in Hv', Hlast. fold user' in Hv', Hlast.
  assert (Hname' : username user' = username u0).
  { unfold user', digest_user. destruct (time_interval user =? 0); exact Hname. }
  assert (Hnamed : existsb (names_user user') (file_lines content) = true).
  { apply existsb_exists. exists l. split; [exact Hin|].
    rewrite (names_user_username user' u0 l Hname').
    apply (scan_line_found_names strptime_mktime u0 user).
    rewrite Hl. reflexivity. }
  split.
  - pose proof (realm_hash_found strftime_local strptime_mktime dir_conf fs
                  fs1 io1 io_ok now name realm path user log Hconf Hlook) as H.
    cbv zeta in H. fold conf in H. rewrite Hlinger in H. exact H.
  - intros now2 Hnow2.
    destruct (lookup_after_update strftime_local strptime_mktime fs io3 user'
                content Hfs Hnul Hv' Hline Hline0 Hnamed Hopen)
      as [log' Hlook'].
    fold fs' in Hlook'. rewrite Hname' in Hlook'.
    pose proof (realm_hash_found strftime_local strptime_mktime dir_conf fs'
                  fs' io3 io4 now2 name realm path user' log' Hconf Hlook')
      as H.
    cbv zeta in H. fold conf in H.
    assert (Hauth : last_auth user' = now) by reflexivity.
    rewrite Hauth, to_long_id in H by exact Hrange.
    assert (Hin2 : (now <=? now2) && (now2 <? now + max_linger conf) = true).
    { apply andb_true_intro. split; [apply Z.leb_le|apply Z.ltb_lt]; lia. }
    rewrite Hin2, Hlast in H. rewrite H.
    assert (Hshort : snprintf_s 32 otp = otp).
    { apply snprintf_s_fits.
      pose proof (digest_otp_length user counter Hwf) as Hl2.
      fold otp in Hl2. destruct Hwf as (_ & _ & Hnd).
      unfold strlen in Hl2. lia. }
    rewrite Hshort.
    assert (Hbuf : digest_hashbuf user' realm otp = digest_hashbuf user realm otp).
    { unfold digest_hashbuf, user', digest_user.
      destruct (time_interval user =? 0); reflexivity. }
    rewrite Hbuf. reflexivity.
Qed.

End DigestLinger.

(* ----------------------------------------------------------------- *)
(** ** Lines longer than the line buffer *)

Lemma gets_full_buffer (n : nat) :
  forall (body y : cstring),
    Forall (fun c => ascii_eqb c newline = false) body ->
    List.length body = n ->
    apr_file_gets n (body ++ y) = (body, y).
Proof.
  induction n as [|n IH]; intros body y Hb Hlen.
  - destruct body; [reflexivity|discriminate].
  - destruct body as [|c body]; [discriminate|].
    inversion Hb as [|? ? Hc Hrest]; subst.
    cbn [app apr_file_gets]. rewrite Hc.
    rewrite IH by (assumption || (simpl in Hlen; lia)). reflexivity.
Qed.

(** X18. A line of 1023 characters or more is read in pieces: the
    first 1023 characters, when no newline is among them, are one line of
    the scan, and what follows them in the file is read as the lines that
    follow, as if a newline stood in between. *)
Theorem long_line_is_split (body rest : cstring) :
  Forall (fun c => ascii_eqb c newline = false) body ->
  List.length body = 1023%nat ->
  file_lines (body ++ rest) = body :: file_lines rest.
Proof.
  intros Hb Hlen.
  destruct (file_lines_spec rest) as [Hcat _].
  rewrite <- Hcat at 1.
  change (body ++ List.concat (file_lines rest))
    with (List.concat (body :: file_lines rest)).
  apply file_lines_concat. cbn [reads_as].
  split; [destruct body; [discriminate|discriminate]|].
  split; [apply gets_full_buffer; assumption|apply reads_as_file_lines].
Qed.

(* ----------------------------------------------------------------- *)
(** ** Updates and the other users *)

Section Frame.

Variable strftime_local : Z -> cstring.
Variable strptime_mktime : cstring -> option Z.

Local Abbreviation print_user := (print_user strftime_local).
Local Abbreviation scan_line := (scan_line strptime_mktime).
Local Abbreviation scan_entries := (scan_entries strftime_local strptime_mktime).
Local Abbreviation find_update_user :=
  (find_update_user strftime_local strptime_mktime).
Local Abbreviation valid_user := (valid_user strftime_local strptime_mktime).

(** A line whose second field is another name is passed over. *)
Lemma scan_line_other_name (u : otp_user) (f : bool) (l ty name : cstring)
    (more : list cstring) (tok : otp_user) :
  fields l = ty :: name :: more ->
  hd_is "#" l = false ->
  parse_token_type ty = Some tok ->
  name <> username u ->
  scan_line false u f l = (LineCopy, u, f).
Proof.
  intros Hf Hhash Hty Hne.
  apply fields_cons in Hf. destruct Hf as (r1 & T1 & Hf).
  apply fields_cons in Hf. destruct Hf as (r2 & T2 & _).
  unfold scan_line. rewrite Hhash, T1, Hty, T2.
  rewrite strcmp0_neq by exact Hne. reflexivity.
Qed.

Lemma names_user_fields (r : otp_user) (l : cstring) :
  names_user r l = true ->
  exists ty more tok,
    fields l = ty :: username r :: more
    /\ hd_is "#" l = false /\ parse_token_type ty = Some tok.
Proof.
  unfold names_user.
  destruct (fields l) as [|ty [|name more]]; try discriminate.
  intros H. apply andb_prop in H. destruct H as [H Hname].
  apply andb_prop in H. destruct H as [Hhash Hty].
  apply cstr_eqb_eq in Hname. subst name.
  destruct (parse_token_type ty) as [tok|] eqn:Etok; [|discriminate].
  exists ty, more, tok. split; [reflexivity|].
  split; [|exact Etok]. destruct (hd_is "#" l); [discriminate|reflexivity].
Qed.

(** For the lookup of another user, the line written for a record
    counts as the lines it replaces do. *)
Lemma scan_line_rewrite_other (r u : otp_user) (f : bool) (l : cstring) :
  valid_user r -> username u <> username r ->
  scan_line false u f (rewrite_line (print_user r) r l)
  = scan_line false u f l.
Proof.
  intros Hv Hne. unfold rewrite_line.
  destruct (names_user r l) eqn:E; [|reflexivity].
  destruct (names_user_fields r l E) as (ty & more & tok & Hf & Hhash & Hty).
  rewrite (scan_line_other_name u f l ty (username r) more tok Hf Hhash Hty)
    by (intros H; apply Hne; symmetry; exact H).
  pose proof (fields_print_user strftime_local strptime_mktime r Hv) as Hfp.
  destruct Hv as (Halg & Hti & Hnd & _).
  destruct (parse_print_token_type r Halg Hti Hnd) as (Hparse & _ & _).
  cbn [app] in Hfp.
  eapply scan_line_other_name; [exact Hfp| |exact Hparse|].
  - eapply token_type_not_comment; eassumption.
  - intros H. apply Hne. symmetry. exact H.
Qed.

Lemma scan_entries_rewrite_other (r : otp_user) (lines : list cstring) :
  valid_user r ->
  forall (n : Z) (u : otp_user) (nf : cstring) (fd : bool)
         (log : list (Z * invalid_reason)),
    (List.length (username u) < 128)%nat ->
    username u <> username r ->
    scan_entries false (map (rewrite_line (print_user r) r) lines) n u nf fd log
    = scan_entries false lines n u nf fd log.
Proof.
  intros Hv. induction lines as [|l rest IH]; intros n u nf fd log Hlen Hne;
    [reflexivity|].
  cbn [map scan_entries].
  rewrite (scan_line_rewrite_other r u fd l Hv Hne).
  pose proof (scan_line_lookup_username strptime_mktime u fd l Hlen) as Hname.
  destruct (scan_line false u fd l) as [[res u'] fd'].
  cbn [fst snd] in Hname.
  destruct res; try reflexivity;
    apply IH; rewrite Hname; assumption.
Qed.

(** X19. An update of one user leaves the other users alone. When an
    update with a valid record, whose line fits the line buffer and
    holds no NUL byte, goes through on a users file that holds no NUL
    byte, the lookup of a user of another name returns in the file the
    update leaves what it returned before: the same status, the same
    record and the same warnings. *)
Theorem update_keeps_other_users (fs : filesys) (io : io_outcome)
    (r u : otp_user) (content : cstring) :
  fs_users fs = Some content ->
  no_nul content ->
  valid_user r ->
  (List.length (print_user r) <= 1023)%nat ->
  no_nul (print_user r) ->
  (List.length (username u) < 128)%nat ->
  username u <> username r ->
  io_users_open io = true ->
  let fs' := files_after (find_update_user fs io_ok r true) in
  let '(status, res, _, log) := find_update_user fs io u false in
  find_update_user fs' io u false = (status, res, fs', log).
Proof.
  intros Hfs Hnul Hv Hline Hline0 Hlen Hne Hopen fs'.
  destruct (print_user_line strftime_local strptime_mktime r Hv)
    as (body & Hbody & Hnl).
  assert (Hblen : (List.length body < 1023)%nat).
  { rewrite Hbody, length_app in Hline. simpl in Hline. lia. }
  assert (Hfs' : fs' = mk_fs (Some (List.concat
                    (map (rewrite_line (print_user r) r) (file_lines content))))
                    None (Some []))
    by (apply update_files; assumption).
  assert (Hread : linebuf_lines (List.concat
                    (map (rewrite_line (print_user r) r) (file_lines content)))
                  = map (rewrite_line (print_user r) r) (file_lines content)).
  { rewrite linebuf_lines_no_nul by (apply no_nul_rewrite; assumption).
    apply file_lines_concat. apply (reads_as_rewrite _ body); try assumption.
    apply reads_as_file_lines. }
  assert (Hu : fs_users fs'
               = Some (List.concat
                         (map (rewrite_line (print_user r) r)
                              (file_lines content))))
    by (rewrite Hfs'; reflexivity).
  destruct (find_update_user fs io u false) as [[[st res] fs0] lg] eqn:Eo.
  unfold find_update_user in *. cbn [andb] in *.
  rewrite Hopen in *. rewrite Hfs in Eo. rewrite Hu, Hread.
  rewrite (linebuf_lines_no_nul content Hnul) in Eo.
  rewrite (scan_entries_rewrite_other r (file_lines content) Hv 1 u [] false []
             Hlen Hne).
  destruct (scan_entries false (file_lines content) 1 u [] false [])
    as [res1 lg1|uu nn ff lg1]; cbn [negb] in *;
    injection Eo as <- <- _ <-; reflexivity.
Qed.

End Frame.

(* ----------------------------------------------------------------- *)
(** ** Updating twice *)

Section Idempotence.

Variable strftime_local : Z -> cstring.
Variable strptime_mktime : cstring -> option Z.

Local Abbreviation print_user := (print_user strftime_local).
Local Abbreviation scan_line := (scan_line strptime_mktime).
Local Abbreviation find_update_user :=
  (find_update_user strftime_local strptime_mktime).
Local Abbreviation valid_user := (valid_user strftime_local strptime_mktime).

(** The line written for a valid record names its user. *)
Lemma names_user_print_user (r : otp_user) :
  valid_user r -> names_user r (print_user r) = true.
Proof.
  intros Hv.
  rewrite (names_user_username r (set_username zero_user (username r))
             (print_user r) eq_refl).
  rewrite <- (scan_line_names strptime_mktime).
  rewrite (scan_line_print_user strftime_local strptime_mktime r Hv).
  reflexivity.
Qed.

Lemma rewrite_line_twice (r : otp_user) (lines : list cstring) :
  valid_user r ->
  map (rewrite_line (print_user r) r)
      (map (rewrite_line (print_user r) r) lines)
  = map (rewrite_line (print_user r) r) lines.
Proof.
  intros Hv. rewrite map_map. apply map_ext. intros l.
  unfold rewrite_line. destruct (names_user r l) eqn:E.
  - rewrite (names_user_print_user r Hv). reflexivity.
  - rewrite E. reflexivity.
Qed.

Lemma existsb_rewrite (r : otp_user) (lines : list cstring) :
  valid_user r ->
  existsb (names_user r) (map (rewrite_line (print_user r) r) lines)
  = existsb (names_user r) lines.
Proof.
  intros Hv. induction lines as [|l rest IH]; [reflexivity|].
  cbn [map existsb]. rewrite IH. f_equal.
  unfold rewrite_line. destruct (names_user r l) eqn:E; [|exact E].
  apply names_user_print_user. exact Hv.
Qed.

(** X20. An update is idempotent. When an update with a valid record,
    whose line fits the line buffer and holds no NUL byte, has gone
    through on a users file that holds no NUL byte, the same update on
    the files it leaves goes through again and leaves them as they are:
    the users file with the same content, no new file, and the lock
    file. *)
Theorem update_idempotent (fs : filesys) (r : otp_user) (content : cstring) :
  fs_users fs = Some content ->
  no_nul content ->
  valid_user r ->
  (List.length (print_user r) <= 1023)%nat ->
  no_nul (print_user r) ->
  let fs' := files_after (find_update_user fs io_ok r true) in
  files_after (find_update_user fs' io_ok r true) = fs'
  /\ fst (fst (fst (find_update_user fs' io_ok r true)))
     = fst (fst (fst (find_update_user fs io_ok r true))).
Proof.
  intros Hfs Hnul Hv Hline Hline0 fs'.
  destruct (print_user_line strftime_local strptime_mktime r Hv)
    as (body & Hbody & Hnl).
  assert (Hblen : (List.length body < 1023)%nat).
  { rewrite Hbody, length_app in Hline. simpl in Hline. lia. }
  set (lines' := map (rewrite_line (print_user r) r) (file_lines content)).
  assert (Hfs' : fs' = mk_fs (Some (List.concat lines')) None (Some []))
    by (apply update_files; assumption).
  assert (Hnul' : no_nul (List.concat lines'))
    by (apply no_nul_rewrite; assumption).
  assert (Hread : file_lines (List.concat lines') = lines').
  { apply file_lines_concat. apply (reads_as_rewrite _ body); try assumption.
    apply reads_as_file_lines. }
  assert (Hu : fs_users fs' = Some (List.concat lines'))
    by (rewrite Hfs'; reflexivity).
  split.
  - rewrite (update_files strftime_local strptime_mktime fs' r _ Hu Hnul').
    rewrite Hread. unfold lines'. rewrite rewrite_line_twice by exact Hv.
    fold lines'. symmetry. exact Hfs'.
  - destruct (file_lines_spec content) as [_ Hlen].
    destruct (file_lines_spec (List.concat lines')) as [_ Hlen'].
    unfold find_update_user. cbn [io_ok io_lock_open io_lock io_users_open
      io_new_open io_rename andb negb fs_users fs_new fs_lock].
    rewrite Hu, Hfs.
    rewrite (linebuf_lines_no_nul _ Hnul), (linebuf_lines_no_nul _ Hnul').
    destruct (scan_entries_update strftime_local strptime_mktime
                (file_lines (List.concat lines')) 1 r [] false [] Hlen')
      as [lg1 ->].
    destruct (scan_entries_update strftime_local strptime_mktime
                (file_lines content) 1 r [] false [] Hlen) as [lg2 ->].
    cbn [fst orb]. rewrite Hread. unfold lines'.
    rewrite (existsb_rewrite r (file_lines content) Hv). reflexivity.
Qed.

End Idempotence.

(* ----------------------------------------------------------------- *)
(** ** What a grant tells *)

Section Soundness.

Variable strftime_local : Z -> cstring.
Variable strptime_mktime : cstring -> option Z.

Local Abbreviation find_update_user :=
  (find_update_user strftime_local strptime_mktime).
Local Abbreviation check_otp := (check_otp strftime_local strptime_mktime).
Local Abbreviation authn_otp_check_password :=
  (authn_otp_check_password strftime_local strptime_mktime).

Lemma check_pin_stripped (user : otp_user) (pw otp : cstring) :
  check_pin user pw = Some otp ->
  pw = (if algorithm user =? OTP_ALGORITHM_MOTP then [] else pin user) ++ otp.
Proof.
  unfold check_pin.
  destruct (algorithm user =? OTP_ALGORITHM_MOTP); cbn [negb].
  - intros H. injection H as <-. reflexivity.
  - destruct (strncmp0_len pw (pin user)) eqn:E; cbn [negb]; [|discriminate].
    apply strncmp0_len_prefix in E. destruct E as [rest ->].
    rewrite skipn_prefix. intros H. injection H as <-. reflexivity.
Qed.

(** X21. A grant tells that the password checks. Whenever
    [authn_otp_check_password] grants, the lookup has found a record of
    the user; the password is the PIN of the record (none for mOTP)
    followed by an OTP of num_digits characters; and either the OTP is
    the last OTP of the record, the time is within the linger time and
    the files are as they were, or the OTP is not the last OTP and is the
    code of the expected counter or of a counter of the window, and the
    files are those the update of the record leaves. *)
Theorem grant_tells_password_checks (dir_conf : otp_config) (fs fs' : filesys)
    (io1 io2 : io_outcome) (now : Z) (name pw : cstring) :
  authn_otp_check_password dir_conf fs io1 io2 now name pw
  = (AUTH_GRANTED, fs') ->
  let conf := get_config dir_conf in
  exists (user : otp_user) (log : list (Z * invalid_reason)) (otp : cstring),
    find_update_user fs io1 (set_username zero_user (snprintf_s 128 name))
      false
    = (AUTH_USER_FOUND, user, fs, log)
    /\ pw = (if algorithm user =? OTP_ALGORITHM_MOTP then [] else pin user)
            ++ otp
    /\ strlen otp = num_digits user
    /\ ((otp = last_otp user
         /\ last_auth user <= now < to_long (last_auth user + max_linger conf)
         /\ fs' = fs)
        \/ (otp <> last_otp user
            /\ exists adjust,
                 (adjust = 0
                  \/ window_start conf user <= adjust <= window_stop conf user)
                 /\ otp_matches user
                      (to_int (expected_counter user now + adjust)) otp = true
                 /\ fs' = files_after
                            (find_update_user fs io2
                               (success_user user now otp adjust) true))).
Proof.
  intros H conf. revert H.
  unfold authn_otp_check_password. cbn [get_config users_file].
  destruct (users_file dir_conf) as [path|]; [|intros H; discriminate H].
  destruct (find_update_user fs io1
              (set_username zero_user (snprintf_s 128 name)) false)
    as [[[st user] fs1] lg] eqn:Hlook.
  destruct (lookup_files strftime_local strptime_mktime _ _ _ _ _ _ _ Hlook)
    as [-> Hst].
  destruct st; try (destruct Hst as [Hst|[Hst|Hst]]; discriminate Hst);
    try (intros H; discriminate H).
  cbv beta iota.
  destruct (check_pin user pw) as [otp|] eqn:Hpin; [|intros H; discriminate H].
  intros H. exists user, lg, otp.
  split; [reflexivity|]. split; [apply check_pin_stripped; exact Hpin|].
  revert H. unfold check_otp. fold conf.
  destruct (Z.eqb_spec (strlen otp) (num_digits user)) as [Hlen|Hlen];
    cbn [negb]; [|intros H; discriminate H].
  intros H. split; [exact Hlen|].
  destruct (strcmp0 otp (last_otp user)) eqn:Hcmp.
  - left. apply cstr_eqb_eq in Hcmp.
    destruct (Z.leb_spec (last_auth user) now) as [H1|H1];
      cbn [andb] in H; [|discriminate].
    destruct (Z.ltb_spec now (to_long (last_auth user + max_linger conf)))
      as [H2|H2]; [|discriminate].
    injection H as <-. split; [exact Hcmp|]. split; [lia|reflexivity].
  - right. split.
    { intros E. rewrite E in Hcmp. unfold strcmp0 in Hcmp.
      rewrite cstr_eqb_refl in Hcmp. discriminate. }
    pose proof (window_search_spec conf user now otp) as Hs. cbv zeta in Hs.
    destruct (window_search conf user now otp) as [adjust|]; [|discriminate].
    exists adjust. destruct Hs as [Hm Hwhere].
    split; [destruct Hwhere as [->|(_ & Hr & _)]; [left; reflexivity
                                                  |right; exact Hr]|].
    split; [exact Hm|].
    destruct (find_update_user fs io2 (success_user user now otp adjust) true)
      as [[[st2 u2] fs2] lg2].
    injection H as <-. reflexivity.
Qed.

End Soundness.

(* ================================================================= *)
(** * Worked examples of the further properties *)

(** The record of "bob", as the users file of the examples holds it, is
    a valid record. *)
Lemma bob_record_valid :
  valid_user utc_strftime utc_strptime_mktime (bob_record [] 10 [] 0).
Proof.
  unfold valid_user, bob_record, is_token, is_octets, in_long, INT_MAX,
    LONG_MIN, LONG_MAX.
  cbn [algorithm time_interval num_digits username pin key offset last_otp
       last_auth].
  split; [left; reflexivity|]. split; [lia|]. split; [lia|].
  split; [split; [split; [discriminate|repeat constructor]
                 |cbn [List.length str list_ascii_of_string]; lia]|].
  split; [left; reflexivity|].
  split; [split; [discriminate|];
          split; [vm_compute; repeat constructor; discriminate
                 |vm_compute; lia]|].
  split; [lia|]. left. split; reflexivity.
Qed.

Lemma time_1700000000_reads_back :
  is_token (utc_strftime 1700000000)
  /\ utc_strptime_mktime (utc_strftime 1700000000) = Some 1700000000.
Proof.
  split; [|vm_compute; reflexivity].
  split; [discriminate|vm_compute; repeat constructor].
Qed.

Lemma key_field_decoding_witness :
  parse_key 256 (str "0aFF3") [] = ([10; 255], inl [])
  /\ parse_key 256 (str "0aFF30") [] = ([10; 255; 48], inr tt)
  /\ hex_of_octets [10; 255; 48] = str "0aff30".
Proof.
  assert (H1 : parse_key 256 (str "0aFF3") [] = ([10; 255], inl []))
    by reflexivity.
  assert (H2 : parse_key 256 (str "0aFF30") [] = ([10; 255; 48], inr tt))
    by reflexivity.
  split; [exact H1|]. split; [exact H2|].
  destruct (key_field_decoding (str "0aFF30") [10; 255; 48] (inr tt) H2)
    as (_ & _ & H).
  rewrite H. reflexivity.
Defined.

Lemma token_type_ranges_witness :
  parse_token_type (str "motp/T30/8")
  = Some (set_tokinfo zero_user OTP_ALGORITHM_MOTP 30 8)
  /\ 1 <= 8 <= powers10_len.
Proof.
  assert (H : parse_token_type (str "motp/T30/8")
              = Some (set_tokinfo zero_user OTP_ALGORITHM_MOTP 30 8))
    by reflexivity.
  split; [exact H|].
  destruct (token_type_ranges _ _ H) as (_ & _ & Hnd). exact Hnd.
Defined.

Lemma lookup_returns_first_valid_entry_witness :
  let content :=
    str "# users" ++ nl
    ++ str "HOTP bob 1234 zz" ++ nl
    ++ str "HOTP bob - 3132333435363738393031323334353637383930 10" ++ nl
    ++ str "HOTP bob - 00 77" ++ nl in
  linebuf_lines content
  = [str "# users" ++ nl; str "HOTP bob 1234 zz" ++ nl]
    ++ (str "HOTP bob - 3132333435363738393031323334353637383930 10" ++ nl)
    :: [str "HOTP bob - 00 77" ++ nl]
  /\ exists log,
       find_update_user utc_strftime utc_strptime_mktime (store_of content)
         io_ok lookup_bob false
       = (AUTH_USER_FOUND, bob_record [] 10 [] 0, store_of content, log).
Proof.
  intros content.
  assert (Hlines : linebuf_lines content
    = [str "# users" ++ nl; str "HOTP bob 1234 zz" ++ nl]
      ++ (str "HOTP bob - 3132333435363738393031323334353637383930 10" ++ nl)
      :: [str "HOTP bob - 00 77" ++ nl]) by (vm_compute; reflexivity).
  split; [exact Hlines|].
  apply (lookup_returns_first_valid_entry utc_strftime utc_strptime_mktime
           (store_of content) io_ok lookup_bob (bob_record [] 10 [] 0) content
           _ _ _ ltac:(vm_compute; lia) eq_refl eq_refl Hlines).
  - repeat constructor; vm_compute; discriminate.
  - vm_compute. reflexivity.
Defined.

Lemma lookup_record_within_buffers_witness :
  let content :=
    str "HOTP bob - 3132333435363738393031323334353637383930 10" ++ nl in
  find_update_user utc_strftime utc_strptime_mktime (store_of content) io_ok
    lookup_bob false
  = (AUTH_USER_FOUND, bob_record [] 10 [] 0, store_of content, [])
  /\ (0 < List.length (key (bob_record [] 10 [] 0)) <= 256)%nat.
Proof.
  intros content.
  assert (H : find_update_user utc_strftime utc_strptime_mktime
                (store_of content) io_ok lookup_bob false
              = (AUTH_USER_FOUND, bob_record [] 10 [] 0, store_of content, []))
    by (vm_compute; reflexivity).
  split; [exact H|].
  destruct (lookup_record_within_buffers utc_strftime utc_strptime_mktime
              (store_of content) (store_of content) io_ok lookup_bob
              (bob_record [] 10 [] 0) [] ltac:(vm_compute; lia) H)
    as (_ & _ & _ & _ & _ & _ & Hk & _).
  exact Hk.
Defined.

Lemma lookup_status_witness :
  let content := str "HOTP amy - 00ff 5" ++ nl in
  (List.length (username lookup_bob) < 128)%nat
  /\ fst (fst (fst (find_update_user utc_strftime utc_strptime_mktime
                      (store_of content) io_ok lookup_bob false)))
     = AUTH_USER_NOT_FOUND.
Proof.
  intros content.
  assert (Hlen : (List.length (username lookup_bob) < 128)%nat)
    by (vm_compute; lia).
  split; [exact Hlen|].
  pose proof (lookup_status utc_strftime utc_strptime_mktime
                (store_of content) io_ok lookup_bob Hlen) as H.
  destruct (find_update_user utc_strftime utc_strptime_mktime
              (store_of content) io_ok lookup_bob false)
    as [[[st res] fs'] lg].
  cbn [fst]. destruct H as [_ [_ H]]. apply H.
  intros Hex. apply Exists_exists in Hex. destruct Hex as (l & Hin & Hl).
  destruct Hin as [<-|[]]. vm_compute in Hl. discriminate.
Defined.


Lemma realm_hash_agrees_with_basic_witness :
  let content :=
    str "HOTP bob 1234 3132333435363738393031323334353637383930 10" ++ nl in
  let user := bob_record (str "1234") 10 [] 0 in
  find_update_user utc_strftime utc_strptime_mktime (store_of content) io_ok
    (set_username zero_user (snprintf_s 128 (str "bob"))) false
  = (AUTH_USER_FOUND, user, store_of content, [])
  /\ digest_otp user (expected_counter user 1700000000) = str "403154"
  /\ authn_otp_get_realm_hash utc_strftime utc_strptime_mktime default_conf
       (store_of content) io_ok io_ok 1700000000 (str "bob") (str "realm")
     = (AUTH_USER_FOUND, Some (ap_md5 (str "bob:realm:1234403154")),
        mk_fs (Some (str "HOTP    bob           1234    3132333435363738393031323334353637383930 11      403154  2023-11-14T22:13:20L"
                     ++ nl))
              None (Some []))
  /\ authn_otp_check_password utc_strftime utc_strptime_mktime default_conf
       (store_of content) io_ok io_ok 1700000000 (str "bob")
       (str "1234403154")
     = (AUTH_GRANTED,
        mk_fs (Some (str "HOTP    bob           1234    3132333435363738393031323334353637383930 11      403154  2023-11-14T22:13:20L"
                     ++ nl))
              None (Some [])).
Proof.
  intros content user.
  assert (H1 : users_file default_conf = Some (str "users")) by reflexivity.
  assert (H2 : find_update_user utc_strftime utc_strptime_mktime
                 (store_of content) io_ok
                 (set_username zero_user (snprintf_s 128 (str "bob"))) false
               = (AUTH_USER_FOUND, user, store_of content, []))
    by (vm_compute; reflexivity).
  assert (H3 : (last_auth user <=? 1700000000)
               && (1700000000
                   <? to_long (last_auth user
                               + max_linger (get_config default_conf)))
               = false) by reflexivity.
  assert (H4 : digest_otp user (expected_counter user 1700000000)
               = str "403154") by (vm_compute; reflexivity).
  assert (H5 : digest_otp user (expected_counter user 1700000000)
               <> last_otp user) by (rewrite H4; discriminate).
  split; [exact H2|]. split; [exact H4|].
  destruct (realm_hash_agrees_with_basic utc_strftime utc_strptime_mktime
              default_conf (store_of content) (store_of content) io_ok io_ok
              1700000000 (str "bob") (str "realm") (str "users") user [] H1 H2
              H3 H5) as (Hd & Hb & _).
  rewrite H4 in Hd, Hb. split.
  - rewrite Hd. vm_compute. reflexivity.
  - change (str "1234403154")
      with ((if algorithm user =? OTP_ALGORITHM_MOTP then [] else pin user)
            ++ str "403154").
    rewrite Hb. vm_compute. reflexivity.
Defined.

Lemma realm_hash_within_linger_witness :
  let content :=
    str "HOTP bob 1234 3132333435363738393031323334353637383930 11 403154 2023-11-14T22:13:20L"
    ++ nl in
  let user := bob_record (str "1234") 11 (str "403154") 1700000000 in
  find_update_user utc_strftime utc_strptime_mktime (store_of content) io_ok
    (set_username zero_user (snprintf_s 128 (str "bob"))) false
  = (AUTH_USER_FOUND, user, store_of content, [])
  /\ last_auth user <= 1700000599
     < last_auth user + max_linger (get_config default_conf)
  /\ authn_otp_get_realm_hash utc_strftime utc_strptime_mktime default_conf
       (store_of content) io_ok io_ok 1700000599 (str "bob") (str "realm")
     = (AUTH_USER_FOUND, Some (ap_md5 (str "bob:realm:1234403154")),
        store_of content)
  /\ authn_otp_check_password utc_strftime utc_strptime_mktime default_conf
       (store_of content) io_ok io_ok 1700000599 (str "bob")
       (str "1234403154")
     = (AUTH_GRANTED, store_of content).
Proof.
  intros content user.
  assert (H1 : users_file default_conf = Some (str "users")) by reflexivity.
  assert (H2 : find_update_user utc_strftime utc_strptime_mktime
                 (store_of content) io_ok
                 (set_username zero_user (snprintf_s 128 (str "bob"))) false
               = (AUTH_USER_FOUND, user, store_of content, []))
    by (vm_compute; reflexivity).
  assert (H3 : in_long (last_auth user + max_linger (get_config default_conf)))
    by (vm_compute; split; discriminate).
  assert (H4 : last_auth user <= 1700000599
               < last_auth user + max_linger (get_config default_conf))
    by (vm_compute; split; [discriminate|reflexivity]).
  assert (H5 : (List.length (last_otp user) < 32)%nat) by (vm_compute; lia).
  split; [exact H2|]. split; [exact H4|].
  destruct (realm_hash_within_linger utc_strftime utc_strptime_mktime
              default_conf (store_of content) (store_of content) io_ok io_ok
              1700000599 (str "bob") (str "realm") (str "users") user [] H1 H2
              H3 H4 H5) as (Hd & Hb).
  split; [rewrite Hd; reflexivity|].
  apply Hb. reflexivity.
Defined.

Lemma accepted_otp_replay_witness :
  let content :=
    str "HOTP bob - 3132333435363738393031323334353637383930 10" ++ nl in
  let user := bob_record [] 10 [] 0 in
  let verify fs now :=
    authn_otp_check_password utc_strftime utc_strptime_mktime default_conf fs
      io_ok io_ok now (str "bob") (str "868912") in
  let fs' := snd (verify (store_of content) 1700000000) in
  find_update_user utc_strftime utc_strptime_mktime (store_of content) io_ok
    (set_username zero_user (snprintf_s 128 (str "bob"))) false
  = (AUTH_USER_FOUND, user, store_of content, [])
  /\ window_search (get_config default_conf) user 1700000000 (str "868912")
     = Some 2
  /\ fst (verify (store_of content) 1700000000) = AUTH_GRANTED
  /\ verify fs' 1700000599 = (AUTH_GRANTED, fs')
  /\ verify fs' 1700000600 = (AUTH_DENIED, fs').
Proof.
  intros content user verify fs'.
  assert (H1 : users_file default_conf = Some (str "users")) by reflexivity.
  assert (H2 : find_update_user utc_strftime utc_strptime_mktime
                 (store_of content) io_ok
                 (set_username zero_user (snprintf_s 128 (str "bob"))) false
               = (AUTH_USER_FOUND, user, store_of content, []))
    by (vm_compute; reflexivity).
  assert (H3 : check_pin user (str "868912") = Some (str "868912"))
    by reflexivity.
  assert (H4 : strlen (str "868912") = num_digits user) by reflexivity.
  assert (H5 : str "868912" <> last_otp user) by discriminate.
  assert (H6 : window_search (get_config default_conf) user 1700000000
                 (str "868912") = Some 2) by (vm_compute; reflexivity).
  destruct time_1700000000_reads_back as [H7 H8].
  assert (H9 : (List.length
                  (print_user utc_strftime
                     (success_user user 1700000000 (str "868912") 2))
                <= 1023)%nat) by (vm_compute; lia).
  assert (H10 : in_long (1700000000 + max_linger (get_config default_conf)))
    by (vm_compute; split; discriminate).
  assert (Hc : fs_users (store_of content) = Some content) by reflexivity.
  assert (Hn : no_nul content) by (vm_compute; reflexivity).
  assert (Hn' : no_nul (print_user utc_strftime
                          (success_user user 1700000000 (str "868912") 2)))
    by (vm_compute; reflexivity).
  split; [exact H2|]. split; [exact H6|].
  destruct (accepted_otp_replay utc_strftime utc_strptime_mktime default_conf
              (store_of content) (store_of content) io_ok io_ok io_ok
              1700000000 (str "bob") (str "868912") (str "users")
              (str "868912") content user [] 2 H1 Hc Hn H2 H3 H4 H5 H6 H7 H8
              H9 Hn' H10 eq_refl)
    as [Hfirst Hnext].
  unfold fs', verify. rewrite Hfirst. cbn [fst snd].
  split; [reflexivity|].
  split; [rewrite Hnext; reflexivity|rewrite Hnext; reflexivity].
Defined.

Lemma event_counter_moves_forward_witness :
  let content :=
    str "HOTP bob - 3132333435363738393031323334353637383930 10" ++ nl in
  let user := bob_record [] 10 [] 0 in
  let verify fs pw :=
    authn_otp_check_password utc_strftime utc_strptime_mktime default_conf fs
      io_ok io_ok 1700000000 (str "bob") pw in
  let fs' := snd (verify (store_of content) (str "868912")) in
  window_search (get_config default_conf) user 1700000000 (str "868912")
  = Some 2
  /\ to_int (expected_counter user 1700000000 + 2) = 12
  /\ otp_matches user 11 (str "481090") = true
  /\ fst (verify (store_of content) (str "868912")) = AUTH_GRANTED
  /\ verify fs' (str "481090") = (AUTH_DENIED, fs').
Proof.
  intros content user verify fs'.
  assert (H1 : users_file default_conf = Some (str "users")) by reflexivity.
  assert (H2 : find_update_user utc_strftime utc_strptime_mktime
                 (store_of content) io_ok
                 (set_username zero_user (snprintf_s 128 (str "bob"))) false
               = (AUTH_USER_FOUND, user, store_of content, []))
    by (vm_compute; reflexivity).
  assert (H3 : check_pin user (str "868912") = Some (str "868912"))
    by reflexivity.
  assert (H4 : strlen (str "868912") = num_digits user) by reflexivity.
  assert (H5 : str "868912" <> last_otp user) by discriminate.
  assert (H6 : window_search (get_config default_conf) user 1700000000
                 (str "868912") = Some 2) by (vm_compute; reflexivity).
  destruct time_1700000000_reads_back as [H7 H8].
  assert (H9 : (List.length
                  (print_user utc_strftime
                     (success_user user 1700000000 (str "868912") 2))
                <= 1023)%nat) by (vm_compute; lia).
  assert (H10 : to_int (expected_counter user 1700000000 + 2) < INT_MAX)
    by (vm_compute; reflexivity).
  assert (H11 : to_int (expected_counter user 1700000000 + 2) + 1
                + max_offset (get_config default_conf) <= INT_MAX)
    by (vm_compute; discriminate).
  assert (Hc : fs_users (store_of content) = Some content) by reflexivity.
  assert (Hn : no_nul content) by (vm_compute; reflexivity).
  assert (Hn' : no_nul (print_user utc_strftime
                          (success_user user 1700000000 (str "868912") 2)))
    by (vm_compute; reflexivity).
  split; [exact H6|]. split; [reflexivity|].
  split; [vm_compute; reflexivity|].
  destruct (event_counter_moves_forward utc_strftime utc_strptime_mktime
              default_conf (store_of content) (store_of content) io_ok io_ok
              io_ok 1700000000 (str "bob") (str "868912") (str "users")
              (str "868912") content user [] 2 H1 Hc Hn H2 H3 H4 H5 H6 H7 H8
              H9 Hn' eq_refl eq_refl H10 H11) as [Hfirst Hnext].
  unfold fs', verify. rewrite Hfirst. cbn [fst snd].
  split; [reflexivity|].
  apply (Hnext 1700000000 (str "481090") (str "481090") eq_refl);
    [discriminate|].
  intros b Hb.
  assert (E : b = 0 \/ b = 1 \/ b = 2 \/ b = 3 \/ b = 4)
    by (change (0 <= b <= 4) in Hb; lia).
  destruct E as [->|[->|[->|[->| ->]]]]; vm_compute; reflexivity.
Defined.

Lemma realm_hash_repeats_within_linger_witness :
  let content :=
    str "HOTP bob - 3132333435363738393031323334353637383930 10" ++ nl in
  let user := bob_record [] 10 [] 0 in
  let digest fs now :=
    authn_otp_get_realm_hash utc_strftime utc_strptime_mktime default_conf fs
      io_ok io_ok now (str "bob") (str "realm") in
  let fs' := snd (digest (store_of content) 1700000000) in
  digest (store_of content) 1700000000
  = (AUTH_USER_FOUND, Some (ap_md5 (str "bob:realm:403154")), fs')
  /\ fs_users fs'
     = Some (str "HOTP    bob           -       3132333435363738393031323334353637383930 11      403154  2023-11-14T22:13:20L"
             ++ nl)
  /\ digest fs' 1700000599
     = (AUTH_USER_FOUND, Some (ap_md5 (str "bob:realm:403154")), fs').
Proof.
  intros content user digest fs'.
  assert (H1 : users_file default_conf = Some (str "users")) by reflexivity.
  assert (H2 : find_update_user utc_strftime utc_strptime_mktime
                 (store_of content) io_ok
                 (set_username zero_user (snprintf_s 128 (str "bob"))) false
               = (AUTH_USER_FOUND, user, store_of content, []))
    by (vm_compute; reflexivity).
  assert (H3 : (last_auth user <=? 1700000000)
               && (1700000000
                   <? to_long (last_auth user
                               + max_linger (get_config default_conf)))
               = false) by reflexivity.
  destruct time_1700000000_reads_back as [H7 H8].
  assert (H4 : digest_otp user (expected_counter user 1700000000)
               = str "403154") by (vm_compute; reflexivity).
  assert (H9 : (List.length
                  (print_user utc_strftime
                     (digest_user user 1700000000
                        (expected_counter user 1700000000)
                        (digest_otp user (expected_counter user 1700000000))))
                <= 1023)%nat) by (vm_compute; lia).
  assert (H10 : in_long (1700000000 + max_linger (get_config default_conf)))
    by (vm_compute; split; discriminate).
  assert (Hc : fs_users (store_of content) = Some content) by reflexivity.
  assert (Hn : no_nul content) by (vm_compute; reflexivity).
  assert (Hn' : no_nul
                  (print_user utc_strftime
                     (digest_user user 1700000000
                        (expected_counter user 1700000000)
                        (digest_otp user (expected_counter user 1700000000)))))
    by (vm_compute; reflexivity).
  destruct (realm_hash_repeats_within_linger utc_strftime utc_strptime_mktime
              default_conf (store_of content) (store_of content) io_ok io_ok
              io_ok 1700000000 (str "bob") (str "realm") (str "users") content
              user [] H1 Hc Hn H2 H3 H7 H8 H9 Hn' H10 eq_refl)
    as [Hfirst Hnext].
  assert (Hh : ap_md5 (digest_hashbuf user (str "realm")
                         (digest_otp user (expected_counter user 1700000000)))
               = ap_md5 (str "bob:realm:403154"))
    by (rewrite H4; reflexivity).
  rewrite Hh in Hfirst, Hnext.
  unfold fs', digest. rewrite Hfirst. cbn [fst snd].
  split; [reflexivity|]. split; [vm_compute; reflexivity|].
  apply Hnext. vm_compute. split; [discriminate|reflexivity].
Defined.

Lemma long_line_is_split_witness :
  let body := "#"%char :: repeat "x"%char 1022 in
  let entry :=
    str "HOTP bob - 3132333435363738393031323334353637383930 10" ++ nl in
  List.length body = 1023%nat
  /\ file_lines (body ++ entry) = [body; entry]
  /\ find_update_user utc_strftime utc_strptime_mktime
       (store_of (body ++ entry)) io_ok lookup_bob false
     = (AUTH_USER_FOUND, bob_record [] 10 [] 0, store_of (body ++ entry), []).
Proof.
  intros body entry.
  assert (Hlen : List.length body = 1023%nat)
    by (unfold body; cbn [List.length]; rewrite repeat_length; reflexivity).
  assert (Hb : Forall (fun c => ascii_eqb c newline = false) body).
  { constructor; [reflexivity|]. apply Forall_forall. intros c Hin.
    apply repeat_spec in Hin. subst c. reflexivity. }
  assert (Hlines : file_lines (body ++ entry) = [body; entry]).
  { rewrite (long_line_is_split body entry Hb Hlen). f_equal. }
  split; [exact Hlen|]. split; [exact Hlines|].
  vm_compute. reflexivity.
Defined.

Lemma update_keeps_other_users_witness :
  let content :=
    str "MOTP amy 1234 0a0bff 0" ++ nl
    ++ str "HOTP bob - 3132333435363738393031323334353637383930 10" ++ nl in
  let r := bob_record [] 13 (str "868912") 1700000000 in
  let amy := set_username zero_user (str "amy") in
  let fs' :=
    files_after
      (find_update_user utc_strftime utc_strptime_mktime (store_of content)
         io_ok r true) in
  fs_users fs'
  = Some (str "MOTP amy 1234 0a0bff 0" ++ nl
          ++ str "HOTP    bob           -       3132333435363738393031323334353637383930 13      868912  2023-11-14T22:13:20L"
          ++ nl)
  /\ find_update_user utc_strftime utc_strptime_mktime (store_of content)
       io_ok amy false
     = (AUTH_USER_FOUND,
        mk_user OTP_ALGORITHM_MOTP 10 6 (str "amy") [10; 11; 255] (str "1234")
                0 [] 0,
        store_of content, [])
  /\ find_update_user utc_strftime utc_strptime_mktime fs' io_ok amy false
     = (AUTH_USER_FOUND,
        mk_user OTP_ALGORITHM_MOTP 10 6 (str "amy") [10; 11; 255] (str "1234")
                0 [] 0,
        fs', []).
Proof.
  intros content r amy fs'.
  assert (Hv : valid_user utc_strftime utc_strptime_mktime r).
  { destruct bob_record_valid as (Ha & Hti & Hnd & Hn & Hp & Hk & _).
    destruct time_1700000000_reads_back as [Ht Hr].
    split; [exact Ha|]. split; [exact Hti|]. split; [exact Hnd|].
    split; [exact Hn|]. split; [exact Hp|]. split; [exact Hk|].
    split; [vm_compute; split; discriminate|].
    right. split; [split; [discriminate|repeat constructor]|].
    split; [vm_compute; lia|]. split; assumption. }
  assert (Hbefore : find_update_user utc_strftime utc_strptime_mktime
                      (store_of content) io_ok amy false
    = (AUTH_USER_FOUND,
       mk_user OTP_ALGORITHM_MOTP 10 6 (str "amy") [10; 11; 255] (str "1234")
               0 [] 0,
       store_of content, [])) by (vm_compute; reflexivity).
  split; [vm_compute; reflexivity|]. split; [exact Hbefore|].
  assert (Hn : no_nul content) by (vm_compute; reflexivity).
  assert (Hn' : no_nul (print_user utc_strftime r))
    by (vm_compute; reflexivity).
  pose proof (update_keeps_other_users utc_strftime utc_strptime_mktime
                (store_of content) io_ok r amy content eq_refl Hn Hv
                ltac:(vm_compute; lia) Hn' ltac:(vm_compute; lia)
                ltac:(discriminate) eq_refl) as H.
  cbv zeta in H. rewrite Hbefore in H. exact H.
Defined.

Lemma update_idempotent_witness :
  let content :=
    str "# users" ++ nl
    ++ str "HOTP bob - 3132333435363738393031323334353637383930 10" ++ nl in
  let r := bob_record [] 10 [] 0 in
  let update fs :=
    files_after (find_update_user utc_strftime utc_strptime_mktime fs io_ok r
                   true) in
  update (store_of content)
  = mk_fs (Some (str "# users" ++ nl
                 ++ str "HOTP    bob           -       3132333435363738393031323334353637383930 10     "
                 ++ nl))
          None (Some [])
  /\ update (update (store_of content)) = update (store_of content).
Proof.
  intros content r update.
  split; [vm_compute; reflexivity|].
  assert (Hn : no_nul content) by (vm_compute; reflexivity).
  assert (Hn' : no_nul (print_user utc_strftime r))
    by (vm_compute; reflexivity).
  destruct (update_idempotent utc_strftime utc_strptime_mktime
              (store_of content) r content eq_refl Hn bob_record_valid
              ltac:(vm_compute; lia) Hn') as [H _].
  exact H.
Defined.

Lemma grant_tells_password_checks_witness :
  let content :=
    str "HOTP bob - 3132333435363738393031323334353637383930 10" ++ nl in
  let fs' :=
    mk_fs (Some (str "HOTP    bob           -       3132333435363738393031323334353637383930 13      868912  2023-11-14T22:13:20L"
                 ++ nl))
          None (Some []) in
  authn_otp_check_password utc_strftime utc_strptime_mktime default_conf
    (store_of content) io_ok io_ok 1700000000 (str "bob") (str "868912")
  = (AUTH_GRANTED, fs')
  /\ exists (user : otp_user) (log : list (Z * invalid_reason)) (otp : cstring),
       find_update_user utc_strftime utc_strptime_mktime (store_of content)
         io_ok (set_username zero_user (snprintf_s 128 (str "bob"))) false
       = (AUTH_USER_FOUND, user, store_of content, log)
       /\ strlen otp = num_digits user.
Proof.
  intros content fs'.
  assert (H : authn_otp_check_password utc_strftime utc_strptime_mktime
                default_conf (store_of content) io_ok io_ok 1700000000
                (str "bob") (str "868912")
              = (AUTH_GRANTED, fs')) by (vm_compute; reflexivity).
  split; [exact H|].
  destruct (grant_tells_password_checks utc_strftime utc_strptime_mktime
              default_conf (store_of content) fs' io_ok io_ok 1700000000
              (str "bob") (str "868912") H)
    as (user & log & otp & Hl & _ & Hlen & _).
  exists user, log, otp. split; assumption.
Defined.

